(** * Outline VPN key bot: key lifecycle, reconciliation and conversation state

    A shallow embedding of the Python sources

      - [utils.py]        (byte and date helpers),
      - [outline_api.py]  (class [OutlineAPI], the remote key client),
      - [database.py]     (class [Database], the local key store),
      - [key_manager.py]  (the chat handlers and the per-user state map),

    followed by the properties of the specification that concern them and
    by further properties of the same code.

    Python values are modelled as follows.  Integers are unbounded ([Z]).
    A [float] is an IEEE 754 binary64 value ([spec_float] at precision 53,
    maximal exponent 1024), with the arithmetic of [SpecFloat].  A [str] is
    a [string]: one [ascii] for an ASCII character, the bytes of its UTF-8
    encoding for any other.  [strip], [int] and [float] are modelled on
    texts of ASCII characters, where they agree with Python; Python also
    reads the decimal digits and the white space of other scripts, so a
    statement about what these functions refuse is made for ASCII texts.
    A dict used as a map is a [gmap]; a JSON answer of the server is a record
    of the fields the code reads, each of them optional.  Exceptions are
    values of [exn]; a function that can raise returns a [py], and a handler
    is a state transformer over [World].

    Left out: the log lines (the figures they print are taken to be numbers
    that can be printed, so that a log line does not raise), the language and
    the rendering of the texts sent (a text is named by its entry in the
    message catalogue), the keyboards sent with them, and failures of the
    chat transport.  SQLite stores integers of 64 bits: the numbers that the
    reconciliation takes from a listing of the server are checked against
    that range, as the driver does; the numbers that the handlers and the
    callers of the other methods write (identities of actors, times, limits
    passed as arguments) are taken to be in it. *)

From Stdlib Require Import ZArith List Ascii String Bool Lia.
From Stdlib Require Import Floats.SpecFloat.
From stdpp Require Import base option list gmap strings fin_maps.

Local Open Scope string_scope.
Local Open Scope Z_scope.

(** ** Python values and exceptions *)

Module Py.

(** The exception classes the modelled code can meet.  [RequestError] is
    the plain [Exception] that [OutlineAPI._request] raises. *)
Inductive exn : Type :=
| ValueError
| OverflowError
| KeyError
| IndexError
| AttributeError
| TypeError
| RequestError.

Inductive py (A : Type) : Type :=
| Ok (a : A)
| Raise (e : exn).
Arguments Ok {A} a.
Arguments Raise {A} e.

Definition is_ok {A} (r : py A) : bool :=
  match r with Ok _ => true | Raise _ => false end.

Definition py_bind {A B} (r : py A) (k : A -> py B) : py B :=
  match r with Ok a => k a | Raise e => Raise e end.

(** *** Characters and [str.strip]

    [str.strip] removes the characters for which [str.isspace] holds; the
    conversions [int] and [float] skip the white space of C only. *)

Definition is_space (c : ascii) : bool :=
  let n := Z.of_nat (nat_of_ascii c) in
  ((9 <=? n) && (n <=? 13)) || ((28 <=? n) && (n <=? 32)).

Definition is_c_space (c : ascii) : bool :=
  let n := Z.of_nat (nat_of_ascii c) in
  ((9 <=? n) && (n <=? 13)) || (n =? 32).

Definition is_digit (c : ascii) : bool :=
  let n := Z.of_nat (nat_of_ascii c) in (48 <=? n) && (n <=? 57).

Definition digit_val (c : ascii) : Z := Z.of_nat (nat_of_ascii c) - 48.

Fixpoint lstrip (space : ascii -> bool) (l : list ascii) : list ascii :=
  match l with
  | c :: l' => if space c then lstrip space l' else l
  | [] => []
  end.

Definition strip_chars (space : ascii -> bool) (l : list ascii) : list ascii :=
  rev (lstrip space (rev (lstrip space l))).

(** [s.strip()] *)
Definition strip (s : string) : string :=
  string_of_list_ascii (strip_chars is_space (list_ascii_of_string s)).

(** *** [str.split(sep)] for a one-character separator *)

Fixpoint split_chars (sep : ascii) (cur : list ascii) (l : list ascii)
  : list (list ascii) :=
  match l with
  | [] => [rev cur]
  | c :: l' =>
      if Ascii.eqb c sep then rev cur :: split_chars sep [] l'
      else split_chars sep (c :: cur) l'
  end.

Definition split (sep : ascii) (s : string) : list string :=
  map string_of_list_ascii (split_chars sep [] (list_ascii_of_string s)).

(** [l[i]] for a non-negative index *)
Definition index {A} (l : list A) (i : nat) : py A :=
  match nth_error l i with Some a => Ok a | None => Raise IndexError end.

(** [s.startswith(p)] *)
Definition startswith (p s : string) : bool := String.prefix p s.

(** *** Decimal digit groups: a digit, then digits with single
    underscores allowed between them.  [digits_from] is entered after a
    digit; it returns the value read so far, the number of digits read
    and the rest of the input. *)

Fixpoint digits_from (acc : Z) (cnt : nat) (l : list ascii)
  : Z * nat * list ascii :=
  match l with
  | [] => (acc, cnt, [])
  | c :: l' =>
      if is_digit c then digits_from (10 * acc + digit_val c) (S cnt) l'
      else if Ascii.eqb c "_"%char then
        match l' with
        | d :: l'' =>
            if is_digit d
            then digits_from (10 * acc + digit_val d) (S cnt) l''
            else (acc, cnt, l)
        | [] => (acc, cnt, l)
        end
      else (acc, cnt, l)
  end.

Definition digitpart (l : list ascii) : option (Z * nat * list ascii) :=
  match l with
  | c :: l' => if is_digit c then Some (digits_from (digit_val c) 1 l') else None
  | [] => None
  end.

(** An optional sign: [true] for a minus. *)
Definition sign (l : list ascii) : bool * list ascii :=
  match l with
  | c :: l' =>
      if Ascii.eqb c "-"%char then (true, l')
      else if Ascii.eqb c "+"%char then (false, l')
      else (false, l)
  | [] => (false, [])
  end.

(** [int(s)] for a string [s], base ten. *)
Definition int_of_chars (l : list ascii) : py Z :=
  let '(neg, l1) := sign (strip_chars is_c_space l) in
  match digitpart l1 with
  | Some (v, _, []) => Ok (if neg then - v else v)
  | _ => Raise ValueError
  end.

Definition int (s : string) : py Z := int_of_chars (list_ascii_of_string s).

(** *** binary64 *)

Definition prec : Z := 53.
Definition emax : Z := 1024.
Definition float : Type := spec_float.

(** The float nearest to an integer ([float(n)] for an [int] [n]). *)
Definition float_of_Z (n : Z) : float := binary_normalize prec emax n 0 false.

(** The float nearest to [m * 10^e], for [m > 0]. *)
Definition float_of_decimal (neg : bool) (m : positive) (e : Z) : float :=
  match e with
  | Zneg k =>
      SFdiv prec emax (S754_finite neg m 0)
            (S754_finite false (Pos.pow 10 k) 0)
  | _ => binary_round prec emax neg (Pos.mul m (Z.to_pos (10 ^ e))) 0
  end.

Definition lower (c : ascii) : ascii :=
  let n := nat_of_ascii c in
  if (65 <=? Z.of_nat n) && (Z.of_nat n <=? 90)
  then ascii_of_nat (n + 32) else c.

Definition lower_is (name : string) (l : list ascii) : bool :=
  String.eqb (string_of_list_ascii (map lower l)) name.

(** The digits of a number: [digitpart ["." [digitpart]]] or
    ["." digitpart].  Returns the integer made of all digits, the number
    of digits after the point and the rest. *)
Definition number (l : list ascii) : option (Z * nat * list ascii) :=
  match digitpart l with
  | Some (i, _, r) =>
      match r with
      | c :: r' =>
          if Ascii.eqb c "."%char then
            match digitpart r' with
            | Some (f, nf, r'') => Some (i * 10 ^ Z.of_nat nf + f, nf, r'')
            | None => Some (i, 0%nat, r')
            end
          else Some (i, 0%nat, r)
      | [] => Some (i, 0%nat, [])
      end
  | None =>
      match l with
      | c :: r' =>
          if Ascii.eqb c "."%char then
            match digitpart r' with
            | Some (f, nf, r'') => Some (f, nf, r'')
            | None => None
            end
          else None
      | [] => None
      end
  end.

(** An optional exponent part; [None] when what follows is not one. *)
Definition exponent (l : list ascii) : option Z :=
  match l with
  | [] => Some 0
  | c :: r =>
      if Ascii.eqb (lower c) "e"%char then
        let '(neg, r1) := sign r in
        match digitpart r1 with
        | Some (v, _, []) => Some (if neg then - v else v)
        | _ => None
        end
      else None
  end.

(** [float(s)] for a string [s]. *)
Definition float_of_chars (l : list ascii) : py float :=
  let '(neg, l1) := sign (strip_chars is_c_space l) in
  if lower_is "inf" l1 || lower_is "infinity" l1 then Ok (S754_infinity neg)
  else if lower_is "nan" l1 then Ok S754_nan
  else
    match number l1 with
    | Some (m, nf, r) =>
        match exponent r with
        | Some e =>
            match m with
            | Zpos p => Ok (float_of_decimal neg p (e - Z.of_nat nf))
            | _ => Ok (S754_zero neg)
            end
        | None => Raise ValueError
        end
    | None => Raise ValueError
    end.

Definition float_of_str (s : string) : py float :=
  float_of_chars (list_ascii_of_string s).

(** [x <= y], [x * y] on floats *)
Definition fle (x y : float) : bool := SFleb x y.
Definition fmul (x y : float) : float := SFmul prec emax x y.

(** [int(x)] for a float [x]: truncation towards zero. *)
Definition int_of_float (x : float) : py Z :=
  match x with
  | S754_zero _ => Ok 0
  | S754_infinity _ => Raise OverflowError
  | S754_nan => Raise ValueError
  | S754_finite s m e =>
      let a := match e with
               | Zneg k => Z.pos m / Z.pos (Pos.pow 2 k)
               | _ => Z.pos m * 2 ^ e
               end in
      Ok (if s then - a else a)
  end.

Definition is_finite (x : float) : bool :=
  match x with
  | S754_zero _ | S754_finite _ _ _ => true
  | _ => false
  end.

End Py.
Export Py.


(** ** utils.py *)

Module Utils.

(** [Union[int, float]] *)
Inductive num : Type :=
| NInt (n : Z)
| NFloat (x : float).

(** [int(gb * 1024 * 1024 * 1024)] *)
Definition gb_to_bytes (gb : num) : py Z :=
  match gb with
  | NInt n => Ok (n * 1024 * 1024 * 1024)
  | NFloat x =>
      let k := float_of_Z 1024 in
      int_of_float (fmul (fmul (fmul x k) k) k)
  end.

End Utils.

(** ** [datetime.datetime], as far as the handlers use it *)

Module DateTime.

Record datetime : Type := mkDateTime {
  year : Z; month : Z; day : Z;
  hour : Z; minute : Z; second : Z; microsecond : Z
}.

Definition is_leap (y : Z) : bool :=
  (y mod 4 =? 0) && (negb (y mod 100 =? 0) || (y mod 400 =? 0)).

Definition days_in_month (y m : Z) : Z :=
  if m =? 2 then (if is_leap y then 29 else 28)
  else if (m =? 4) || (m =? 6) || (m =? 9) || (m =? 11) then 30
  else 31.

Definition fits_c_int (n : Z) : bool :=
  (- 2147483648 <=? n) && (n <=? 2147483647).

(** [datetime.datetime(year, month, day)]: the arguments are converted to
    C integers first, then checked against the calendar. *)
Definition new (y m d : Z) : py datetime :=
  if negb (fits_c_int y && fits_c_int m && fits_c_int d) then Raise OverflowError
  else if negb ((1 <=? y) && (y <=? 9999)) then Raise ValueError
  else if negb ((1 <=? m) && (m <=? 12)) then Raise ValueError
  else if negb ((1 <=? d) && (d <=? days_in_month y m)) then Raise ValueError
  else Ok (mkDateTime y m d 0 0 0 0).

Definition fields (a : datetime) : list Z :=
  [year a; month a; day a; hour a; minute a; second a; microsecond a].

Fixpoint lex_lt (a b : list Z) : bool :=
  match a, b with
  | x :: a', y :: b' => (x <? y) || ((x =? y) && lex_lt a' b')
  | _, _ => false
  end.

(** [a < b] on naive datetimes *)
Definition lt (a b : datetime) : bool := lex_lt (fields a) (fields b).

Definition days_before_year (y : Z) : Z :=
  let y1 := y - 1 in y1 * 365 + y1 / 4 - y1 / 100 + y1 / 400.

Fixpoint days_before_month_aux (y : Z) (n : nat) : Z :=
  match n with
  | O => 0
  | S n' => days_before_month_aux y n' + days_in_month y (Z.of_nat n)
  end.

Definition days_before_month (y m : Z) : Z :=
  days_before_month_aux y (Z.to_nat (m - 1)).

Definition toordinal (a : datetime) : Z :=
  days_before_year (year a) + days_before_month (year a) (month a) + day a.

(** [int(a.timestamp())] for a naive datetime read in a zone that is
    [utcoffset] seconds east of Greenwich (daylight saving changes are not
    modelled). *)
Definition timestamp (utcoffset : Z) (a : datetime) : Z :=
  (toordinal a - 719163) * 86400
  + hour a * 3600 + minute a * 60 + second a - utcoffset.

End DateTime.

(** ** config.py

    The deployed [config.py] is not part of the sources; the names the code
    reads from it are the fields of [Config], and [config_example] holds the
    values of [config.example.py] ([ENABLE_ACCESS_LOG] is not listed there
    and is taken as switched on). *)

Record Config : Type := mkConfig {
  ADMIN_IDS : list Z;
  MAX_KEYS_PER_USER : Z;
  MAX_KEYS_PER_ADMIN : Z;
  ENABLE_ACCESS_LOG : bool
}.

Definition config_example : Config :=
  {| ADMIN_IDS := [123456789; 987654321];
     MAX_KEYS_PER_USER := 1;
     MAX_KEYS_PER_ADMIN := 10;
     ENABLE_ACCESS_LOG := true |}.

(** ** The management API of the Outline server, as seen by the client *)

Inductive Request : Type :=
| GET_access_keys
| POST_access_keys (name : option string)
| GET_access_key (key_id : string)
| DELETE_access_key (key_id : string)
| PUT_access_key_name (key_id : string) (name : string)
| PUT_data_limit (key_id : string) (bytes : Z)
| DELETE_data_limit (key_id : string)
| GET_metrics
| GET_metrics_transfer.

(** The dict that describes one key.  [j_dataLimit = Some None] is a
    ['dataLimit'] entry without ['bytes']; the same for [j_usage]. *)
Record KeyJson : Type := mkKeyJson {
  j_id : option string;
  j_name : option string;
  j_accessUrl : option string;
  j_dataLimit : option (option Z);
  j_usageBytes : option Z;
  j_usage : option (option Z)
}.

(** A decoded answer: the entries of the top-level dict that the code
    looks up.  An answer without content is the empty dict. *)
Record Response : Type := mkResponse {
  r_accessKeys : option (list KeyJson);
  r_bytesTransferredByUserId : option (gmap string Z);
  r_key : KeyJson
}.

Definition empty_key : KeyJson := mkKeyJson None None None None None None.
Definition empty_response : Response := mkResponse None None empty_key.

(** ** The local tables (database.py, [_init_db]) *)

Record UserRow : Type := mkUserRow {
  u_user_id : Z;
  u_username : option string;
  u_first_name : option string;
  u_last_name : option string;
  u_language_code : option string;
  u_is_admin : bool;
  u_is_blocked : bool;
  u_created_at : Z;
  u_last_activity : Z
}.

(** The surrogate [id] column is not read by any query; the rows are kept
    in insertion order. *)
Record KeyRow : Type := mkKeyRow {
  k_user_id : Z;
  k_key_id : string;
  k_name : string;
  k_access_url : string;
  k_data_limit : Z;
  k_paid_until : Z;
  k_created_at : Z
}.

Record ActivityRow : Type := mkActivityRow {
  a_user_id : Z;
  a_action : string;
  a_details : string;
  a_timestamp : Z
}.

Record Store : Type := mkStore {
  users : list UserRow;
  access_keys : list KeyRow;
  activity_log : list ActivityRow
}.

(** ** The chat side *)

(** A text of the catalogue is represented by its key. *)
Inductive BotAction : Type :=
| send_message (chat_id : Z) (text : string)
| edit_message_text (text : string) (chat_id message_id : Z)
| delete_message (chat_id message_id : Z)
| answer_callback_query (call_id : string) (text : option string).

Record Message : Type := mkMessage {
  from_user : Z;
  text : string
}.

Record CallbackQuery : Type := mkCallbackQuery {
  call_id : string;
  call_from_user : Z;
  data : string;
  call_chat_id : Z;
  call_message_id : Z
}.

(** An entry of [user_states]. *)
Record UserState : Type := mkUserState {
  state : string;
  st_key_id : option string;
  st_chat_id : Z;
  st_message_id : Z
}.

(** ** The world a handler runs in

    [oracle] is the server: it answers a request given the requests that
    were made before ([None] when the request fails); [requests] is that
    history. *)
Record World : Type := mkWorld {
  config : Config;
  oracle : list Request -> Request -> option Response;
  requests : list Request;
  db : Store;
  user_states : gmap Z UserState;
  outbox : list BotAction;
  time_now : Z;
  datetime_now : DateTime.datetime;
  utcoffset : Z
}.

Definition set_requests (f : list Request -> list Request) (w : World) : World :=
  mkWorld (config w) (oracle w) (f (requests w)) (db w) (user_states w)
          (outbox w) (time_now w) (datetime_now w) (utcoffset w).

Definition set_db (f : Store -> Store) (w : World) : World :=
  mkWorld (config w) (oracle w) (requests w) (f (db w)) (user_states w)
          (outbox w) (time_now w) (datetime_now w) (utcoffset w).

Definition set_user_states (f : gmap Z UserState -> gmap Z UserState) (w : World) : World :=
  mkWorld (config w) (oracle w) (requests w) (db w) (f (user_states w))
          (outbox w) (time_now w) (datetime_now w) (utcoffset w).

Definition set_outbox (f : list BotAction -> list BotAction) (w : World) : World :=
  mkWorld (config w) (oracle w) (requests w) (db w) (user_states w)
          (f (outbox w)) (time_now w) (datetime_now w) (utcoffset w).

(** ** Computations: state over [World], with exceptions *)

Definition M (A : Type) : Type := World -> py A * World.

Definition ret {A} (a : A) : M A := fun w => (Ok a, w).
Definition raise {A} (e : exn) : M A := fun w => (Raise e, w).
Definition bind {A B} (m : M A) (k : A -> M B) : M B :=
  fun w => match m w with
           | (Ok a, w') => k a w'
           | (Raise e, w') => (Raise e, w')
           end.
Definition lift {A} (r : py A) : M A := fun w => (r, w).
Definition gets {A} (f : World -> A) : M A := fun w => (Ok (f w), w).
Definition modify (f : World -> World) : M unit := fun w => (Ok tt, f w).

(** [try: m  except Exception: h] *)
Definition try_except {A} (m : M A) (h : exn -> M A) : M A :=
  fun w => match m w with
           | (Ok a, w') => (Ok a, w')
           | (Raise e, w') => h e w'
           end.

(** [try: m  except ValueError: h] *)
Definition try_except_ValueError {A} (m : M A) (h : M A) : M A :=
  fun w => match m w with
           | (Raise ValueError, w') => h w'
           | r => r
           end.

Global Instance M_ret : MRet M := @ret.
Global Instance M_bind : MBind M := fun A B k m => bind m k.

Fixpoint for_each {A} (l : list A) (body : A -> M unit) : M unit :=
  match l with
  | [] => ret tt
  | a :: l' => body a;; for_each l' body
  end.

Fixpoint map_M {A B} (f : A -> M B) (l : list A) : M (list B) :=
  match l with
  | [] => ret []
  | a :: l' => b ← f a; bs ← map_M f l'; ret (b :: bs)
  end.

(** ** outline_api.py, class [OutlineAPI] *)

Module OutlineAPI.

(** [_request]: the request is recorded; a transport or HTTP failure is
    re-raised as a plain exception. *)
Definition _request (req : Request) : M Response :=
  fun w =>
    let w' := set_requests (fun h => (h ++ [req])%list) w in
    match oracle w (requests w) req with
    | Some r => (Ok r, w')
    | None => (Raise RequestError, w')
    end.

Definition get_access_key (key_id : string) : M KeyJson :=
  r ← _request (GET_access_key key_id); ret (r_key r).

(** [keys[i]['dataLimit'] = limit] *)
Definition set_dataLimit (limit : option Z) (key : KeyJson) : KeyJson :=
  mkKeyJson (j_id key) (j_name key) (j_accessUrl key) (Some limit)
            (j_usageBytes key) (j_usage key).

Definition get_access_keys : M (list KeyJson) :=
  response ← _request GET_access_keys;
  let keys := default [] (r_accessKeys response) in
  map_M (fun key =>
           match j_id key with
           | Some id =>
               try_except
                 (key_info ← get_access_key id;
                  match j_dataLimit key_info with
                  | Some limit => ret (set_dataLimit limit key)
                  | None => ret key
                  end)
                 (fun _ => ret key)
           | None => ret key
           end) keys.

Definition create_access_key (name : string) : M KeyJson :=
  r ← _request (POST_access_keys (if String.eqb name "" then None else Some name));
  ret (r_key r).

Definition delete_access_key (key_id : string) : M bool :=
  try_except (_request (DELETE_access_key key_id);; ret true)
             (fun _ => ret false).

(** The check made after the change.  [Some b] stands for [return b]
    inside the inner [try]; [None] lets control reach the final
    [return True]. *)
Definition verify_limit (key_id : string) (limit_bytes : Z) : M (option bool) :=
  key_info ← get_access_key key_id;
  if 0 <? limit_bytes then
    match j_dataLimit key_info with
    | Some (Some actual_limit) =>
        if negb (actual_limit =? limit_bytes) then ret (Some false) else ret None
    | _ => ret (Some false)
    end
  else
    match j_dataLimit key_info with
    | Some _ => ret (Some false)
    | None => ret None
    end.

Definition set_data_limit (key_id : string) (limit_bytes : Z) : M bool :=
  try_except
    ((if 0 <? limit_bytes
      then _request (PUT_data_limit key_id limit_bytes)
      else _request (DELETE_data_limit key_id));;
     verdict ← try_except (verify_limit key_id limit_bytes) (fun _ => ret None);
     match verdict with
     | Some b => ret b
     | None => ret true
     end)
    (fun _ => ret false).

Definition get_metrics : M Response :=
  try_except (_request GET_metrics) (fun _ => ret empty_response).

Definition get_server_transfer_stats : M Response :=
  try_except (_request GET_metrics_transfer) (fun _ => ret empty_response).

(** [stats and 'bytesTransferredByUserId' in stats], then
    [str(key_id) in user_stats]: a dict that has the entry is not empty,
    so the first test adds nothing. *)
Definition usage_in_report (stats : Response) (key_id : string) : option Z :=
  match r_bytesTransferredByUserId stats with
  | Some user_stats => user_stats !! key_id
  | None => None
  end.

(** The two inline usage fields of a key dict, in the order tried. *)
Definition usage_in_key (key_info : KeyJson) : option Z :=
  match j_usageBytes key_info with
  | Some usage => Some usage
  | None =>
      match j_usage key_info with
      | Some (Some usage) => Some usage
      | _ => None
      end
  end.

(** Each of the three [try] blocks either returns a value ([Some]) or
    falls through to the next one ([None]). *)
Definition get_key_data_usage (key_id : string) : M Z :=
  m1 ← try_except
         (transfer_stats ← get_server_transfer_stats;
          ret (usage_in_report transfer_stats key_id))
         (fun _ => ret None);
  match m1 with
  | Some data_usage => ret data_usage
  | None =>
      m2 ← try_except
             (metrics ← get_metrics;
              ret (usage_in_report metrics key_id))
             (fun _ => ret None);
      match m2 with
      | Some data_usage => ret data_usage
      | None =>
          m3 ← try_except
                 (key_info ← get_access_key key_id;
                  ret (usage_in_key key_info))
                 (fun _ => ret None);
          match m3 with
          | Some usage => ret usage
          | None => ret 0
          end
      end
  end.

End OutlineAPI.

Global Instance py_ret : MRet py := @Ok.
Global Instance py_mbind : MBind py := fun A B k r => py_bind r k.

(** ** database.py, class [Database] *)

Module Database.

(** The names bound on a [Database] object: the two fields set by
    [__init__] and the methods of the class. *)
Definition attributes : list string :=
  [ "db_file"; "outline"; "_connection"; "_init_db"; "save_user"; "get_user";
    "set_admin_status"; "block_user"; "is_user_blocked"; "is_admin";
    "log_activity"; "save_access_key"; "update_key_payment";
    "update_key_limit"; "get_user_keys"; "get_all_keys"; "get_key_owner";
    "delete_key"; "count_user_keys"; "get_all_users";
    "sync_keys_with_server" ].

Definition has_attribute (name : string) : bool :=
  existsb (String.eqb name) attributes.

Definition get_user (st : Store) (user_id : Z) : option UserRow :=
  List.find (fun u => u_user_id u =? user_id) (users st).

Definition is_user_blocked (st : Store) (user_id : Z) : bool :=
  match get_user st user_id with
  | Some result => u_is_blocked result
  | None => false
  end.

Definition is_admin (cfg : Config) (st : Store) (user_id : Z) : bool :=
  if existsb (Z.eqb user_id) (ADMIN_IDS cfg) then true
  else
    match get_user st user_id with
    | Some result => u_is_admin result
    | None => false
    end.

Definition log_activity (cfg : Config) (now : Z) (st : Store)
           (user_id : Z) (action details : string) : Store :=
  if negb (ENABLE_ACCESS_LOG cfg) then st
  else mkStore (users st) (access_keys st)
               (activity_log st ++ [mkActivityRow user_id action details now])%list.

Definition has_key_id (key_id : string) (r : KeyRow) : bool :=
  String.eqb (k_key_id r) key_id.

Definition with_data_limit (v : Z) (r : KeyRow) : KeyRow :=
  mkKeyRow (k_user_id r) (k_key_id r) (k_name r) (k_access_url r) v
           (k_paid_until r) (k_created_at r).

Definition with_paid_until (v : Z) (r : KeyRow) : KeyRow :=
  mkKeyRow (k_user_id r) (k_key_id r) (k_name r) (k_access_url r)
           (k_data_limit r) v (k_created_at r).

(** [UPDATE access_keys SET ... WHERE key_id = ?] *)
Definition update_where (key_id : string) (f : KeyRow -> KeyRow)
           (rows : list KeyRow) : list KeyRow :=
  map (fun r => if has_key_id key_id r then f r else r) rows.

(** [cursor.rowcount > 0] after a statement with [WHERE key_id = ?] *)
Definition touched (key_id : string) (rows : list KeyRow) : bool :=
  existsb (has_key_id key_id) rows.

Definition set_access_keys (rows : list KeyRow) (st : Store) : Store :=
  mkStore (users st) rows (activity_log st).

Definition update_key_payment (st : Store) (key_id : string) (paid_until : Z)
  : bool * Store :=
  (touched key_id (access_keys st),
   set_access_keys (update_where key_id (with_paid_until paid_until) (access_keys st)) st).

Definition update_key_limit (st : Store) (key_id : string) (data_limit : Z)
  : bool * Store :=
  match List.find (has_key_id key_id) (access_keys st) with
  | None => (false, st)
  | Some _ =>
      (touched key_id (access_keys st),
       set_access_keys (update_where key_id (with_data_limit data_limit) (access_keys st)) st)
  end.

Definition get_key_owner (st : Store) (key_id : string) : option Z :=
  k_user_id <$> List.find (has_key_id key_id) (access_keys st).

(** [DELETE FROM access_keys WHERE key_id = ?] *)
Definition delete_key (st : Store) (key_id : string) : bool * Store :=
  (touched key_id (access_keys st),
   set_access_keys (List.filter (fun r => negb (has_key_id key_id r)) (access_keys st)) st).

Definition count_user_keys (st : Store) (user_id : Z) : Z :=
  Z.of_nat (length (List.filter (fun r => k_user_id r =? user_id) (access_keys st))).

(** A call [db.name(args)] whose method is found at run time.  A name that
    is not an attribute raises [AttributeError] before any argument is
    used.  Of the methods, the three writers of the key table are
    dispatched here; the handlers call nothing else in this way. *)
Inductive value : Type :=
| VNone
| VStr (s : string)
| VInt (n : Z).

Definition as_key_id (v : value) : option string :=
  match v with VStr s => Some s | _ => None end.

Definition call (name : string) (args : list value) (st : Store) : py Store :=
  if negb (has_attribute name) then Raise AttributeError
  else
    match args with
    | [VStr key_id] =>
        if String.eqb name "delete_key" then Ok (snd (delete_key st key_id))
        else Raise TypeError
    | [VStr key_id; VInt n] =>
        if String.eqb name "update_key_payment" then Ok (snd (update_key_payment st key_id n))
        else if String.eqb name "update_key_limit" then Ok (snd (update_key_limit st key_id n))
        else Raise TypeError
    | _ => Raise TypeError
    end.

(** *** [sync_keys_with_server] *)

(** [{row['key_id']: row['data_limit'] for row in cursor.fetchall()}]:
    a later row replaces the entry of an earlier row with the same key
    id. *)
Definition db_keys_of (rows : list KeyRow) : gmap string Z :=
  fold_left (fun m r => <[k_key_id r := k_data_limit r]> m) rows ∅.

Definition key_name_of (key : KeyJson) (key_id : string) : string :=
  match j_name key with
  | Some key_name =>
      if String.eqb key_name "" || startswith "Temporary_" key_name
      then "Ключ_" ++ key_id else key_name
  | None => "Ключ_" ++ key_id
  end.

Definition data_limit_of (key : KeyJson) : Z :=
  match j_dataLimit key with
  | Some (Some bytes) => bytes
  | _ => 0
  end.

(** [INSERT OR IGNORE INTO users (user_id, username, created_at,
    last_activity)]: [user_id] is the primary key. *)
Definition insert_or_ignore_user (user_id : Z) (username : string) (now : Z)
           (us : list UserRow) : list UserRow :=
  if existsb (fun u => u_user_id u =? user_id) us then us
  else (us ++ [mkUserRow user_id (Some username) None None None false false now now])%list.

(** An integer is bound to a statement only when SQLite can store it:
    [sqlite3] raises [OverflowError] for a Python [int] outside 64 bits. *)
Definition fits_int64 (n : Z) : bool :=
  (- 9223372036854775808 <=? n) && (n <=? 9223372036854775807).

Definition bind_int (n : Z) : py unit :=
  if fits_int64 n then Ok tt else Raise OverflowError.

(** The body of the loop for one key of the listing.  The two inserts
    are committed together; an exception before the commit leaves the
    tables as they were.  The first insert binds [-int(key_id)], the second
    binds it again, with [key['accessUrl']] and the limit; the update binds
    the limit. *)
Definition sync_key (now : Z) (db_keys : gmap string Z) (key : KeyJson)
           (st : Store) : py Store :=
  key_id ← match j_id key with Some i => Ok i | None => Raise KeyError end;
  let key_name := key_name_of key key_id in
  let data_limit := data_limit_of key in
  match db_keys !! key_id with
  | None =>
      n ← Py.int key_id;
      bind_int (- n);;
      accessUrl ← match j_accessUrl key with Some u => Ok u | None => Raise KeyError end;
      bind_int data_limit;;
      Ok (mkStore
            (insert_or_ignore_user (- n) key_name now (users st))
            (access_keys st ++ [mkKeyRow (- n) key_id key_name accessUrl data_limit 0 now])%list
            (activity_log st))
  | Some db_limit =>
      if negb (db_limit =? data_limit)
      then
        bind_int data_limit;;
        Ok (set_access_keys (update_where key_id (with_data_limit data_limit) (access_keys st)) st)
      else Ok st
  end.

(** [for key in server_keys: ...]: an exception ends the loop and keeps
    what was committed before. *)
Fixpoint sync_loop (now : Z) (db_keys : gmap string Z) (server_keys : list KeyJson)
         (st : Store) : py unit * Store :=
  match server_keys with
  | [] => (Ok tt, st)
  | key :: rest =>
      match sync_key now db_keys key st with
      | Ok st' => sync_loop now db_keys rest st'
      | Raise e => (Raise e, st)
      end
  end.

(** The tables after one pass over the listing [server_keys]. *)
Definition sync_store (now : Z) (server_keys : list KeyJson) (st : Store) : Store :=
  snd (sync_loop now (db_keys_of (access_keys st)) server_keys st).

Definition sync_listing (server_keys : list KeyJson) : M unit :=
  fun w =>
    let '(r, st') := sync_loop (time_now w) (db_keys_of (access_keys (db w)))
                               server_keys (db w) in
    (r, set_db (fun _ => st') w).

Definition sync_keys_with_server : M unit :=
  try_except
    (server_keys ← OutlineAPI.get_access_keys; sync_listing server_keys)
    (fun _ => ret tt).

(** *** The users table *)

(** The dict of a Telegram user ([from_user.to_dict()]), as far as it is
    read. *)
Record UserData : Type := mkUserData {
  ud_id : option Z;
  ud_username : option string;
  ud_first_name : option string;
  ud_last_name : option string;
  ud_language_code : option string
}.

Definition set_users (us : list UserRow) (st : Store) : Store :=
  mkStore us (access_keys st) (activity_log st).

Definition has_user_id (user_id : Z) (u : UserRow) : bool :=
  u_user_id u =? user_id.

(** [UPDATE users SET ... WHERE user_id = ?] *)
Definition update_user (user_id : Z) (f : UserRow -> UserRow)
           (us : list UserRow) : list UserRow :=
  map (fun u => if has_user_id user_id u then f u else u) us.

Definition with_profile (d : UserData) (now : Z) (u : UserRow) : UserRow :=
  mkUserRow (u_user_id u) (ud_username d) (ud_first_name d) (ud_last_name d)
            (ud_language_code d) (u_is_admin u) (u_is_blocked u) (u_created_at u) now.

Definition with_is_admin (v : bool) (u : UserRow) : UserRow :=
  mkUserRow (u_user_id u) (u_username u) (u_first_name u) (u_last_name u)
            (u_language_code u) v (u_is_blocked u) (u_created_at u) (u_last_activity u).

Definition with_is_blocked (v : bool) (u : UserRow) : UserRow :=
  mkUserRow (u_user_id u) (u_username u) (u_first_name u) (u_last_name u)
            (u_language_code u) (u_is_admin u) v (u_created_at u) (u_last_activity u).

(** [save_user]: [if not user_id] holds for a missing id and for 0. *)
Definition save_user (now : Z) (st : Store) (user_data : UserData) : bool * Store :=
  match ud_id user_data with
  | None => (false, st)
  | Some user_id =>
      if user_id =? 0 then (false, st)
      else
        match get_user st user_id with
        | Some _ =>
            (true, set_users (update_user user_id (with_profile user_data now) (users st)) st)
        | None =>
            (true,
             set_users (users st
                          ++ [mkUserRow user_id (ud_username user_data)
                                        (ud_first_name user_data) (ud_last_name user_data)
                                        (ud_language_code user_data) false false now now])%list
                       st)
        end
  end.

Definition set_admin_status (st : Store) (user_id : Z) (is_admin : bool) : bool * Store :=
  (existsb (has_user_id user_id) (users st),
   set_users (update_user user_id (with_is_admin is_admin) (users st)) st).

Definition block_user (st : Store) (user_id : Z) (block : bool) : bool * Store :=
  (existsb (has_user_id user_id) (users st),
   set_users (update_user user_id (with_is_blocked block) (users st)) st).

(** *** [save_access_key]

    A key dict without ['id'] is looked up with a null parameter, which no
    row matches, and is inserted under the empty key id. *)
Definition save_access_key (now : Z) (st : Store) (user_id : Z) (key_data : KeyJson)
           (paid_until : option Z) (data_limit : Z) : bool * Store :=
  let name := default "" (j_name key_data) in
  let access_url := default "" (j_accessUrl key_data) in
  let paid := default 0 paid_until in
  let inserted :=
    set_access_keys
      (access_keys st
         ++ [mkKeyRow user_id (default "" (j_id key_data)) name access_url
                      data_limit paid now])%list st in
  match j_id key_data with
  | Some key_id =>
      match List.find (has_key_id key_id) (access_keys st) with
      | Some _ =>
          (true,
           set_access_keys
             (update_where key_id
                (fun r => mkKeyRow user_id (k_key_id r) name access_url data_limit paid
                                   (k_created_at r))
                (access_keys st)) st)
      | None => (true, inserted)
      end
  | None => (true, inserted)
  end.

(** *** The two listings *)

(** [get_user_keys]: the rows selected.  Their order ([ORDER BY created_at
    DESC], which leaves the order of rows created in the same second open)
    is not modelled; the callers test the result for emptiness and make
    a keyboard of it. *)
Definition get_user_keys (st : Store) (user_id : Z) : list KeyRow :=
  List.filter (fun r => k_user_id r =? user_id) (access_keys st).

(** [get_all_keys]: a pass of the reconciliation first, then all rows (in
    the same sense). *)
Definition get_all_keys : M (list KeyRow) :=
  sync_keys_with_server;;
  gets (fun w => access_keys (db w)).

End Database.

(** ** key_manager.py

    What a handler sends is recorded in [outbox]; the chat transport is
    taken to deliver without raising.  The language of a text plays no part
    and is left out, and so is the rendering of numbers and dates inside the
    texts. *)

Module KeyManager.

Definition bot (a : BotAction) : M unit :=
  modify (set_outbox (fun o => (o ++ [a])%list)).

Definition db_is_admin (user_id : Z) : M bool :=
  gets (fun w => Database.is_admin (config w) (db w) user_id).

Definition db_log_activity (user_id : Z) (action details : string) : M unit :=
  modify (fun w =>
    set_db (fun st => Database.log_activity (config w) (time_now w) st
                                             user_id action details) w).

(** [db.name(args)], the method being looked up on the object. *)
Definition db_call (name : string) (args : list Database.value) : M unit :=
  fun w =>
    match Database.call name args (db w) with
    | Ok st' => (Ok tt, set_db (fun _ => st') w)
    | Raise e => (Raise e, w)
    end.

(** [f"{key_id}"] and a query parameter made of [user_states[..].get('key_id')] *)
Definition str_of (key_id : option string) : string := default "None" key_id.

Definition value_of (key_id : option string) : Database.value :=
  match key_id with Some s => Database.VStr s | None => Database.VNone end.

(** [get_key_by_id]: the first row with this key id. *)
Definition get_key_by_id (key_id : option string) : M (option KeyRow) :=
  gets (fun w =>
          match key_id with
          | Some k => List.find (Database.has_key_id k) (access_keys (db w))
          | None => None
          end).

(** [format_key_info]: the two reads from the server; the text is the
    catalogue entry ['key_info']. *)
Definition format_key_info (key : KeyRow) : M string :=
  (if String.eqb (k_key_id key) "" then ret tt
   else try_except
          (OutlineAPI.get_access_key (k_key_id key);;
           OutlineAPI.get_key_data_usage (k_key_id key);;
           ret tt)
          (fun _ => ret tt));;
  ret "key_info".

(** The end shared by [process_limit_input] and [process_date_input]:
    the prompt is removed, the state entry is deleted, and the key or
    the main menu is shown. *)
Definition finish_flow (user_id : Z) (us : UserState) (key_id : option string) : M unit :=
  try_except (bot (delete_message (st_chat_id us) (st_message_id us)))
             (fun _ => ret tt);;
  modify (set_user_states (delete user_id));;
  key ← get_key_by_id key_id;
  match key with
  | Some key => key_info ← format_key_info key; bot (send_message user_id key_info)
  | None => bot (send_message user_id "welcome")
  end.

(** What a [try] block of a handler leads to: the statements after it,
    or a [return]. *)
Inductive flow : Type := Continue | Return.

Definition create_key_callback (call : CallbackQuery) : M unit :=
  let user_id := call_from_user call in
  blocked ← gets (fun w => Database.is_user_blocked (db w) user_id);
  if blocked : bool then bot (answer_callback_query (call_id call) (Some "user_blocked"))
  else
    is_admin ← db_is_admin user_id;
    max_keys ← gets (fun w => if is_admin : bool then MAX_KEYS_PER_ADMIN (config w)
                              else MAX_KEYS_PER_USER (config w));
    count ← gets (fun w => Database.count_user_keys (db w) user_id);
    if max_keys <=? count
    then bot (answer_callback_query (call_id call) (Some "max_keys_reached"))
    else
      bot (answer_callback_query (call_id call) None);;
      bot (edit_message_text "enter_key_name" (call_chat_id call) (call_message_id call));;
      modify (set_user_states
                (<[user_id := mkUserState "waiting_for_key_name" None
                                          (call_chat_id call) (call_message_id call)]>)).

Definition back_to_main_callback (call : CallbackQuery) : M unit :=
  let user_id := call_from_user call in
  modify (set_user_states (delete user_id));;
  bot (edit_message_text "welcome" (call_chat_id call) (call_message_id call));;
  bot (answer_callback_query (call_id call) None).

(** [set_limit_callback] and [set_paid_callback] differ in the prompt and
    in the state they enter. *)
Definition start_flow (prompt new_state : string) (call : CallbackQuery) : M unit :=
  let user_id := call_from_user call in
  is_admin ← db_is_admin user_id;
  if negb is_admin then bot (answer_callback_query (call_id call) (Some "not_admin"))
  else
    key_id ← lift (index (split "_" (data call)) 2);
    bot (edit_message_text prompt (call_chat_id call) (call_message_id call));;
    modify (set_user_states
              (<[user_id := mkUserState new_state (Some key_id)
                                        (call_chat_id call) (call_message_id call)]>));;
    bot (answer_callback_query (call_id call) None).

Definition set_limit_callback : CallbackQuery -> M unit :=
  start_flow "input_limit" "waiting_for_limit".

Definition set_paid_callback : CallbackQuery -> M unit :=
  start_flow "input_date" "waiting_for_date".

Definition delete_key_callback (call : CallbackQuery) : M unit :=
  let user_id := call_from_user call in
  key_id ← lift (index (split "_" (data call)) 1);
  key ← get_key_by_id (Some key_id);
  match key with
  | None => bot (answer_callback_query (call_id call) (Some "key_not_found"))
  | Some key =>
      is_admin ← db_is_admin user_id;
      let is_owner := k_user_id key =? user_id in
      if negb is_owner && negb is_admin
      then bot (answer_callback_query (call_id call) (Some "not_admin"))
      else
        try_except
          (OutlineAPI.delete_access_key key_id;;
           db_call "delete_access_key" [Database.VStr key_id];;
           db_log_activity user_id "key_deleted" ("Deleted key " ++ key_id);;
           bot (answer_callback_query (call_id call) (Some "key_deleted"));;
           bot (edit_message_text "welcome" (call_chat_id call) (call_message_id call)))
          (fun _ => bot (answer_callback_query (call_id call) (Some "error")))
  end.

(** [process_limit_input].  The details of the log row read
    [f"Set data limit {limit_gb} GB for key {key_id}"] in the source; the
    rendering of the number is left out of them, as it is left out of the
    texts sent. *)
Definition process_limit_input (message : Message) : M unit :=
  let user_id := from_user message in
  entry ← gets (fun w => user_states w !! user_id);
  match entry with
  | None => ret tt
  | Some us =>
      if negb (String.eqb (state us) "waiting_for_limit") then ret tt
      else
        let key_id := st_key_id us in
        next ← try_except_ValueError
                 (limit_gb ← lift (float_of_str (strip (text message)));
                  (if fle limit_gb (float_of_Z 0) then raise ValueError else ret tt);;
                  limit_bytes ← lift (int_of_float (fmul limit_gb (float_of_Z 1000000000)));
                  ok ← OutlineAPI.set_data_limit (str_of key_id) limit_bytes;
                  (if ok : bool then
                     bot (send_message user_id "data_limit_set");;
                     db_log_activity user_id "limit_set"
                                     ("Set data limit for key " ++ str_of key_id)
                   else bot (send_message user_id "error"));;
                  ret Continue)
                 (bot (send_message user_id "invalid_limit");; ret Return);
        match next with
        | Return => ret tt
        | Continue => finish_flow user_id us key_id
        end
  end.

(** [day, month, year = map(int, parts)] *)
Definition unpack_date (parts : list string) : py (Z * Z * Z) :=
  match parts with
  | [a; b; c] => day ← Py.int a; month ← Py.int b; year ← Py.int c; Ok (day, month, year)
  | _ => Raise ValueError
  end.

Definition process_date_input (message : Message) : M unit :=
  let user_id := from_user message in
  entry ← gets (fun w => user_states w !! user_id);
  match entry with
  | None => ret tt
  | Some us =>
      if negb (String.eqb (state us) "waiting_for_date") then ret tt
      else
        let key_id := st_key_id us in
        next ← try_except_ValueError
                 ('(day, month, year) ← lift (unpack_date (split "." (strip (text message))));
                  date ← lift (DateTime.new year month day);
                  now ← gets datetime_now;
                  if DateTime.lt date now then
                    bot (send_message user_id "date_in_past");; ret Return
                  else
                    timestamp ← gets (fun w => DateTime.timestamp (utcoffset w) date);
                    db_call "update_paid_until" [value_of key_id; Database.VInt timestamp];;
                    bot (send_message user_id "paid_until_set");;
                    db_log_activity user_id "date_set"
                                    ("Set payment date " ++ strip (text message)
                                     ++ " for key " ++ str_of key_id);;
                    ret Continue)
                 (bot (send_message user_id "invalid_date");; ret Return);
        match next with
        | Return => ret tt
        | Continue => finish_flow user_id us key_id
        end
  end.

(** *** The other handlers *)

Definition db_save_access_key (user_id : Z) (key_data : KeyJson) : M unit :=
  modify (fun w =>
    set_db (fun st => snd (Database.save_access_key (time_now w) st user_id key_data None 0)) w).

(** [handle_key_name_input]: the key is created on the server and saved;
    whatever the outcome, the prompt is removed, the state entry is deleted
    and the main menu is shown. *)
Definition handle_key_name_input (message : Message) : M unit :=
  let user_id := from_user message in
  entry ← gets (fun w => user_states w !! user_id);
  match entry with
  | None => ret tt
  | Some us =>
      if negb (String.eqb (state us) "waiting_for_key_name") then ret tt
      else
        let key_name := strip (text message) in
        try_except
          (key_data ← OutlineAPI.create_access_key key_name;
           db_save_access_key user_id key_data;;
           bot (send_message user_id "key_created");;
           db_log_activity user_id "key_created"
                           ("Created new key " ++ str_of (j_id key_data)
                            ++ " with name " ++ key_name))
          (fun _ => bot (send_message user_id "error"));;
        try_except (bot (delete_message (st_chat_id us) (st_message_id us)))
                   (fun _ => ret tt);;
        modify (set_user_states (delete user_id));;
        bot (send_message user_id "welcome")
  end.

(** [start_command]: [profile] is [message.from_user.to_dict()] without
    its ['id'], which is the id of the sender. *)
Definition start_command (message : Message) (profile : Database.UserData) : M unit :=
  let user_id := from_user message in
  let user_data :=
    Database.mkUserData (Some user_id) (Database.ud_username profile)
                        (Database.ud_first_name profile) (Database.ud_last_name profile)
                        (Database.ud_language_code profile) in
  modify (fun w => set_db (fun st => snd (Database.save_user (time_now w) st user_data)) w);;
  db_log_activity user_id "start" "User started the bot";;
  bot (send_message user_id "welcome").

Definition help_command (message : Message) : M unit :=
  let user_id := from_user message in
  db_log_activity user_id "help" "User requested help";;
  bot (send_message user_id "help").

Definition unknown_message (message : Message) : M unit :=
  bot (send_message (from_user message) "welcome").

Definition key_info_callback (call : CallbackQuery) : M unit :=
  let user_id := call_from_user call in
  key_id ← lift (index (split "_" (data call)) 1);
  key ← get_key_by_id (Some key_id);
  match key with
  | None => bot (answer_callback_query (call_id call) (Some "key_not_found"))
  | Some key =>
      is_admin ← db_is_admin user_id;
      let is_owner := k_user_id key =? user_id in
      if negb is_owner && negb is_admin
      then bot (answer_callback_query (call_id call) (Some "not_admin"))
      else
        bot (answer_callback_query (call_id call) None);;
        key_info ← format_key_info key;
        bot (edit_message_text key_info (call_chat_id call) (call_message_id call))
  end.

Definition my_keys_callback (call : CallbackQuery) : M unit :=
  let user_id := call_from_user call in
  keys ← gets (fun w => Database.get_user_keys (db w) user_id);
  match keys with
  | [] => bot (answer_callback_query (call_id call) (Some "no_keys"))
  | _ :: _ =>
      bot (answer_callback_query (call_id call) None);;
      bot (edit_message_text "key_list_title" (call_chat_id call) (call_message_id call))
  end.

Definition all_keys_callback (call : CallbackQuery) : M unit :=
  let user_id := call_from_user call in
  is_admin ← db_is_admin user_id;
  if negb is_admin then bot (answer_callback_query (call_id call) (Some "not_admin"))
  else
    keys ← Database.get_all_keys;
    match keys with
    | [] => bot (answer_callback_query (call_id call) (Some "no_keys"))
    | _ :: _ =>
        bot (answer_callback_query (call_id call) None);;
        bot (edit_message_text "key_list_title" (call_chat_id call) (call_message_id call))
    end.

(** *** The filters of the button handlers

    The [func] arguments of [@bot.callback_query_handler], in the order in
    which [register_handlers] registers the handlers: [create_key],
    [my_keys], [all_keys], [key_...], [back_to_main], [set_limit_...],
    [set_paid_...], [delete_...]. *)
Definition callback_filters : list (string -> bool) :=
  [ fun data => String.eqb data "create_key";
    fun data => String.eqb data "my_keys";
    fun data => String.eqb data "all_keys";
    fun data => startswith "key_" data;
    fun data => String.eqb data "back_to_main";
    fun data => startswith "set_limit_" data;
    fun data => startswith "set_paid_" data;
    fun data => startswith "delete_" data ].

End KeyManager.

(** * The properties of the specification *)

Import KeyManager.

(** ** Sample data *)

Definition server_down : list Request -> Request -> option Response :=
  fun _ _ => None.

Definition server_silent : list Request -> Request -> option Response :=
  fun _ _ => Some empty_response.

Definition alice : Z := 42.
Definition root : Z := 123456789.

Definition user_row (user_id : Z) (admin blocked : bool) : UserRow :=
  mkUserRow user_id None None None None admin blocked 0 0.

Definition key_row (owner : Z) (key_id : string) : KeyRow :=
  mkKeyRow owner key_id "home" "ss://example" 0 0 1000.

Definition keys_of (owner : Z) (ids : list string) : list KeyRow :=
  map (key_row owner) ids.

Definition noon : DateTime.datetime := DateTime.mkDateTime 2026 1 1 12 0 0 0.

Definition world_of (o : list Request -> Request -> option Response) (st : Store)
           (states : gmap Z UserState) : World :=
  mkWorld config_example o [] st states [] 2000 noon 0.

Definition press (user_id : Z) (data : string) : CallbackQuery :=
  mkCallbackQuery "q1" user_id data user_id 10.

(** ** Tier and quota *)

Definition tier_limit (w : World) (user_id : Z) : Z :=
  if Database.is_admin (config w) (db w) user_id
  then MAX_KEYS_PER_ADMIN (config w) else MAX_KEYS_PER_USER (config w).

(** The handler answers with a reason and changes nothing else. *)
Definition create_refused (call : CallbackQuery) (w : World) : Prop :=
  exists reason,
    snd (create_key_callback call w)
    = set_outbox (fun o => (o ++ [answer_callback_query (call_id call) (Some reason)])%list) w.

(** The handler asks for the name of the new key. *)
Definition create_started (call : CallbackQuery) (w : World) : Prop :=
  user_states (snd (create_key_callback call w)) !! call_from_user call
  = Some (mkUserState "waiting_for_key_name" None (call_chat_id call) (call_message_id call)).

Definition quota_reached (w : World) (user_id : Z) : Prop :=
  tier_limit w user_id <= Database.count_user_keys (db w) user_id.

Definition store_standard_1 : Store :=
  mkStore [user_row alice false false] (keys_of alice ["7"]) [].

Definition store_blocked_0 : Store :=
  mkStore [user_row alice false true] [] [].

Definition store_elevated (ids : list string) : Store :=
  mkStore [user_row root false false] (keys_of root ids) [].

Definition nine_keys : list string := ["1"; "2"; "3"; "4"; "5"; "6"; "7"; "8"; "9"].

(** ** Deleting a key *)

Definition world_delete : World :=
  world_of server_down (mkStore [user_row alice false false] [key_row alice "7"] []) ∅.

(** ** Setting the expiry date *)

Definition world_date : World :=
  world_of server_down (mkStore [user_row root true false] [key_row alice "7"] [])
           {[ root := mkUserState "waiting_for_date" (Some "7") root 10 ]}.

(** ** Setting a traffic cap on the server *)

(** The change a call of [set_data_limit] asks for: a new cap, or the
    removal of the cap. *)
Definition change_request (key_id : string) (bytes : Z) : Request :=
  if 0 <? bytes then PUT_data_limit key_id bytes else DELETE_data_limit key_id.

(** The cap a key dict reports, and the cap expected after the change. *)
Definition effective_cap (key_info : KeyJson) : option Z :=
  match j_dataLimit key_info with
  | Some (Some bytes) => Some bytes
  | _ => None
  end.

Definition expected_cap (bytes : Z) : option Z :=
  if 0 <? bytes then Some bytes else None.

(** The answer of the server to the change, and to the read that follows. *)
Definition change_answer (w : World) (key_id : string) (bytes : Z) : option Response :=
  oracle w (requests w) (change_request key_id bytes).

Definition reread_answer (w : World) (key_id : string) (bytes : Z) : option Response :=
  oracle w (requests w ++ [change_request key_id bytes])%list (GET_access_key key_id).

(** A server that accepts every change and fails every read of a key. *)
Definition server_write_only : list Request -> Request -> option Response :=
  fun _ req =>
    match req with
    | PUT_data_limit _ _ | DELETE_data_limit _ => Some empty_response
    | _ => None
    end.

(** A server on which the cap of every key is, and stays, 1000 bytes. *)
Definition server_stuck : list Request -> Request -> option Response :=
  fun _ req =>
    match req with
    | GET_access_key key_id =>
        Some (mkResponse None None
                (mkKeyJson (Some key_id) None (Some "ss://example") (Some (Some 1000)) None None))
    | _ => Some empty_response
    end.

(** ** Reading the usage of a key *)

(** What an answer of the server holds for a key.  In a report it is the
    entry of the key in the map ['bytesTransferredByUserId']; in the dict of
    a key it is the field ['usageBytes'] and, without it, the field ['bytes']
    of ['usage'].  A request that failed holds nothing. *)
Definition report_entry (answer : option Response) (key_id : string) : option Z :=
  match answer with
  | Some report =>
      match r_bytesTransferredByUserId report with
      | Some by_key => by_key !! key_id
      | None => None
      end
  | None => None
  end.

Definition inline_entry (answer : option Response) : option Z :=
  match answer with
  | Some a =>
      match j_usageBytes (r_key a), j_usage (r_key a) with
      | Some v, _ => Some v
      | None, Some (Some v) => Some v
      | None, _ => None
      end
  | None => None
  end.

(** What each of the three sources yields for a key, given the requests
    made before it is asked. *)
Definition aggregate_by_key (w : World) (key_id : string) : option Z :=
  report_entry (oracle w (requests w) GET_metrics_transfer) key_id.

Definition legacy_aggregate (w : World) (key_id : string) : option Z :=
  report_entry (oracle w (requests w ++ [GET_metrics_transfer])%list GET_metrics) key_id.

Definition inline_fields (w : World) (key_id : string) : option Z :=
  inline_entry
    (oracle w ((requests w ++ [GET_metrics_transfer]) ++ [GET_metrics])%list
            (GET_access_key key_id)).

Fixpoint first_yield (sources : list (option Z)) : option Z :=
  match sources with
  | [] => None
  | Some v :: _ => Some v
  | None :: rest => first_yield rest
  end.

(** The requests made: the sources in their order, up to the first one that
    yields. *)
Definition probes (w : World) (key_id : string) : list Request :=
  match aggregate_by_key w key_id with
  | Some _ => [GET_metrics_transfer]
  | None =>
      match legacy_aggregate w key_id with
      | Some _ => [GET_metrics_transfer; GET_metrics]
      | None => [GET_metrics_transfer; GET_metrics; GET_access_key key_id]
      end
  end.

(** ** The conversation *)

Definition idle (w : World) (user_id : Z) : Prop :=
  user_states w !! user_id = None.

(** A text of ASCII characters.  On such a text [strip], [int] and
    [float] read what Python reads. *)
Definition ascii_text (s : string) : bool :=
  forallb (fun c => Z.of_nat (nat_of_ascii c) <? 128) (list_ascii_of_string s).

(** What the text entered as a limit leads to: the number of bytes asked
    for, or the exception raised by the checks. *)
Definition limit_bytes_of (text : string) : py Z :=
  limit_gb ← float_of_str (strip text);
  if fle limit_gb (float_of_Z 0) then Raise ValueError
  else int_of_float (fmul limit_gb (float_of_Z 1000000000)).

(** The date that the text entered as an expiry date denotes. *)
Definition date_of (text : string) : py DateTime.datetime :=
  '(day, month, year) ← unpack_date (split "." (strip text));
  DateTime.new year month day.

(** A computation that does nothing but talk to the server. *)
Definition remote_only {A} (m : M A) : Prop :=
  forall w, exists sent, snd (m w) = set_requests (fun h => (h ++ sent)%list) w.

(** A text made of decimal digits only, and the number it denotes. *)
Definition is_whole_number (s : string) : bool :=
  match list_ascii_of_string s with
  | [] => false
  | l => forallb is_digit l
  end.

Definition digits_value (l : list ascii) : Z :=
  fold_left (fun acc c => 10 * acc + digit_val c) l 0.

Definition whole_number (s : string) : Z := digits_value (list_ascii_of_string s).

Definition world_limit (o : list Request -> Request -> option Response) : World :=
  world_of o (mkStore [user_row root true false] [key_row alice "7"] [])
           {[ root := mkUserState "waiting_for_limit" (Some "7") root 10 ]}.

(** ** binary64 values of whole numbers *)

(** [m * 2^(-k)] is the normal form of the float equal to [n]: a mantissa of
    53 bits. *)
Definition normal_of (n : Z) (m : positive) (k : Z) : Prop :=
  Z.pos m = n * 2 ^ k /\ Z.pos (digits2_pos m) = 53 /\ 0 <= k <= 52.

Definition exact_record (m : positive) : shr_record :=
  Build_shr_record (Z.pos m) false false.

(** ** Reconciliation *)

(** The key ids of a listing. *)
Definition listed_ids (server_keys : list KeyJson) : list string :=
  omap j_id server_keys.

(** The table has a row for the key id. *)
Definition known (st : Store) (key_id : string) : bool :=
  Database.touched key_id (access_keys st).

(** The owner of a row is the negation of the number its key id denotes. *)
Definition placeholder_owner (r : KeyRow) : Prop :=
  exists n, Py.int (k_key_id r) = Ok n /\ k_user_id r = - n.

(** The data limit of the last row with a key id. *)
Fixpoint last_limit (rows : list KeyRow) (key_id : string) : option Z :=
  match rows with
  | [] => None
  | r :: rest =>
      match last_limit rest key_id with
      | Some v => Some v
      | None => if Database.has_key_id key_id r then Some (k_data_limit r) else None
      end
  end.

(** The key could be inserted: its id reads as a number whose negation
    fits the 64 bits of an SQLite integer, it has an access URL, and its
    limit fits as well. *)
Definition insertable (key : KeyJson) (key_id : string) : bool :=
  match Py.int key_id with
  | Ok n =>
      Database.fits_int64 (- n)
      && bool_decide (is_Some (j_accessUrl key))
      && Database.fits_int64 (Database.data_limit_of key)
  | Raise _ => false
  end.

Definition remote_key (key_id : string) (bytes : option Z) : KeyJson :=
  mkKeyJson (Some key_id) (Some "phone") (Some "ss://example")
            (option_map Some bytes) None None.

Definition empty_store : Store := mkStore [] [] [].

(** The row continues a row of the earlier table: same key id, same
    owner. *)
Definition continues (rows : list KeyRow) (r : KeyRow) : Prop :=
  exists r0, r0 ∈ rows /\ k_key_id r0 = k_key_id r /\ k_user_id r0 = k_user_id r.

Definition two_keys : list KeyJson :=
  [remote_key "1" (Some 5); remote_key "2" None].


(** ** Further vocabulary: the tables *)

Definition user_ids (st : Store) : list Z := map u_user_id (users st).

Definition key_ids (st : Store) : list string := map k_key_id (access_keys st).

(** The rows of the key table that belong to other keys. *)
Definition other_keys (key_id : string) (st : Store) : list KeyRow :=
  List.filter (fun r => negb (Database.has_key_id key_id r)) (access_keys st).

(** A function on user rows that leaves the id alone. *)
Definition keeps_user_id (f : UserRow -> UserRow) : Prop :=
  forall u, u_user_id (f u) = u_user_id u.

Definition sample_user (user_id : Z) (name : string) : Database.UserData :=
  Database.mkUserData (Some user_id) (Some name) None None (Some "en-US").

(** A function on key rows that leaves the key id alone. *)
Definition keeps_key_id (f : KeyRow -> KeyRow) : Prop :=
  forall r, k_key_id (f r) = k_key_id r.

(** The row [save_access_key] writes over an existing one. *)
Definition saved_over (user_id : Z) (key_data : KeyJson) (paid_until : option Z)
           (data_limit : Z) (r : KeyRow) : KeyRow :=
  mkKeyRow user_id (k_key_id r) (default "" (j_name key_data))
           (default "" (j_accessUrl key_data)) data_limit (default 0 paid_until)
           (k_created_at r).

(** The key table with the data limits blanked out: what is left is the
    owner, the key id, the name, the URL and the two dates of every row. *)
Definition limit_blind (rows : list KeyRow) : list KeyRow :=
  map (Database.with_data_limit 0) rows.

(** The rows of one key. *)
Definition rows_of (key_id : string) (st : Store) : list KeyRow :=
  List.filter (Database.has_key_id key_id) (access_keys st).

(** How the loop of a pass over the listing ends. *)
Definition sync_result (now : Z) (server_keys : list KeyJson) (st : Store) : py unit :=
  fst (Database.sync_loop now (Database.db_keys_of (access_keys st)) server_keys st).

(** The loop body can handle the listed key.  The key has an id; if the
    table has rows for it, the limit the pass reads for the key is the limit of
    the listing or the limit of the listing fits an SQLite integer; if the
    table has none, the key has what an insert needs. *)
Definition syncable (st : Store) (key : KeyJson) : bool :=
  match j_id key with
  | Some key_id =>
      match last_limit (access_keys st) key_id with
      | Some stored =>
          (stored =? Database.data_limit_of key)
          || Database.fits_int64 (Database.data_limit_of key)
      | None => insertable key key_id
      end
  | None => false
  end.

(** The key ids of the listing are texts of ASCII characters. *)
Definition ascii_ids (server_keys : list KeyJson) : bool :=
  forallb ascii_text (listed_ids server_keys).

(** ** Further vocabulary: the server *)

(** A request that asks the server for something and changes nothing. *)
Definition is_read (req : Request) : bool :=
  match req with
  | GET_access_keys | GET_access_key _ | GET_metrics | GET_metrics_transfer => true
  | _ => false
  end.

(** Two key dicts that differ at most in their ['dataLimit'] entry. *)
Definition same_but_dataLimit (key key' : KeyJson) : Prop :=
  j_id key' = j_id key /\ j_name key' = j_name key /\ j_accessUrl key' = j_accessUrl key
  /\ j_usageBytes key' = j_usageBytes key /\ j_usage key' = j_usage key.

(** The server lists the keys and answers no request about a single key. *)
Definition server_lists (keys : list KeyJson) : list Request -> Request -> option Response :=
  fun _ req =>
    match req with
    | GET_access_keys => Some (mkResponse (Some keys) None empty_key)
    | _ => None
    end.

(** ** Further vocabulary: what a computation leaves as it is

    [keeps R m]: whatever the world, the world after [m] is related to
    the world before by [R]. *)
Definition keeps (R : relation World) {A} (m : M A) : Prop :=
  forall w, R w (snd (m w)).

(** The flow entry of one actor is as before. *)
Definition other_state (other : Z) : relation World :=
  fun w w' => user_states w' !! other = user_states w !! other.

(** The users and the keys are as before; the log has at most grown. *)
Definition same_tables : relation World :=
  fun w w' => users (db w') = users (db w)
              /\ access_keys (db w') = access_keys (db w)
              /\ activity_log (db w) `prefix_of` activity_log (db w').

(** No request was made. *)
Definition no_request : relation World :=
  fun w w' => requests w' = requests w.

(** The requests made were reads. *)
Definition reads_only : relation World :=
  fun w w' => exists sent, requests w' = (requests w ++ sent)%list
                           /\ Forall (fun req => is_read req = true) sent.

(** The handlers of text messages and of button presses. *)
Definition message_handlers (profile : Database.UserData) : list (Message -> M unit) :=
  [ fun message => start_command message profile; help_command; process_limit_input;
    process_date_input; handle_key_name_input; unknown_message ].

Definition callback_handlers : list (CallbackQuery -> M unit) :=
  [ create_key_callback; my_keys_callback; all_keys_callback; key_info_callback;
    back_to_main_callback; set_limit_callback; set_paid_callback; delete_key_callback ].

(** ** Further vocabulary: buttons *)

(** A key id without the character that separates the parts of callback
    data (the ids a server assigns are numbers). *)
Definition no_underscore (key_id : string) : bool :=
  forallb (fun c => negb (Ascii.eqb c "_")) (list_ascii_of_string key_id).

(** The actor presses a button with this callback data under message 10 of
    the own chat. *)
Definition press_in (user_id chat_id message_id : Z) (data : string) : CallbackQuery :=
  mkCallbackQuery "q1" user_id data chat_id message_id.

(** The actor owns the key (its first row) or is an administrator. *)
Definition may_manage (w : World) (user_id : Z) (key_id : string) : bool :=
  match Database.get_key_owner (db w) key_id with
  | Some owner => (owner =? user_id) || Database.is_admin (config w) (db w) user_id
  | None => false
  end.

(** ** Further vocabulary: who is asked for a value *)

(** The entry waits for a limit or for a date. *)
Definition asks_value (us : UserState) : Prop :=
  state us = "waiting_for_limit" \/ state us = "waiting_for_date".

(** Every actor who is asked for a limit or a date is an administrator. *)
Definition admin_flows (w : World) : Prop :=
  forall user_id us,
    user_states w !! user_id = Some us -> asks_value us ->
    Database.is_admin (config w) (db w) user_id = true.

(** From [w] to [w'] nobody's rights changed, and whoever is asked for a
    value in [w'] was asked for one in [w] or was an administrator. *)
Definition flows_from : relation World :=
  fun w w' =>
    config w' = config w
    /\ (forall user_id, Database.is_admin (config w) (db w') user_id
                        = Database.is_admin (config w) (db w) user_id)
    /\ (forall user_id us,
           user_states w' !! user_id = Some us -> asks_value us ->
           (exists us0, user_states w !! user_id = Some us0 /\ asks_value us0)
           \/ Database.is_admin (config w) (db w) user_id = true).

(** A server that creates the given key on request and answers nothing
    else. *)
Definition server_creates (key : KeyJson) : list Request -> Request -> option Response :=
  fun _ req =>
    match req with
    | POST_access_keys _ => Some (mkResponse None None key)
    | _ => None
    end.

(** Which of the filters accept the callback data, in the order of
    registration. *)
Definition accepted_by (data : string) : list bool :=
  map (fun f => f data) callback_filters.


(** ** The conversions on sample texts *)

Example int_strips_c_space : Py.int (String (ascii_of_nat 9) "7 ") = Ok 7.
Proof. reflexivity. Qed.

Example int_keeps_separators : Py.int (String (ascii_of_nat 28) "7") = Raise ValueError.
Proof. reflexivity. Qed.

Example strip_drops_separators : strip (String (ascii_of_nat 28) "7 ") = "7".
Proof. reflexivity. Qed.

Example int_texts :
  map Py.int ["1_0"; "_1"; "1__0"; "1_"; "+5"; "-5"; "- 5"; "05"; "0_5"; ""; "5.0"]
  = [Ok 10; Raise ValueError; Raise ValueError; Raise ValueError; Ok 5; Ok (-5);
     Raise ValueError; Ok 5; Ok 5; Raise ValueError; Raise ValueError].
Proof. reflexivity. Qed.

Example float_texts_refused :
  forallb (fun s => negb (is_ok (float_of_str s)))
          ["1._5"; "_1"; "1__0"; "1_"; "e5"; "."; "+"; " "; "in f"; "1e"; "0x10";
           "1e5.0"; "1e_1"; "infinit"; "1 e5"; "- 5"; "1,5"; "abc"]
  = true.
Proof. reflexivity. Qed.

Example float_texts :
  map float_of_str ["1."; "1.e2"; ".5e1"; "1_0.5e1"; "1e1_0"; "INF"; "-nan"; "-0"]
  = map Ok [float_of_Z 1; float_of_Z 100; float_of_Z 5; float_of_Z 105;
            float_of_Z 10000000000; S754_infinity false; S754_nan; S754_zero true].
Proof. vm_compute. reflexivity. Qed.

(** 0.1 is the binary64 value 3602879701896397 / 2^55. *)
Example float_tenth : float_of_str "0.1" = Ok (S754_finite false 7205759403792794 (-56)).
Proof. vm_compute. reflexivity. Qed.

Example split_texts :
  Py.split "_" "delete_7" = ["delete"; "7"] /\ Py.split "." "" = [""]
  /\ Py.split "." "1.2." = ["1"; "2"; ""].
Proof. repeat split. Qed.

Example dates :
  map (fun '(y, m, d) => is_ok (DateTime.new y m d))
      [(2027, 2, 31); (0, 1, 1); (10000, 1, 1); (2026, 13, 1); (2026, 2, 29); (2024, 2, 29)]
  = [false; false; false; false; false; true]
  /\ DateTime.new 2147483648 1 1 = Raise OverflowError
  /\ DateTime.timestamp 0 (DateTime.mkDateTime 2026 1 2 0 0 0 0) = 1767312000
  /\ DateTime.timestamp 0 (DateTime.mkDateTime 2000 2 29 0 0 0 0) = 951782400
  /\ DateTime.timestamp 0 (DateTime.mkDateTime 1 1 1 0 0 0 0) = -62135596800.
Proof. repeat split. Qed.

(** ** Running computations *)

Ltac unfold_M :=
  unfold mbind, M_bind, mret, M_ret, py_mbind, py_ret, py_bind,
         bind, ret, raise, lift, gets, modify, try_except, try_except_ValueError in *.

#[local] Arguments DateTime.lt : simpl never.
#[local] Arguments DateTime.new : simpl never.
#[local] Arguments DateTime.timestamp : simpl never.
#[local] Arguments unpack_date : simpl never.
#[local] Arguments float_of_str : simpl never.
#[local] Arguments int_of_float : simpl never.
#[local] Arguments float_of_Z : simpl never.
#[local] Arguments fmul : simpl never.
#[local] Arguments fle : simpl never.
#[local] Arguments strip : simpl never.
#[local] Arguments split : simpl never.
#[local] Arguments index : simpl never.
#[local] Arguments Py.int : simpl never.

Ltac case_leb :=
  match goal with
  | |- context [Z.leb ?a ?b] => destruct (Z.leb_spec0 a b)
  end.

(** ** Tier check *)

Lemma existsb_Z_eqb (x : Z) (l : list Z) : In x l -> existsb (Z.eqb x) l = true.
Proof.
  intros H. apply existsb_exists. exists x. split; [assumption | apply Z.eqb_refl].
Qed.

(** C10. An identity listed in [ADMIN_IDS] is an administrator whatever the
    users table holds: with no row for it, or with a row that is blocked or
    not marked as administrator. *)
Theorem is_admin_of_configured (cfg : Config) (st : Store) (user_id : Z) :
  In user_id (ADMIN_IDS cfg) -> Database.is_admin cfg st user_id = true.
Proof.
  intros H. unfold Database.is_admin. now rewrite existsb_Z_eqb.
Qed.

(** An administrator of the configuration without a row, and one whose row is
    blocked and not marked as administrator. *)
Lemma is_admin_of_configured_witness :
  Database.is_admin config_example (mkStore [] [] []) root = true
  /\ Database.is_admin config_example (mkStore [user_row root false true] [] []) root = true
  /\ Database.is_user_blocked (mkStore [user_row root false true] [] []) root = true.
Proof.
  split; [| split].
  - apply (is_admin_of_configured config_example (mkStore [] [] []) root).
    simpl. left. reflexivity.
  - apply (is_admin_of_configured config_example
             (mkStore [user_row root false true] [] []) root).
    simpl. left. reflexivity.
  - reflexivity.
Defined.

(** ** Quota *)

Lemma create_key_callback_blocked (call : CallbackQuery) (w : World) :
  Database.is_user_blocked (db w) (call_from_user call) = true ->
  create_key_callback call w
  = (Ok tt, set_outbox (fun o => (o ++ [answer_callback_query (call_id call) (Some "user_blocked")])%list) w).
Proof.
  intros H. unfold create_key_callback. unfold_M. rewrite H. reflexivity.
Qed.

Lemma create_key_callback_full (call : CallbackQuery) (w : World) :
  Database.is_user_blocked (db w) (call_from_user call) = false ->
  quota_reached w (call_from_user call) ->
  create_key_callback call w
  = (Ok tt, set_outbox (fun o => (o ++ [answer_callback_query (call_id call) (Some "max_keys_reached")])%list) w).
Proof.
  intros Hb Hq. unfold quota_reached, tier_limit in Hq.
  unfold create_key_callback, db_is_admin. unfold_M. rewrite Hb. cbn.
  destruct (Database.is_admin (config w) (db w) (call_from_user call));
    (case_leb; [reflexivity | contradiction]).
Qed.

Lemma create_key_callback_room (call : CallbackQuery) (w : World) :
  Database.is_user_blocked (db w) (call_from_user call) = false ->
  ~ quota_reached w (call_from_user call) ->
  create_key_callback call w
  = (Ok tt,
     set_user_states
       (<[call_from_user call
          := mkUserState "waiting_for_key_name" None (call_chat_id call) (call_message_id call)]>)
       (set_outbox (fun o => (o ++ [edit_message_text "enter_key_name"
                                      (call_chat_id call) (call_message_id call)])%list)
          (set_outbox (fun o => (o ++ [answer_callback_query (call_id call) None])%list) w))).
Proof.
  intros Hb Hq. unfold quota_reached, tier_limit in Hq.
  unfold create_key_callback, db_is_admin, bot. unfold_M. rewrite Hb. cbn.
  destruct (Database.is_admin (config w) (db w) (call_from_user call));
    (case_leb; [contradiction | reflexivity]).
Qed.

(** C8, as amended.  For an actor who is not blocked, the request to create
    a key is refused exactly when the number of keys the actor owns has
    reached the limit of the actor's tier; otherwise the handler asks for
    the name of the key. *)
Theorem create_refused_iff_quota_reached (call : CallbackQuery) (w : World) :
  Database.is_user_blocked (db w) (call_from_user call) = false ->
  (create_refused call w <-> quota_reached w (call_from_user call))
  /\ (~ quota_reached w (call_from_user call) -> create_started call w).
Proof.
  intros Hb. split; [split |].
  - intros [reason Hr].
    destruct (Z_le_dec (tier_limit w (call_from_user call))
                       (Database.count_user_keys (db w) (call_from_user call)))
      as [Hq | Hq]; [exact Hq | exfalso].
    rewrite (create_key_callback_room call w Hb Hq) in Hr. cbn in Hr.
    apply (f_equal outbox) in Hr. cbn in Hr.
    apply (f_equal (@length BotAction)) in Hr.
    rewrite !length_app in Hr. cbn in Hr. lia.
  - intros Hq. exists "max_keys_reached".
    now rewrite (create_key_callback_full call w Hb Hq).
  - intros Hq. unfold create_started.
    rewrite (create_key_callback_room call w Hb Hq). cbn.
    apply lookup_insert_eq.
Qed.

(** With the limits 1 and 10: a standard actor with one key is refused, an
    administrator with nine keys is asked for a name, one with ten is
    refused. *)
Lemma create_refused_iff_quota_reached_witness :
  create_refused (press alice "create_key") (world_of server_down store_standard_1 ∅)
  /\ create_started (press root "create_key")
                    (world_of server_down (store_elevated nine_keys) ∅)
  /\ create_refused (press root "create_key")
                    (world_of server_down (store_elevated ("10" :: nine_keys)) ∅).
Proof.
  split; [| split].
  - apply (create_refused_iff_quota_reached (press alice "create_key")
             (world_of server_down store_standard_1 ∅)).
    + reflexivity.
    + unfold quota_reached. vm_compute. discriminate.
  - apply (create_refused_iff_quota_reached (press root "create_key")
             (world_of server_down (store_elevated nine_keys) ∅)).
    + reflexivity.
    + unfold quota_reached. vm_compute. intros H. apply H. reflexivity.
  - apply (create_refused_iff_quota_reached (press root "create_key")
             (world_of server_down (store_elevated ("10" :: nine_keys)) ∅)).
    + reflexivity.
    + unfold quota_reached. vm_compute. discriminate.
Defined.

(** C8, as stated, fails for a blocked actor: with no key at all, below the
    limit of one, the request is refused. *)
Lemma create_refused_below_quota_when_blocked :
  create_refused (press alice "create_key") (world_of server_down store_blocked_0 ∅)
  /\ ~ quota_reached (world_of server_down store_blocked_0 ∅) alice.
Proof.
  split.
  - exists "user_blocked". reflexivity.
  - unfold quota_reached. vm_compute. intros H. apply H. reflexivity.
Qed.

(** ** Deleting a key *)

Lemma call_delete_access_key (args : list Database.value) (st : Store) :
  Database.call "delete_access_key" args st = Raise AttributeError.
Proof. reflexivity. Qed.

Lemma call_update_paid_until (args : list Database.value) (st : Store) :
  Database.call "update_paid_until" args st = Raise AttributeError.
Proof. reflexivity. Qed.

(** What the method of the class does when it is called. *)
Lemma delete_key_removes (st : Store) (key_id : string) :
  List.find (Database.has_key_id key_id)
            (access_keys (snd (Database.delete_key st key_id))) = None.
Proof.
  cbn. induction (access_keys st) as [| r rows IH]; [reflexivity |].
  cbn. destruct (Database.has_key_id key_id r) eqn:E; cbn; [exact IH |].
  now rewrite E.
Qed.

Lemma delete_access_key_db (key_id : string) (w : World) :
  db (snd (OutlineAPI.delete_access_key key_id w)) = db w.
Proof.
  unfold OutlineAPI.delete_access_key, OutlineAPI._request. unfold_M.
  destruct (oracle w (requests w) (DELETE_access_key key_id)); reflexivity.
Qed.

(** The handler never changes the tables: the removal of the row is written
    as a call of [delete_access_key], which [Database] does not have. *)
Lemma delete_key_callback_keeps_store (call : CallbackQuery) (w : World) :
  db (snd (delete_key_callback call w)) = db w.
Proof.
  unfold delete_key_callback, get_key_by_id, db_is_admin, db_call, bot.
  unfold_M.
  destruct (index (split "_" (data call)) 1) as [key_id | e]; [| reflexivity].
  destruct (List.find _ _) as [key |]; [| reflexivity].
  destruct (negb _ && negb _); [reflexivity |].
  pose proof (delete_access_key_db key_id w) as Hd.
  destruct (OutlineAPI.delete_access_key key_id w) as [[b | e] w1]; cbn in *.
  - exact Hd.
  - exact Hd.
Qed.

(** C1 fails on the code.  The owner of key 7 asks for its deletion while the
    server cannot be reached: the handler ends normally, after one delete
    request to the server and an error notice to the owner, and the row of
    key 7 is still in the local table. *)
Theorem delete_key_callback_row_survives :
  let r := delete_key_callback (press alice "delete_7") world_delete in
  fst r = Ok tt
  /\ requests (snd r) = [DELETE_access_key "7"]
  /\ fst (get_key_by_id (Some "7") (snd r)) = Ok (Some (key_row alice "7"))
  /\ outbox (snd r) = [answer_callback_query "q1" (Some "error")].
Proof. vm_compute. repeat split. Qed.

(** When the server accepts the delete, the row is left behind for a key
    that no longer exists there. *)
Example delete_key_callback_row_survives_remote_delete :
  let r := delete_key_callback (press alice "delete_7")
             (world_of server_silent (mkStore [user_row alice false false] [key_row alice "7"] []) ∅) in
  requests (snd r) = [DELETE_access_key "7"]
  /\ access_keys (db (snd r)) = [key_row alice "7"]
  /\ outbox (snd r) = [answer_callback_query "q1" (Some "error")].
Proof. vm_compute. repeat split. Qed.

(** ** Setting the expiry date *)

(** The handler never changes the tables and never talks to the server
    before its [try] block ends: the update is written as a call of
    [update_paid_until], which [Database] does not have. *)
Lemma process_date_input_raises_or_returns (message : Message) (w : World) :
  let r := process_date_input message w in
  db (snd r) = db w /\ requests (snd r) = requests w
  /\ user_states (snd r) = user_states w.
Proof.
  unfold process_date_input, db_call, bot. unfold_M. cbn.
  destruct (user_states w !! from_user message) as [us |]; [| auto].
  destruct (negb _); [auto |].
  destruct (unpack_date _) as [[[d m] y] | e]; [| destruct e; auto].
  destruct (DateTime.new y m d) as [date | e]; [| destruct e; auto].
  cbn. destruct (DateTime.lt date (datetime_now w)); [auto |].
  cbn. auto.
Qed.

(** C3 fails on the code.  An administrator who was asked for a date enters
    02.01.2026 at noon of 1 January 2026: the date is well formed and not
    in the past, yet the handler raises [AttributeError], the paid-until
    field of key 7 keeps its value 0, and the state entry stays.  No request
    is sent to the server. *)
Theorem process_date_input_does_not_store :
  let r := process_date_input (mkMessage root "02.01.2026") world_date in
  fst r = Raise AttributeError
  /\ map k_paid_until (access_keys (db (snd r))) = [0]
  /\ requests (snd r) = []
  /\ user_states (snd r) !! root = Some (mkUserState "waiting_for_date" (Some "7") root 10).
Proof. vm_compute. repeat split. Qed.

(** ** The remote client *)

Lemma _request_ok (req : Request) (w : World) (r : Response) :
  oracle w (requests w) req = Some r ->
  OutlineAPI._request req w = (Ok r, set_requests (fun h => (h ++ [req])%list) w).
Proof. intros H. unfold OutlineAPI._request. now rewrite H. Qed.

Lemma _request_fail (req : Request) (w : World) :
  oracle w (requests w) req = None ->
  OutlineAPI._request req w = (Raise RequestError, set_requests (fun h => (h ++ [req])%list) w).
Proof. intros H. unfold OutlineAPI._request. now rewrite H. Qed.

Ltac case_request req w :=
  let E := fresh "E" in
  destruct (oracle w (requests w) req) eqn:E;
  [ rewrite (_request_ok req w _ E) | rewrite (_request_fail req w E) ].

Ltac finish_limit Hd :=
  repeat split;
  first
    [ eexists; reflexivity
    | eexists; rewrite <- app_assoc; reflexivity
    | congruence
    | let a := fresh "a" in
      let Ha := fresh "Ha" in
      let Hm := fresh "Hm" in
      intros a _ Ha Hm; injection Ha as <-; rewrite Hd in Hm; congruence ].

(** [set_data_limit] never raises, and the change is the first request it
    makes. *)
Lemma set_data_limit_first_request (key_id : string) (bytes : Z) (w : World) :
  let r := OutlineAPI.set_data_limit key_id bytes w in
  (exists b, fst r = Ok b)
  /\ (exists rest, requests (snd r) = (requests w ++ change_request key_id bytes :: rest)%list).
Proof.
  unfold change_request.
  unfold OutlineAPI.set_data_limit, OutlineAPI.verify_limit, OutlineAPI.get_access_key.
  unfold_M.
  destruct (0 <? bytes) eqn:Hpos.
  - case_request (PUT_data_limit key_id bytes) w.
    + case_request (GET_access_key key_id)
        (set_requests (fun h => (h ++ [PUT_data_limit key_id bytes])%list) w); cbn.
      * destruct (j_dataLimit (r_key r0)) as [[actual |] |] eqn:Hd; cbn;
          try (destruct (Z.eqb_spec actual bytes); cbn);
          finish_limit Hd.
      * finish_limit E.
    + cbn. finish_limit E.
  - case_request (DELETE_data_limit key_id) w.
    + case_request (GET_access_key key_id)
        (set_requests (fun h => (h ++ [DELETE_data_limit key_id])%list) w); cbn.
      * destruct (j_dataLimit (r_key r0)) as [[actual |] |] eqn:Hd; cbn;
          finish_limit Hd.
      * finish_limit E.
    + cbn. finish_limit E.
Qed.

(** C5, as amended.  [set_data_limit] never raises, and the first request
    it makes is the change: the removal of the cap when the number of bytes
    is 0 (or less), a new cap otherwise.  When the change is accepted and the
    key read afterwards reports another cap than the expected one, the result
    is [False]; when the read itself fails, the result is [True]; when the
    change is not accepted, the result is [False]. *)
Theorem set_data_limit_outcomes (key_id : string) (bytes : Z) (w : World) :
  let r := OutlineAPI.set_data_limit key_id bytes w in
  (exists b, fst r = Ok b)
  /\ (exists rest, requests (snd r) = (requests w ++ change_request key_id bytes :: rest)%list)
  /\ change_request key_id 0 = DELETE_data_limit key_id
  /\ (change_answer w key_id bytes = None -> fst r = Ok false)
  /\ (forall answer,
        change_answer w key_id bytes <> None ->
        reread_answer w key_id bytes = Some answer ->
        effective_cap (r_key answer) <> expected_cap bytes ->
        fst r = Ok false)
  /\ (change_answer w key_id bytes <> None ->
      reread_answer w key_id bytes = None ->
      fst r = Ok true).
Proof.
  unfold change_answer, reread_answer, effective_cap, expected_cap, change_request.
  unfold OutlineAPI.set_data_limit, OutlineAPI.verify_limit, OutlineAPI.get_access_key.
  unfold_M.
  destruct (0 <? bytes) eqn:Hpos.
  - case_request (PUT_data_limit key_id bytes) w.
    + case_request (GET_access_key key_id)
        (set_requests (fun h => (h ++ [PUT_data_limit key_id bytes])%list) w);
        cbn in E0; rewrite E0; cbn.
      * destruct (j_dataLimit (r_key r0)) as [[actual |] |] eqn:Hd; cbn;
          try (destruct (Z.eqb_spec actual bytes); cbn);
          finish_limit Hd.
      * finish_limit E.
    + cbn. finish_limit E.
  - case_request (DELETE_data_limit key_id) w.
    + case_request (GET_access_key key_id)
        (set_requests (fun h => (h ++ [DELETE_data_limit key_id])%list) w);
        cbn in E0; rewrite E0; cbn.
      * destruct (j_dataLimit (r_key r0)) as [[actual |] |] eqn:Hd; cbn;
          finish_limit Hd.
      * finish_limit E.
    + cbn. finish_limit E.
Qed.

(** A server that keeps the old cap, one that accepts changes and fails
    reads, and one that cannot be reached. *)
Lemma set_data_limit_outcomes_witness :
  fst (OutlineAPI.set_data_limit "7" 5000 (world_of server_stuck (mkStore [] [] []) ∅)) = Ok false
  /\ fst (OutlineAPI.set_data_limit "7" 0 (world_of server_write_only (mkStore [] [] []) ∅)) = Ok true
  /\ fst (OutlineAPI.set_data_limit "7" 5000 (world_of server_down (mkStore [] [] []) ∅)) = Ok false.
Proof.
  split; [| split].
  - pose proof (set_data_limit_outcomes "7" 5000 (world_of server_stuck (mkStore [] [] []) ∅))
      as (_ & _ & _ & _ & H & _).
    apply (H (mkResponse None None
                (mkKeyJson (Some "7") None (Some "ss://example") (Some (Some 1000)) None None))).
    + discriminate.
    + reflexivity.
    + discriminate.
  - pose proof (set_data_limit_outcomes "7" 0 (world_of server_write_only (mkStore [] [] []) ∅))
      as (_ & _ & _ & _ & _ & H).
    apply H.
    + discriminate.
    + reflexivity.
  - pose proof (set_data_limit_outcomes "7" 5000 (world_of server_down (mkStore [] [] []) ∅))
      as (_ & _ & _ & H & _).
    apply H. reflexivity.
Defined.

(** C5, as stated, fails: the change is accepted, the read after it fails,
    and the result is [True]. *)
Lemma set_data_limit_true_when_reread_fails :
  let w := world_of server_write_only (mkStore [] [] []) ∅ in
  change_answer w "7" 5000 = Some empty_response
  /\ reread_answer w "7" 5000 = None
  /\ OutlineAPI.set_data_limit "7" 5000 w
     = (Ok true, set_requests (fun _ => [PUT_data_limit "7" 5000; GET_access_key "7"]) w).
Proof. repeat split. Qed.

(** ** Usage of a key *)

Ltac case_oracle :=
  match goal with
  | |- context [OutlineAPI._request ?req ?w] => case_request req w; cbn
  end.

(** The two lookups of the code find what the answer holds. *)
Lemma usage_in_report_entry (report : Response) (key_id : string) :
  OutlineAPI.usage_in_report report key_id = report_entry (Some report) key_id.
Proof. reflexivity. Qed.

Lemma usage_in_key_entry (answer : Response) :
  OutlineAPI.usage_in_key (r_key answer) = inline_entry (Some answer).
Proof.
  unfold OutlineAPI.usage_in_key, inline_entry.
  destruct (j_usageBytes (r_key answer)); [reflexivity |].
  destruct (j_usage (r_key answer)) as [[v |] |]; reflexivity.
Qed.

#[local] Arguments report_entry : simpl never.
#[local] Arguments inline_entry : simpl never.
#[local] Arguments OutlineAPI.usage_in_report : simpl never.
#[local] Arguments OutlineAPI.usage_in_key : simpl never.


(** A server whose aggregate report knows key 7 only in its legacy form,
    and a server that knows the usage from the key itself. *)
Example get_key_data_usage_samples :
  let legacy := fun (_ : list Request) req =>
                  match req with
                  | GET_metrics => Some (mkResponse None (Some {[ "7" := 123 ]}) empty_key)
                  | GET_metrics_transfer => Some (mkResponse None (Some {[ "8" := 5 ]}) empty_key)
                  | _ => None
                  end in
  let inline := fun (_ : list Request) req =>
                  match req with
                  | GET_access_key _ =>
                      Some (mkResponse None None
                              (mkKeyJson (Some "7") None None None None (Some (Some 77))))
                  | _ => None
                  end in
  fst (OutlineAPI.get_key_data_usage "7" (world_of legacy empty_store ∅)) = Ok 123
  /\ fst (OutlineAPI.get_key_data_usage "8" (world_of legacy empty_store ∅)) = Ok 5
  /\ fst (OutlineAPI.get_key_data_usage "7" (world_of inline empty_store ∅)) = Ok 77
  /\ fst (OutlineAPI.get_key_data_usage "7" (world_of server_down empty_store ∅)) = Ok 0.
Proof. cbv zeta. repeat split; vm_compute; reflexivity. Qed.


(** ** Computations that only talk to the server *)

Lemma set_requests_nil (w : World) : w = set_requests (fun h => (h ++ [])%list) w.
Proof. destruct w. unfold set_requests. cbn. now rewrite app_nil_r. Qed.

Lemma set_requests_app (a b : list Request) (w : World) :
  set_requests (fun h => (h ++ b)%list) (set_requests (fun h => (h ++ a)%list) w)
  = set_requests (fun h => (h ++ (a ++ b))%list) w.
Proof. unfold set_requests. cbn. now rewrite app_assoc. Qed.

Lemma remote_only_ret {A} (a : A) : remote_only (ret a).
Proof. intros w. exists []. apply set_requests_nil. Qed.

Lemma remote_only_request (req : Request) : remote_only (OutlineAPI._request req).
Proof.
  intros w. exists [req]. unfold OutlineAPI._request.
  destruct (oracle w (requests w) req); reflexivity.
Qed.

Lemma remote_only_bind {A B} (m : M A) (k : A -> M B) :
  remote_only m -> (forall a, remote_only (k a)) -> remote_only (bind m k).
Proof.
  intros Hm Hk w. unfold bind. destruct (Hm w) as [s1 H1].
  destruct (m w) as [[a | e] w1]; cbn in *.
  - destruct (Hk a w1) as [s2 H2]. exists (s1 ++ s2)%list.
    rewrite H2, H1. apply set_requests_app.
  - exists s1. exact H1.
Qed.

Lemma remote_only_try {A} (m : M A) (h : exn -> M A) :
  remote_only m -> (forall e, remote_only (h e)) -> remote_only (try_except m h).
Proof.
  intros Hm Hh w. unfold try_except. destruct (Hm w) as [s1 H1].
  destruct (m w) as [[a | e] w1]; cbn in *.
  - exists s1. exact H1.
  - destruct (Hh e w1) as [s2 H2]. exists (s1 ++ s2)%list.
    rewrite H2, H1. apply set_requests_app.
Qed.

Ltac remote_only_tac :=
  repeat first
    [ apply remote_only_ret
    | apply remote_only_request
    | apply remote_only_bind; [| intros ?]
    | apply remote_only_try; [| intros ?]
    | match goal with
      | |- remote_only (match ?x with _ => _ end) => destruct x
      | |- remote_only (if ?x then _ else _) => destruct x
      end ].

Lemma remote_only_get_access_key (key_id : string) :
  remote_only (OutlineAPI.get_access_key key_id).
Proof. unfold OutlineAPI.get_access_key, mbind, M_bind, mret, M_ret. remote_only_tac. Qed.

Lemma remote_only_set_data_limit (key_id : string) (bytes : Z) :
  remote_only (OutlineAPI.set_data_limit key_id bytes).
Proof.
  unfold OutlineAPI.set_data_limit, OutlineAPI.verify_limit, OutlineAPI.get_access_key,
    mbind, M_bind, mret, M_ret.
  remote_only_tac.
Qed.

Lemma remote_only_get_key_data_usage (key_id : string) :
  remote_only (OutlineAPI.get_key_data_usage key_id).
Proof.
  unfold OutlineAPI.get_key_data_usage, OutlineAPI.get_server_transfer_stats,
    OutlineAPI.get_metrics, OutlineAPI.get_access_key, mbind, M_bind, mret, M_ret.
  remote_only_tac.
Qed.

Lemma remote_only_format_key_info (key : KeyRow) : remote_only (format_key_info key).
Proof.
  unfold format_key_info, mbind, M_bind, mret, M_ret.
  apply remote_only_bind; [| intros ?; apply remote_only_ret].
  destruct (String.eqb _ _); [apply remote_only_ret |].
  apply remote_only_try; [| intros ?; apply remote_only_ret].
  apply remote_only_bind; [apply remote_only_get_access_key | intros ?].
  apply remote_only_bind; [apply remote_only_get_key_data_usage | intros ?].
  apply remote_only_ret.
Qed.

(** ** The flows for a limit and for a date *)

#[local] Arguments OutlineAPI.set_data_limit : simpl never.
#[local] Arguments format_key_info : simpl never.
#[local] Arguments finish_flow : simpl never.
#[local] Arguments limit_bytes_of : simpl never.

Lemma finish_flow_effect (user_id : Z) (us : UserState) (key_id : option string) (w : World) :
  let r := finish_flow user_id us key_id w in
  user_states (snd r) = delete user_id (user_states w)
  /\ exists sent, requests (snd r) = (requests w ++ sent)%list.
Proof.
  unfold finish_flow, get_key_by_id, bot. unfold_M. cbn.
  match goal with
  | |- context [match ?k with Some _ => _ | None => _ end] => destruct k as [key |]
  end.
  - match goal with
    | |- context [format_key_info key ?w3] =>
        destruct (remote_only_format_key_info key w3) as [sent Hs];
        destruct (format_key_info key w3) as [[s | e] w4]
    end; cbn in *; subst w4; cbn; (split; [reflexivity | now exists sent]).
  - cbn. split; [reflexivity | exists []; now rewrite app_nil_r].
Qed.

Lemma process_limit_input_accepted (message : Message) (w : World) (us : UserState) (bytes : Z) :
  user_states w !! from_user message = Some us ->
  state us = "waiting_for_limit" ->
  limit_bytes_of (text message) = Ok bytes ->
  let r := process_limit_input message w in
  user_states (snd r) = delete (from_user message) (user_states w)
  /\ exists rest,
       requests (snd r)
       = (requests w ++ change_request (str_of (st_key_id us)) bytes :: rest)%list.
Proof.
  intros Hus Hst Hb. unfold limit_bytes_of in Hb. unfold_M.
  destruct (float_of_str (strip (text message))) as [x |] eqn:Hx; [| discriminate].
  destruct (fle x (float_of_Z 0)) eqn:Hle; [discriminate |].
  unfold process_limit_input, bot, db_log_activity. unfold_M.
  cbn. rewrite Hus, Hst. cbn. rewrite Hx. cbn. rewrite Hle. cbn. rewrite Hb. cbn.
  pose proof (set_data_limit_first_request (str_of (st_key_id us)) bytes w)
    as ([ok0 Hok] & [rest Hr]).
  destruct (remote_only_set_data_limit (str_of (st_key_id us)) bytes w) as [sent Hs].
  cbn in Hr, Hok.
  destruct (OutlineAPI.set_data_limit (str_of (st_key_id us)) bytes w) as [[ok | e] w1];
    cbn in *.
  - destruct ok; cbn;
      match goal with
      | |- context [finish_flow ?u ?s ?k ?w2] =>
          destruct (finish_flow_effect u s k w2) as [Hu [sent2 Hq]];
          destruct (finish_flow u s k w2) as [res w3]
      end; cbn in *; rewrite Hu, Hq, Hr; subst w1; cbn;
      (split; [reflexivity |]); exists (rest ++ sent2)%list;
      now rewrite <- app_assoc.
  - discriminate.
Qed.

Lemma process_limit_input_rejected (message : Message) (w : World) (us : UserState) :
  user_states w !! from_user message = Some us ->
  state us = "waiting_for_limit" ->
  limit_bytes_of (text message) = Raise ValueError ->
  process_limit_input message w
  = (Ok tt, set_outbox (fun o => (o ++ [send_message (from_user message) "invalid_limit"])%list) w).
Proof.
  intros Hus Hst Hb. unfold limit_bytes_of in Hb. unfold_M.
  unfold process_limit_input, bot. unfold_M.
  cbn. rewrite Hus, Hst. cbn.
  destruct (float_of_str (strip (text message))) as [x | e] eqn:Hx; cbn.
  - destruct (fle x (float_of_Z 0)) eqn:Hle; cbn; [reflexivity |].
    rewrite Hb. reflexivity.
  - injection Hb as ->. reflexivity.
Qed.

Lemma process_date_input_rejected (message : Message) (w : World) (us : UserState) :
  user_states w !! from_user message = Some us ->
  state us = "waiting_for_date" ->
  (date_of (text message) = Raise ValueError ->
   process_date_input message w
   = (Ok tt, set_outbox (fun o => (o ++ [send_message (from_user message) "invalid_date"])%list) w))
  /\ (forall date,
        date_of (text message) = Ok date ->
        DateTime.lt date (datetime_now w) = true ->
        process_date_input message w
        = (Ok tt, set_outbox (fun o => (o ++ [send_message (from_user message) "date_in_past"])%list) w)).
Proof.
  intros Hus Hst. unfold date_of. unfold_M.
  unfold process_date_input, bot. unfold_M. cbn. rewrite Hus, Hst. cbn.
  destruct (unpack_date (split "." (strip (text message)))) as [[[d m] y] | e]; cbn.
  - destruct (DateTime.new y m d) as [date | e]; cbn; split.
    + discriminate.
    + intros date' [= <-] Hlt. now rewrite Hlt.
    + intros [= ->]. reflexivity.
    + discriminate.
  - split; [intros [= ->]; reflexivity | discriminate].
Qed.

(** C2, as amended.  An actor who was asked for a limit is idle again after
    a text that passes the checks; a text that the checks refuse (it is not a
    number, or not a positive one) leaves the entry of the actor as it was.
    An actor who was asked for a date keeps the entry after a text that is not
    a date, and after a date in the past.  The text consists of ASCII
    characters, so that the checks of the model are those of Python. *)
Theorem flow_entry_after_input (message : Message) (w : World) (us : UserState) :
  user_states w !! from_user message = Some us ->
  ascii_text (text message) = true ->
  (state us = "waiting_for_limit" ->
   (forall bytes,
       limit_bytes_of (text message) = Ok bytes ->
       idle (snd (process_limit_input message w)) (from_user message))
   /\ (limit_bytes_of (text message) = Raise ValueError ->
       user_states (snd (process_limit_input message w)) = user_states w))
  /\ (state us = "waiting_for_date" ->
      (date_of (text message) = Raise ValueError ->
       user_states (snd (process_date_input message w)) = user_states w)
      /\ (forall date,
             date_of (text message) = Ok date ->
             DateTime.lt date (datetime_now w) = true ->
             user_states (snd (process_date_input message w)) = user_states w)).
Proof.
  intros Hus _. split; intros Hst; split.
  - intros bytes Hb. unfold idle.
    destruct (process_limit_input_accepted message w us bytes Hus Hst Hb) as [-> _].
    apply lookup_delete_eq.
  - intros Hb. now rewrite (process_limit_input_rejected message w us Hus Hst Hb).
  - intros Hd.
    now rewrite (proj1 (process_date_input_rejected message w us Hus Hst) Hd).
  - intros date Hd Hlt.
    now rewrite (proj2 (process_date_input_rejected message w us Hus Hst) date Hd Hlt).
Qed.

(** The texts 5 and -5 as limits; 31 February, and a day that has begun, as
    dates. *)
Lemma flow_entry_after_input_witness :
  idle (snd (process_limit_input (mkMessage root "5") (world_limit server_silent))) root
  /\ user_states (snd (process_limit_input (mkMessage root "-5") (world_limit server_silent)))
     = user_states (world_limit server_silent)
  /\ user_states (snd (process_date_input (mkMessage root "31.02.2027") world_date))
     = user_states world_date
  /\ user_states (snd (process_date_input (mkMessage root "01.01.2026") world_date))
     = user_states world_date.
Proof.
  pose proof (flow_entry_after_input (mkMessage root "5") (world_limit server_silent)
                (mkUserState "waiting_for_limit" (Some "7") root 10) eq_refl eq_refl)
    as [H5 _].
  pose proof (flow_entry_after_input (mkMessage root "-5") (world_limit server_silent)
                (mkUserState "waiting_for_limit" (Some "7") root 10) eq_refl eq_refl)
    as [Hm _].
  pose proof (flow_entry_after_input (mkMessage root "31.02.2027") world_date
                (mkUserState "waiting_for_date" (Some "7") root 10) eq_refl eq_refl)
    as [_ Hf].
  pose proof (flow_entry_after_input (mkMessage root "01.01.2026") world_date
                (mkUserState "waiting_for_date" (Some "7") root 10) eq_refl eq_refl)
    as [_ Hp].
  split; [| split; [| split]].
  - apply (proj1 (H5 eq_refl) 5000000000). vm_compute. reflexivity.
  - apply (proj2 (Hm eq_refl)). vm_compute. reflexivity.
  - apply (proj1 (Hf eq_refl)). vm_compute. reflexivity.
  - apply (proj2 (Hp eq_refl) (DateTime.mkDateTime 2026 1 1 0 0 0 0)).
    + vm_compute. reflexivity.
    + vm_compute. reflexivity.
Defined.

(** C2, as stated, fails: an administrator who was asked for a limit enters
    a text that is not a number; the handler answers that the limit is not
    valid and the entry stays, so the actor is not idle. *)
Lemma flow_entry_kept_after_malformed_limit :
  let w := world_limit server_silent in
  let r := process_limit_input (mkMessage root "abc") w in
  user_states w !! root = Some (mkUserState "waiting_for_limit" (Some "7") root 10)
  /\ fst r = Ok tt
  /\ outbox (snd r) = [send_message root "invalid_limit"]
  /\ user_states (snd r) !! root = Some (mkUserState "waiting_for_limit" (Some "7") root 10)
  /\ ~ idle (snd r) root.
Proof.
  cbv zeta. repeat split; try (vm_compute; reflexivity).
  unfold idle. vm_compute. discriminate.
Qed.

(** ** Whole numbers as texts *)

Lemma digit_facts (c : ascii) :
  is_digit c = true ->
  is_space c = false /\ is_c_space c = false
  /\ Ascii.eqb c "-" = false /\ Ascii.eqb c "+" = false
  /\ Ascii.eqb (lower c) "i" = false /\ Ascii.eqb (lower c) "n" = false
  /\ 0 <= digit_val c.
Proof.
  destruct c as [[] [] [] [] [] [] [] []]; vm_compute; intros H;
    try discriminate H; repeat split; discriminate.
Qed.

Lemma forallb_rev {A} (f : A -> bool) (l : list A) :
  forallb f (rev l) = forallb f l.
Proof.
  induction l as [| a l IH]; [reflexivity |].
  cbn. rewrite forallb_app, IH. cbn. rewrite andb_true_r. apply andb_comm.
Qed.

Lemma lstrip_digits (space : ascii -> bool) (l : list ascii) :
  (forall c, is_digit c = true -> space c = false) ->
  forallb is_digit l = true -> lstrip space l = l.
Proof.
  intros Hsp. destruct l as [| c l]; [reflexivity |]. cbn. intros H.
  apply andb_prop in H as [Hc _]. now rewrite (Hsp c Hc).
Qed.

Lemma strip_chars_digits (space : ascii -> bool) (l : list ascii) :
  (forall c, is_digit c = true -> space c = false) ->
  forallb is_digit l = true -> strip_chars space l = l.
Proof.
  intros Hsp H. unfold strip_chars. rewrite (lstrip_digits space l Hsp H).
  rewrite lstrip_digits; [apply rev_involutive | exact Hsp | now rewrite forallb_rev].
Qed.

Lemma digit_not_space (c : ascii) : is_digit c = true -> is_space c = false.
Proof. intros H. apply (digit_facts c H). Qed.

Lemma digit_not_c_space (c : ascii) : is_digit c = true -> is_c_space c = false.
Proof. intros H. apply (digit_facts c H). Qed.

Lemma digits_from_digits (l : list ascii) (acc : Z) (cnt : nat) :
  forallb is_digit l = true ->
  digits_from acc cnt l
  = (fold_left (fun acc c => 10 * acc + digit_val c) l acc, (cnt + length l)%nat, []).
Proof.
  revert acc cnt. induction l as [| c l IH]; intros acc cnt H.
  - cbn. now rewrite Nat.add_0_r.
  - cbn in H. apply andb_prop in H as [Hc Hl]. cbn. rewrite Hc.
    rewrite (IH _ _ Hl). now rewrite Nat.add_succ_r.
Qed.

Lemma fold_digits_nonneg (l : list ascii) (acc : Z) :
  forallb is_digit l = true -> 0 <= acc ->
  0 <= fold_left (fun acc c => 10 * acc + digit_val c) l acc.
Proof.
  revert acc. induction l as [| c l IH]; intros acc H Hacc; [exact Hacc |].
  cbn in H. apply andb_prop in H as [Hc Hl]. cbn. apply IH; [exact Hl |].
  pose proof (digit_facts c Hc) as (_ & _ & _ & _ & _ & _ & Hv). lia.
Qed.

(** [float] of a text of digits is the float nearest to the number. *)
Lemma float_of_chars_digits (l : list ascii) :
  l <> [] -> forallb is_digit l = true ->
  float_of_chars l = Ok (float_of_Z (digits_value l)).
Proof.
  intros Hne H. unfold float_of_chars.
  rewrite (strip_chars_digits is_c_space l digit_not_c_space H).
  destruct l as [| c l]; [contradiction |].
  pose proof H as H'. cbn in H'. apply andb_prop in H' as [Hc Hl].
  pose proof (digit_facts c Hc) as (_ & _ & Hm & Hp & Hi & Hn & Hv).
  unfold sign. rewrite Hm, Hp.
  assert (Hinf : lower_is "inf" (c :: l) = false).
  { unfold lower_is. cbn. now rewrite Hi. }
  assert (Hinfinity : lower_is "infinity" (c :: l) = false).
  { unfold lower_is. cbn. now rewrite Hi. }
  assert (Hnan : lower_is "nan" (c :: l) = false).
  { unfold lower_is. cbn. now rewrite Hn. }
  rewrite Hinf, Hinfinity, Hnan. cbn [orb].
  unfold number, digitpart. rewrite Hc. rewrite (digits_from_digits l _ _ Hl).
  cbn [exponent]. unfold digits_value. cbn [fold_left].
  replace (10 * 0 + digit_val c) with (digit_val c) by lia.
  pose proof (fold_digits_nonneg l (digit_val c) Hl Hv) as Hge.
  destruct (fold_left _ l (digit_val c)) as [| p | p] eqn:Hf; [reflexivity | | lia].
  unfold float_of_decimal, float_of_Z. cbn. now rewrite Pos.mul_1_r.
Qed.

Lemma float_of_str_whole_number (s : string) :
  is_whole_number s = true ->
  float_of_str (strip s) = Ok (float_of_Z (whole_number s)).
Proof.
  unfold is_whole_number, whole_number, float_of_str, strip.
  intros H. rewrite list_ascii_of_string_of_list_ascii.
  destruct (list_ascii_of_string s) as [| c l] eqn:E; [discriminate |].
  rewrite (strip_chars_digits is_space _ digit_not_space H).
  apply float_of_chars_digits; [discriminate | exact H].
Qed.

(** ** binary64 arithmetic on whole numbers *)

Lemma fexp_eq (x : Z) : fexp prec emax x = Z.max (x - 53) (-1074).
Proof. reflexivity. Qed.

Lemma digits2_pos_size (p : positive) : digits2_pos p = Pos.size p.
Proof. induction p as [p IH | p IH |]; cbn; now rewrite ?IH. Qed.

Lemma digits2_log2 (p : positive) : Z.pos (digits2_pos p) = Z.log2 (Z.pos p) + 1.
Proof.
  destruct p as [p | p |]; cbn [digits2_pos Z.log2]; rewrite ?digits2_pos_size; lia.
Qed.

Lemma digits2_shift (m P : positive) (n : Z) :
  0 <= n -> Z.pos P = Z.pos m * 2 ^ n ->
  Z.pos (digits2_pos P) = Z.pos (digits2_pos m) + n.
Proof.
  intros Hn H. rewrite !digits2_log2, H, Z.log2_mul_pow2; lia.
Qed.

Lemma digits2_bounds (p : positive) :
  2 ^ (Z.pos (digits2_pos p) - 1) <= Z.pos p < 2 ^ Z.pos (digits2_pos p).
Proof.
  rewrite digits2_log2. replace (Z.log2 (Z.pos p) + 1 - 1) with (Z.log2 (Z.pos p)) by lia.
  apply Z.log2_spec. lia.
Qed.

Lemma iter_pos_nat {A} (f : A -> A) (n : positive) (x : A) :
  SpecFloat.iter_pos f n x = Nat.iter (Pos.to_nat n) f x.
Proof.
  revert x. induction n as [n IH | n IH |]; intros x; cbn [SpecFloat.iter_pos].
  - rewrite !IH, Pos2Nat.inj_xI. cbn [Nat.mul].
    rewrite Nat.add_0_r, Nat.iter_succ_r, Nat.iter_add. reflexivity.
  - rewrite !IH, Pos2Nat.inj_xO. cbn [Nat.mul].
    now rewrite Nat.add_0_r, Nat.iter_add.
  - reflexivity.
Qed.

Lemma shr_1_exact (m : positive) : shr_1 (exact_record (xO m)) = exact_record m.
Proof. reflexivity. Qed.

Lemma iter_shr_exact (k : nat) (m : positive) :
  Nat.iter k shr_1 (exact_record (Nat.iter k xO m)) = exact_record m.
Proof.
  revert m. induction k as [| k IH]; intros m; [reflexivity |].
  change (Nat.iter (S k) xO m) with (xO (Nat.iter k xO m)).
  rewrite Nat.iter_succ_r, shr_1_exact. apply IH.
Qed.

Lemma iter_xO_pow (k : nat) (m : positive) :
  Z.pos (Nat.iter k xO m) = Z.pos m * 2 ^ Z.of_nat k.
Proof.
  induction k as [| k IH]; [cbn; lia |].
  change (Nat.iter (S k) xO m) with (xO (Nat.iter k xO m)).
  rewrite Pos2Z.inj_xO, IH, Nat2Z.inj_succ, Z.pow_succ_r; lia.
Qed.

(** Shifting out [n] zero bits is exact. *)
Lemma shr_exact (P m : positive) (e : Z) (n : positive) :
  Z.pos P = Z.pos m * 2 ^ Z.pos n ->
  shr (exact_record P) e (Z.pos n) = (exact_record m, e + Z.pos n).
Proof.
  intros H. unfold shr. rewrite iter_pos_nat. f_equal.
  assert (HP : P = Nat.iter (Pos.to_nat n) xO m).
  { apply Pos2Z.inj. rewrite iter_xO_pow, positive_nat_Z. exact H. }
  rewrite HP. apply iter_shr_exact.
Qed.

Lemma shr_fexp_exact (P m : positive) (e n : Z) :
  0 <= n -> Z.pos P = Z.pos m * 2 ^ n ->
  Z.pos (digits2_pos m) = 53 -> -1074 <= e + n ->
  shr_fexp prec emax (Z.pos P) e loc_Exact = (exact_record m, e + n).
Proof.
  intros Hn HP Hd He. unfold shr_fexp. cbn [Zdigits2 shr_record_of_loc].
  rewrite (digits2_shift m P n Hn HP), Hd, fexp_eq.
  replace (Z.max (53 + n + e - 53) (-1074) - e) with n by lia.
  destruct n as [| k | k]; [| | lia].
  - cbn [shr]. rewrite Z.add_0_r. f_equal.
    unfold exact_record. f_equal. rewrite HP. cbn. lia.
  - apply shr_exact. exact HP.
Qed.

(** A product of a 53-bit mantissa and a power of two needs no rounding. *)
Lemma binary_round_aux_exact (s : bool) (P m : positive) (e n : Z) :
  0 <= n -> Z.pos P = Z.pos m * 2 ^ n ->
  Z.pos (digits2_pos m) = 53 -> -1074 <= e + n <= 971 ->
  binary_round_aux prec emax s (Z.pos P) e loc_Exact = S754_finite s m (e + n).
Proof.
  intros Hn HP Hd He. unfold binary_round_aux.
  rewrite (shr_fexp_exact P m e n Hn HP Hd) by lia.
  cbn [exact_record shr_m loc_of_shr_record round_nearest_even].
  rewrite (shr_fexp_exact m m (e + n) 0) by (cbn; lia).
  cbn [exact_record shr_m]. rewrite Z.add_0_r.
  destruct (Z.leb_spec (e + n) (emax - prec)) as [_ | Hgt]; [reflexivity |].
  unfold emax, prec in Hgt. lia.
Qed.

Lemma normal_of_bounds (n : Z) (m : positive) (k : Z) :
  normal_of n m k -> 2 ^ 52 <= n * 2 ^ k < 2 ^ 53.
Proof.
  intros (Hm & Hd & _). rewrite <- Hm.
  pose proof (digits2_bounds m) as Hb. rewrite Hd in Hb. exact Hb.
Qed.

(** [float(n)] for a whole number below [2^53] is [n] itself. *)
Lemma float_of_Z_normal (n : Z) :
  0 < n < 2 ^ 53 ->
  exists m k, normal_of n m k /\ float_of_Z n = S754_finite false m (- k).
Proof.
  intros Hn. destruct n as [| p | p]; [lia | | lia].
  unfold float_of_Z, binary_normalize, binary_round.
  assert (Hd : 1 <= Z.pos (digits2_pos p) <= 53).
  { pose proof (digits2_bounds p) as Hb. split; [lia |].
    destruct (Z_le_gt_dec (Z.pos (digits2_pos p)) 53) as [Hle | Hgt]; [exact Hle |].
    assert (2 ^ 53 <= 2 ^ (Z.pos (digits2_pos p) - 1)) by (apply Z.pow_le_mono_r; lia).
    lia. }
  rewrite Z.add_0_r, fexp_eq.
  replace (Z.max (Z.pos (digits2_pos p) - 53) (-1074)) with (Z.pos (digits2_pos p) - 53) by lia.
  unfold shl_align. rewrite Z.sub_0_r.
  destruct (Z.pos (digits2_pos p) - 53) as [| d | d] eqn:Ed; [| lia |].
  - exists p, 0. split.
    + repeat split; [cbn; lia | lia | lia | lia].
    + rewrite (binary_round_aux_exact false p p 0 0); [reflexivity | lia | cbn; lia | lia | lia].
  - exists (Pos.iter xO p d), (Z.pos d).
    assert (Hi : Z.pos (Pos.iter xO p d) = Z.pos p * 2 ^ Z.pos d).
    { rewrite Pos2Nat.inj_iter.
      change (nat_rect (fun _ => positive) p (fun _ => xO) (Pos.to_nat d))
        with (Nat.iter (Pos.to_nat d) xO p).
      now rewrite iter_xO_pow, positive_nat_Z. }
    assert (Hdig : Z.pos (digits2_pos (Pos.iter xO p d)) = 53).
    { rewrite (digits2_shift p _ (Z.pos d)); [lia | lia | exact Hi]. }
    split.
    + repeat split; [exact Hi | exact Hdig | lia | lia].
    + rewrite (binary_round_aux_exact false _ (Pos.iter xO p d) (Z.neg d) 0);
        [now rewrite Z.add_0_r | lia | cbn; lia | exact Hdig | lia].
Qed.

(** The product of two floats that are whole numbers is their product, when
    it is below [2^53]. *)
Lemma fmul_normal (a b : Z) (ma mb m : positive) (ka kb k : Z) :
  normal_of a ma ka -> normal_of b mb kb -> normal_of (a * b) m k ->
  fmul (S754_finite false ma (- ka)) (S754_finite false mb (- kb))
  = S754_finite false m (- k).
Proof.
  intros Ha Hb Hab.
  pose proof (normal_of_bounds _ _ _ Ha) as Ba.
  pose proof (normal_of_bounds _ _ _ Hb) as Bb.
  pose proof (normal_of_bounds _ _ _ Hab) as Bab.
  destruct Ha as (Hma & Hda & Hka). destruct Hb as (Hmb & Hdb & Hkb).
  destruct Hab as (Hm & Hd & Hk).
  assert (Hlt : k < ka + kb).
  { apply (Z.pow_lt_mono_r_iff 2); [lia | lia |].
    assert (0 < a * b) by nia.
    assert (2 ^ 53 <= (a * b) * 2 ^ (ka + kb)).
    { rewrite Z.pow_add_r by lia.
      replace (a * b * (2 ^ ka * 2 ^ kb)) with ((a * 2 ^ ka) * (b * 2 ^ kb)) by ring.
      change (2 ^ 53) with (2 * 2 ^ 52). nia. }
    nia. }
  unfold fmul. cbn [SFmul xorb].
  rewrite (binary_round_aux_exact false (ma * mb) m (- ka + - kb) (ka + kb - k)).
  - f_equal. lia.
  - lia.
  - rewrite Pos2Z.inj_mul, Hma, Hmb, Hm.
    assert (E : 2 ^ ka * 2 ^ kb = 2 ^ k * 2 ^ (ka + kb - k)).
    { rewrite <- !Z.pow_add_r by lia. f_equal. lia. }
    replace (a * 2 ^ ka * (b * 2 ^ kb)) with (a * b * (2 ^ ka * 2 ^ kb)) by ring.
    rewrite E. ring.
  - exact Hd.
  - lia.
Qed.

Lemma int_of_float_normal (n : Z) (m : positive) (k : Z) :
  normal_of n m k -> int_of_float (S754_finite false m (- k)) = Ok n.
Proof.
  intros (Hm & _ & Hk). unfold int_of_float. f_equal.
  destruct k as [| p | p]; [| | lia].
  - change (- 0) with 0. cbv iota. rewrite Z.pow_0_r in *. lia.
  - change (- Z.pos p) with (Z.neg p). cbv iota. rewrite Hm, Pos2Z.inj_pow.
    apply Z.div_mul. lia.
Qed.

(** A whole number of gigabytes becomes exactly that many times [10^9]
    bytes, as long as the product is below [2^53]. *)
Lemma whole_gb_exact (g : Z) :
  1 <= g <= 9007199 ->
  fle (float_of_Z g) (float_of_Z 0) = false
  /\ int_of_float (fmul (float_of_Z g) (float_of_Z 1000000000)) = Ok (g * 1000000000).
Proof.
  intros Hg.
  assert (H53 : 2 ^ 53 = 9007199254740992) by reflexivity.
  destruct (float_of_Z_normal g) as (mg & kg & Ng & ->); [lia |].
  destruct (float_of_Z_normal 1000000000) as (mb & kb & Nb & ->); [lia |].
  destruct (float_of_Z_normal (g * 1000000000)) as (m & k & N & _); [lia |].
  split; [reflexivity |].
  rewrite (fmul_normal g 1000000000 mg mb m kg kb k Ng Nb N).
  apply int_of_float_normal. exact N.
Qed.

Lemma limit_bytes_of_whole_number (s : string) :
  is_whole_number s = true -> 1 <= whole_number s <= 9007199 ->
  limit_bytes_of s = Ok (whole_number s * 1000000000).
Proof.
  intros Hs Hg. unfold limit_bytes_of. unfold_M.
  rewrite (float_of_str_whole_number s Hs).
  destruct (whole_gb_exact (whole_number s) Hg) as [-> ->]. reflexivity.
Qed.

(** C4, as amended.  For a whole number of gigabytes from 1 to 9007199,
    entered in decimal digits, the handler of a limit asks the server for a
    cap of exactly that number times 1,000,000,000 bytes for the key of the
    flow, not for the number times 1024^3, and the actor is idle afterwards. *)
Theorem limit_input_requests_decimal_bytes (message : Message) (w : World) (us : UserState) :
  user_states w !! from_user message = Some us ->
  state us = "waiting_for_limit" ->
  is_whole_number (text message) = true ->
  1 <= whole_number (text message) <= 9007199 ->
  let g := whole_number (text message) in
  let r := process_limit_input message w in
  (exists rest,
      requests (snd r)
      = (requests w ++ PUT_data_limit (str_of (st_key_id us)) (g * 1000000000) :: rest)%list)
  /\ g * 1000000000 <> g * (1024 * 1024 * 1024)
  /\ idle (snd r) (from_user message).
Proof.
  intros Hus Hst Hs Hg g r.
  destruct (process_limit_input_accepted message w us (g * 1000000000) Hus Hst
              (limit_bytes_of_whole_number (text message) Hs Hg)) as [Hidle [rest Hr]].
  fold r in Hidle, Hr. split; [| split].
  - exists rest. rewrite Hr. unfold change_request.
    destruct (Z.ltb_spec 0 (g * 1000000000)); [reflexivity | lia].
  - unfold g. lia.
  - unfold idle. rewrite Hidle. apply lookup_delete_eq.
Qed.

(** Five gigabytes are 5,000,000,000 bytes in the request; the helper
    [gb_to_bytes] of utils.py, which no handler calls, counts 1024^3 bytes to
    the gigabyte. *)
Lemma limit_input_requests_decimal_bytes_witness :
  (exists rest,
      requests (snd (process_limit_input (mkMessage root "5") (world_limit server_silent)))
      = PUT_data_limit "7" 5000000000 :: rest)
  /\ Utils.gb_to_bytes (Utils.NInt 5) = Ok 5368709120.
Proof.
  split; [| reflexivity].
  assert (Hg : 1 <= whole_number (text (mkMessage root "5")) <= 9007199)
    by (vm_compute; split; discriminate).
  destruct (limit_input_requests_decimal_bytes
              (mkMessage root "5") (world_limit server_silent)
              (mkUserState "waiting_for_limit" (Some "7") root 10)
              eq_refl eq_refl eq_refl Hg) as ((rest & H) & _).
  exists rest. exact H.
Defined.

(** A number of gigabytes with a fraction is multiplied in binary64 and cut:
    8.2 leads to one byte less than 8,200,000,000. *)
Example limit_bytes_of_8_2 : limit_bytes_of "8.2" = Ok 8199999999.
Proof. vm_compute. reflexivity. Qed.

(** C4, as stated, fails for an accepted value with a fraction.  The
    administrator was asked for the limit of key 7.  The text 8.2 is accepted
    (the flow ends), and the cap asked for is 8,199,999,999 bytes, one less
    than 8.2 times 10^9.  The text 0.0000000001 is accepted as well; its
    product is cut to 0 bytes, and what is asked for is the removal of the
    cap. *)
Lemma limit_input_8_2_is_one_byte_short :
  let w := world_limit server_silent in
  let r := process_limit_input (mkMessage root "8.2") w in
  let r0 := process_limit_input (mkMessage root "0.0000000001") w in
  user_states w !! root = Some (mkUserState "waiting_for_limit" (Some "7") root 10)
  /\ (exists rest, requests (snd r) = PUT_data_limit "7" 8199999999 :: rest)
  /\ 10 * 8199999999 <> 82 * 1000000000
  /\ idle (snd r) root
  /\ (exists rest, requests (snd r0) = DELETE_data_limit "7" :: rest)
  /\ idle (snd r0) root.
Proof.
  cbv zeta. split; [reflexivity |]. split; [| split; [| split; [| split]]].
  - eexists. vm_compute. reflexivity.
  - lia.
  - vm_compute. reflexivity.
  - eexists. vm_compute. reflexivity.
  - vm_compute. reflexivity.
Qed.


(** A positive number below one byte is accepted and leads to the removal
    of the cap. *)
Example limit_input_below_one_byte :
  limit_bytes_of "0.0000000001" = Ok 0
  /\ requests (snd (process_limit_input (mkMessage root "0.0000000001")
                                        (world_limit server_write_only)))
     = [DELETE_data_limit "7"; GET_access_key "7"; GET_access_key "7"].
Proof. vm_compute. split; reflexivity. Qed.

(** ** Reconciliation *)

Lemma has_key_id_true (i : string) (r : KeyRow) :
  Database.has_key_id i r = true <-> k_key_id r = i.
Proof. unfold Database.has_key_id. apply String.eqb_eq. Qed.

Lemma has_key_id_false (i : string) (r : KeyRow) :
  Database.has_key_id i r = false <-> k_key_id r <> i.
Proof. unfold Database.has_key_id. apply String.eqb_neq. Qed.

Lemma lookup_fold_rows (rows : list KeyRow) (m : gmap string Z) (i : string) :
  fold_left (fun m r => <[k_key_id r := k_data_limit r]> m) rows m !! i
  = match last_limit rows i with
    | Some v => Some v
    | None => m !! i
    end.
Proof.
  revert m. induction rows as [| r rows IH]; intros m; [reflexivity |].
  cbn. rewrite IH. destruct (last_limit rows i); [reflexivity |].
  destruct (Database.has_key_id i r) eqn:E.
  - apply has_key_id_true in E. rewrite E. apply lookup_insert_eq.
  - apply has_key_id_false in E. now apply lookup_insert_ne.
Qed.

Lemma db_keys_of_lookup (rows : list KeyRow) (i : string) :
  Database.db_keys_of rows !! i = last_limit rows i.
Proof.
  unfold Database.db_keys_of. rewrite lookup_fold_rows.
  destruct (last_limit rows i); [reflexivity | apply lookup_empty].
Qed.

Lemma last_limit_app (rows : list KeyRow) (r : KeyRow) (i : string) :
  last_limit (rows ++ [r]) i
  = if Database.has_key_id i r then Some (k_data_limit r) else last_limit rows i.
Proof.
  induction rows as [| r0 rows IH]; cbn.
  - destruct (Database.has_key_id i r); reflexivity.
  - rewrite IH. destruct (Database.has_key_id i r); [reflexivity |].
    reflexivity.
Qed.

Lemma last_limit_update_same (rows : list KeyRow) (i : string) (v : Z) :
  last_limit (Database.update_where i (Database.with_data_limit v) rows) i
  = match last_limit rows i with Some _ => Some v | None => None end.
Proof.
  unfold Database.update_where.
  induction rows as [| r rows IH]; [reflexivity |].
  cbn [map last_limit]. rewrite IH. destruct (last_limit rows i); [reflexivity |].
  destruct (Database.has_key_id i r) eqn:E.
  - unfold Database.has_key_id in *. cbn. now rewrite E.
  - now rewrite E.
Qed.

Lemma last_limit_update_other (rows : list KeyRow) (i j : string) (v : Z) :
  j <> i ->
  last_limit (Database.update_where i (Database.with_data_limit v) rows) j
  = last_limit rows j.
Proof.
  intros Hne. unfold Database.update_where.
  induction rows as [| r rows IH]; [reflexivity |].
  cbn [map last_limit]. rewrite IH. destruct (last_limit rows j); [reflexivity |].
  destruct (Database.has_key_id i r) eqn:E; [| reflexivity].
  apply has_key_id_true in E.
  assert (Hf : Database.has_key_id j r = false) by (apply has_key_id_false; congruence).
  unfold Database.has_key_id in *. cbn. now rewrite Hf.
Qed.

#[local] Arguments Database.key_name_of : simpl never.
#[local] Arguments Database.insert_or_ignore_user : simpl never.
#[local] Arguments Database.update_where : simpl never.

Lemma sync_key_no_id (now : Z) (dbk : gmap string Z) (key : KeyJson) (st : Store) :
  j_id key = None -> Database.sync_key now dbk key st = Raise KeyError.
Proof. intros H. unfold Database.sync_key. now rewrite H. Qed.

Lemma sync_key_known (now : Z) (dbk : gmap string Z) (key : KeyJson) (st : Store)
      (i : string) (l : Z) :
  j_id key = Some i -> dbk !! i = Some l ->
  Database.sync_key now dbk key st
  = if negb (l =? Database.data_limit_of key)
    then
      if Database.fits_int64 (Database.data_limit_of key)
      then Ok (Database.set_access_keys
                 (Database.update_where i (Database.with_data_limit (Database.data_limit_of key))
                                        (access_keys st)) st)
      else Raise OverflowError
    else Ok st.
Proof.
  intros Hi Hl. unfold Database.sync_key, Database.bind_int. rewrite Hi. unfold_M. cbn.
  rewrite Hl. destruct (negb _); [| reflexivity].
  destruct (Database.fits_int64 _); reflexivity.
Qed.

Lemma sync_key_known_ok (now : Z) (dbk : gmap string Z) (key : KeyJson) (st st' : Store)
      (i : string) (l : Z) :
  j_id key = Some i -> dbk !! i = Some l ->
  Database.sync_key now dbk key st = Ok st' ->
  st' = if negb (l =? Database.data_limit_of key)
        then Database.set_access_keys
               (Database.update_where i (Database.with_data_limit (Database.data_limit_of key))
                                      (access_keys st)) st
        else st.
Proof.
  intros Hi Hl Hs. rewrite (sync_key_known now dbk key st i l Hi Hl) in Hs.
  destruct (negb _); [| congruence].
  destruct (Database.fits_int64 _); [congruence | discriminate].
Qed.

Lemma sync_key_new (now : Z) (dbk : gmap string Z) (key : KeyJson) (st : Store)
      (i : string) :
  j_id key = Some i -> dbk !! i = None ->
  if insertable key i then
    exists n url,
      Py.int i = Ok n /\ j_accessUrl key = Some url
      /\ Database.sync_key now dbk key st
         = Ok (mkStore
                 (Database.insert_or_ignore_user (- n) (Database.key_name_of key i) now (users st))
                 (access_keys st
                    ++ [mkKeyRow (- n) i (Database.key_name_of key i) url
                                 (Database.data_limit_of key) 0 now])%list
                 (activity_log st))
  else exists e, Database.sync_key now dbk key st = Raise e.
Proof.
  intros Hi Hl. unfold Database.sync_key, Database.bind_int, insertable. rewrite Hi.
  unfold_M. cbn. rewrite Hl.
  destruct (Py.int i) as [n | e]; cbn; [| now exists e].
  destruct (Database.fits_int64 (- n)); cbn; [| now exists OverflowError].
  destruct (j_accessUrl key) as [url |]; cbn; [| now exists KeyError].
  destruct (Database.fits_int64 (Database.data_limit_of key)); cbn.
  - exists n, url. auto.
  - now exists OverflowError.
Qed.

(** One step of the loop touches the rows of its own key id only, and
    leaves the limit of the listing in the last of them. *)
Lemma sync_key_effect (now : Z) (dbk : gmap string Z) (key : KeyJson) (st st' : Store)
      (i : string) :
  j_id key = Some i ->
  Database.sync_key now dbk key st = Ok st' ->
  (forall j, j <> i -> last_limit (access_keys st') j = last_limit (access_keys st) j)
  /\ (dbk !! i = last_limit (access_keys st) i ->
      last_limit (access_keys st') i = Some (Database.data_limit_of key)).
Proof.
  intros Hi Hs. destruct (dbk !! i) as [l |] eqn:Hl.
  - apply (sync_key_known_ok now dbk key st st' i l Hi Hl) in Hs as ->.
    destruct (Z.eqb_spec l (Database.data_limit_of key)) as [-> | Hne]; cbn.
    + split; [reflexivity | intros H; now rewrite <- H].
    + split.
      * intros j Hj. now apply last_limit_update_other.
      * intros H. rewrite last_limit_update_same, <- H. reflexivity.
  - pose proof (sync_key_new now dbk key st i Hi Hl) as Hn.
    destruct (insertable key i).
    + destruct Hn as (n & url & _ & _ & Hn). rewrite Hn in Hs. injection Hs as <-. cbn.
      split.
      * intros j Hj. rewrite last_limit_app.
        assert (Hf : Database.has_key_id j
                       (mkKeyRow (- n) i (Database.key_name_of key i) url
                                 (Database.data_limit_of key) 0 now) = false)
          by (apply has_key_id_false; cbn; congruence).
        now rewrite Hf.
      * intros _. rewrite last_limit_app.
        assert (Ht : Database.has_key_id i
                       (mkKeyRow (- n) i (Database.key_name_of key i) url
                                 (Database.data_limit_of key) 0 now) = true)
          by (now apply has_key_id_true).
        now rewrite Ht.
    + destruct Hn as [e Hn]. rewrite Hn in Hs. discriminate.
Qed.

(** A step raises for a key without a row that cannot be inserted, and for
    a key with a row whose new limit cannot be stored. *)
Lemma sync_key_raises (now : Z) (dbk : gmap string Z) (key : KeyJson) (st : Store)
      (i : string) (e : exn) :
  j_id key = Some i ->
  Database.sync_key now dbk key st = Raise e ->
  (dbk !! i = None /\ insertable key i = false)
  \/ (exists l, dbk !! i = Some l /\ l <> Database.data_limit_of key
                /\ Database.fits_int64 (Database.data_limit_of key) = false).
Proof.
  intros Hi Hs. destruct (dbk !! i) as [l |] eqn:Hl.
  - right. exists l. rewrite (sync_key_known now dbk key st i l Hi Hl) in Hs.
    destruct (Z.eqb_spec l (Database.data_limit_of key)) as [Heq | Hne]; cbn in Hs;
      [discriminate |].
    destruct (Database.fits_int64 _); [discriminate | auto].
  - left. pose proof (sync_key_new now dbk key st i Hi Hl) as Hn.
    destruct (insertable key i); [| auto].
    destruct Hn as (n & url & _ & _ & Hn). rewrite Hn in Hs. discriminate.
Qed.

Lemma sync_loop_other (now : Z) (dbk : gmap string Z) (listing : list KeyJson)
      (st : Store) (i : string) :
  i ∉ listed_ids listing ->
  last_limit (access_keys (snd (Database.sync_loop now dbk listing st))) i
  = last_limit (access_keys st) i.
Proof.
  revert st. induction listing as [| key rest IH]; intros st Hi; [reflexivity |].
  cbn [Database.sync_loop].
  destruct (Database.sync_key now dbk key st) as [st' | e] eqn:Hs; [| reflexivity].
  unfold listed_ids in Hi. cbn in Hi.
  destruct (j_id key) as [j |] eqn:Hj.
  - apply not_elem_of_cons in Hi as [Hne Hrest].
    rewrite (IH st' Hrest).
    now apply (proj1 (sync_key_effect now dbk key st st' j Hj Hs)).
  - rewrite (sync_key_no_id now dbk key st Hj) in Hs. discriminate.
Qed.

(** A second pass changes nothing: [dbk0] is the view of the table the
    first pass started from, [dbk1] the view a later pass starts from. *)
Lemma second_pass_noop (now1 now2 : Z) (dbk0 dbk1 : gmap string Z)
      (listing : list KeyJson) (st stF : Store) :
  NoDup (listed_ids listing) ->
  (forall i, i ∈ listed_ids listing -> dbk0 !! i = last_limit (access_keys st) i) ->
  (forall i, i ∈ listed_ids listing ->
             dbk1 !! i
             = last_limit (access_keys (snd (Database.sync_loop now1 dbk0 listing st))) i) ->
  snd (Database.sync_loop now2 dbk1 listing stF) = stF.
Proof.
  revert st. induction listing as [| key rest IH]; intros st Hnd H0 H1; [reflexivity |].
  cbn [Database.sync_loop] in *. unfold listed_ids in *. cbn [omap list_omap] in *.
  destruct (j_id key) as [i |] eqn:Hi.
  - apply NoDup_cons in Hnd as [Hfresh Hnd].
    destruct (Database.sync_key now1 dbk0 key st) as [st' | e] eqn:Hs.
    + destruct (sync_key_effect now1 dbk0 key st st' i Hi Hs) as [Hother Hsame].
      assert (Hl : dbk1 !! i = Some (Database.data_limit_of key)).
      { rewrite (H1 i) by apply list_elem_of_here.
        rewrite (sync_loop_other now1 dbk0 rest st' i Hfresh).
        apply Hsame, H0, list_elem_of_here. }
      rewrite (sync_key_known now2 dbk1 key stF i _ Hi Hl), Z.eqb_refl. cbn [negb].
      apply (IH st' Hnd).
      * intros j Hj. rewrite (H0 j) by now apply list_elem_of_further.
        symmetry. apply Hother. intros ->. contradiction.
      * intros j Hj. apply H1. now apply list_elem_of_further.
    + assert (Hsame : dbk1 !! i = dbk0 !! i).
      { rewrite (H1 i) by apply list_elem_of_here. cbn.
        symmetry. apply H0, list_elem_of_here. }
      destruct (sync_key_raises now1 dbk0 key st i e Hi Hs)
        as [[Hnone Hins] | (l & Hl & Hne & Hfit)]; rewrite <- Hsame in *.
      * pose proof (sync_key_new now2 dbk1 key stF i Hi Hnone) as Hn. rewrite Hins in Hn.
        destruct Hn as [e' ->]. reflexivity.
      * rewrite (sync_key_known now2 dbk1 key stF i l Hi Hl), Hfit.
        destruct (Z.eqb_spec l (Database.data_limit_of key)); [contradiction | reflexivity].
  - now rewrite (sync_key_no_id now2 dbk1 key stF Hi).
Qed.

(** C7.  A second pass over the same listing leaves the tables as the
    first pass left them, whatever the tables were before and whatever the
    times of the two passes.  The listing is one a server gives: no key id in
    it repeats. *)
Theorem sync_store_idempotent (now1 now2 : Z) (listing : list KeyJson) (st : Store) :
  NoDup (listed_ids listing) ->
  Database.sync_store now2 listing (Database.sync_store now1 listing st)
  = Database.sync_store now1 listing st.
Proof.
  intros Hnd. unfold Database.sync_store at 1.
  apply (second_pass_noop now1 now2 (Database.db_keys_of (access_keys st))
           _ listing st _ Hnd).
  - intros i _. apply db_keys_of_lookup.
  - intros i _. rewrite db_keys_of_lookup. reflexivity.
Qed.

(** Two passes over a listing of the keys 1 and 2, key 1 being in the table
    with another limit. *)
Lemma sync_store_idempotent_witness :
  Database.sync_store 20 two_keys
    (Database.sync_store 10 two_keys (mkStore [] [key_row alice "1"] []))
  = Database.sync_store 10 two_keys (mkStore [] [key_row alice "1"] []).
Proof.
  apply (sync_store_idempotent 10 20 two_keys (mkStore [] [key_row alice "1"] [])).
  cbn. apply NoDup_cons. split; [| apply NoDup_cons; split; [| apply NoDup_nil_2]].
  - intros H. apply elem_of_cons in H as [H | H]; [discriminate H |].
    apply elem_of_nil in H. exact H.
  - intros H. apply elem_of_nil in H. exact H.
Defined.

(** *** Placeholder owners *)

Lemma continues_refl (rows : list KeyRow) (r : KeyRow) : r ∈ rows -> continues rows r.
Proof. intros H. exists r. auto. Qed.

Lemma update_where_continues (rows : list KeyRow) (i : string) (v : Z) (r : KeyRow) :
  r ∈ Database.update_where i (Database.with_data_limit v) rows -> continues rows r.
Proof.
  unfold Database.update_where. intros H. apply list_elem_of_fmap in H as (r0 & -> & H0).
  exists r0. destruct (Database.has_key_id i r0); auto.
Qed.

Lemma sync_key_rows (now : Z) (dbk : gmap string Z) (key : KeyJson) (st st' : Store)
      (r : KeyRow) :
  Database.sync_key now dbk key st = Ok st' ->
  r ∈ access_keys st' ->
  continues (access_keys st) r \/ placeholder_owner r.
Proof.
  intros Hs Hr. destruct (j_id key) as [i |] eqn:Hi.
  - destruct (dbk !! i) as [l |] eqn:Hl.
    + apply (sync_key_known_ok now dbk key st st' i l Hi Hl) in Hs as ->.
      left. destruct (negb _); cbn in Hr.
      * now apply update_where_continues in Hr.
      * now apply continues_refl.
    + pose proof (sync_key_new now dbk key st i Hi Hl) as Hn.
      destruct (insertable key i).
      * destruct Hn as (n & url & Hint & _ & Hn). rewrite Hn in Hs. injection Hs as <-.
        cbn in Hr. apply elem_of_app in Hr as [Hr | Hr].
        -- left. now apply continues_refl.
        -- right. apply list_elem_of_singleton in Hr as ->. exists n. auto.
      * destruct Hn as [e Hn]. rewrite Hn in Hs. discriminate.
  - rewrite (sync_key_no_id now dbk key st Hi) in Hs. discriminate.
Qed.

Lemma sync_loop_rows (now : Z) (dbk : gmap string Z) (listing : list KeyJson)
      (st : Store) (r : KeyRow) :
  r ∈ access_keys (snd (Database.sync_loop now dbk listing st)) ->
  continues (access_keys st) r \/ placeholder_owner r.
Proof.
  revert st. induction listing as [| key rest IH]; intros st Hr.
  - left. now apply continues_refl.
  - cbn [Database.sync_loop] in Hr.
    destruct (Database.sync_key now dbk key st) as [st' | e] eqn:Hs.
    + destruct (IH st' Hr) as [(r1 & H1 & Hk & Hu) | Hp]; [| now right].
      destruct (sync_key_rows now dbk key st st' r1 Hs H1) as [(r0 & H0 & Hk0 & Hu0) | (n & Hn & Ho)].
      * left. exists r0. repeat split; congruence.
      * right. exists n. split; congruence.
    + left. now apply continues_refl.
Qed.

Lemma known_false (st : Store) (r : KeyRow) :
  known st (k_key_id r) = false -> ~ continues (access_keys st) r.
Proof.
  unfold known, Database.touched. intros Hk (r0 & H0 & Hid & _).
  assert (Ht : existsb (Database.has_key_id (k_key_id r)) (access_keys st) = true).
  { apply existsb_exists. exists r0. split; [now apply list_elem_of_In |].
    now apply has_key_id_true. }
  congruence.
Qed.

(** The owner that a pass gives to a key it finds on the server only is
    the negation of the number the key id denotes. *)
Lemma discovered_owner_is_negation (now : Z) (listing : list KeyJson) (st : Store)
      (r : KeyRow) :
  r ∈ access_keys (Database.sync_store now listing st) ->
  known st (k_key_id r) = false ->
  placeholder_owner r.
Proof.
  intros Hr Hk. unfold Database.sync_store in Hr.
  destruct (sync_loop_rows now _ listing st r Hr) as [Hc | Hp]; [| exact Hp].
  now apply known_false in Hc.
Qed.

(** C6 fails on the code.  The server lists the key with the id 0, the
    first id a server hands out, and the table is empty.  The pass adds the
    row of the key and a user for it, both with the identity 0, the negation
    of 0: the identity is not below zero. *)
Theorem placeholder_owner_of_key_0 :
  let st := Database.sync_store 2000 [remote_key "0" None] empty_store in
  let w := snd (Database.sync_keys_with_server
                  (world_of (server_lists [remote_key "0" None]) empty_store ∅)) in
  access_keys st = [mkKeyRow 0 "0" "phone" "ss://example" 0 0 2000]
  /\ map u_user_id (users st) = [0]
  /\ db w = st
  /\ exists r,
       r ∈ access_keys st /\ known empty_store (k_key_id r) = false
       /\ placeholder_owner r
       /\ ~ (k_user_id r < 0).
Proof.
  cbv zeta. split; [vm_compute; reflexivity |]. split; [vm_compute; reflexivity |].
  split; [vm_compute; reflexivity |].
  exists (mkKeyRow 0 "0" "phone" "ss://example" 0 0 2000).
  split; [vm_compute; apply list_elem_of_here |].
  split; [reflexivity |]. split; [exists 0; split; reflexivity | cbn; lia].
Qed.

(** *** The method and the pass *)

Lemma remote_only_map_M {A B} (f : A -> M B) (l : list A) :
  (forall a, remote_only (f a)) -> remote_only (map_M f l).
Proof.
  intros Hf. induction l as [| a l IH]; cbn [map_M]; [apply remote_only_ret |].
  unfold mbind, M_bind. apply remote_only_bind; [apply Hf | intros b].
  apply remote_only_bind; [exact IH | intros bs]. apply remote_only_ret.
Qed.

Lemma remote_only_get_access_keys : remote_only OutlineAPI.get_access_keys.
Proof.
  unfold OutlineAPI.get_access_keys, mbind, M_bind.
  apply remote_only_bind; [apply remote_only_request | intros response].
  apply remote_only_map_M. intros key.
  destruct (j_id key) as [id |]; [| apply remote_only_ret].
  apply remote_only_try; [| intros ?; apply remote_only_ret].
  apply remote_only_bind; [apply remote_only_get_access_key | intros key_info].
  destruct (j_dataLimit key_info); apply remote_only_ret.
Qed.

(** [sync_keys_with_server] never raises; it leaves the tables as they were
    when the listing cannot be read, and as [sync_store] leaves them when it
    can. *)
Lemma sync_keys_with_server_store (w : World) :
  let r := Database.sync_keys_with_server w in
  fst r = Ok tt
  /\ db (snd r)
     = match fst (OutlineAPI.get_access_keys w) with
       | Ok listing => Database.sync_store (time_now w) listing (db w)
       | Raise _ => db w
       end.
Proof.
  unfold Database.sync_keys_with_server, Database.sync_listing, Database.sync_store.
  unfold_M. destruct (remote_only_get_access_keys w) as [sent Hs].
  destruct (OutlineAPI.get_access_keys w) as [[listing | e] w1]; cbn in *; subst w1; cbn.
  - destruct (Database.sync_loop _ _ listing (db w)) as [[[] | e] st']; cbn; auto.
  - auto.
Qed.

(** * Further properties of the code *)

(** ** The users table *)

Lemma get_user_update_same (st : Store) (user_id : Z) (f : UserRow -> UserRow) :
  keeps_user_id f ->
  Database.get_user (Database.set_users (Database.update_user user_id f (users st)) st) user_id
  = f <$> Database.get_user st user_id.
Proof.
  intros Hf. unfold Database.get_user, Database.update_user, Database.has_user_id. cbn.
  induction (users st) as [| u us IH]; [reflexivity |].
  cbn. destruct (u_user_id u =? user_id) eqn:E; cbn.
  - now rewrite Hf, E.
  - rewrite E. exact IH.
Qed.

Lemma get_user_update_other (st : Store) (user_id other : Z) (f : UserRow -> UserRow) :
  keeps_user_id f -> other <> user_id ->
  Database.get_user (Database.set_users (Database.update_user user_id f (users st)) st) other
  = Database.get_user st other.
Proof.
  intros Hf Hne. unfold Database.get_user, Database.update_user, Database.has_user_id. cbn.
  induction (users st) as [| u us IH]; [reflexivity |].
  cbn. destruct (u_user_id u =? user_id) eqn:E; cbn.
  - rewrite Hf. apply Z.eqb_eq in E.
    destruct (Z.eqb_spec (u_user_id u) other) as [Ho | _]; [congruence | exact IH].
  - destruct (u_user_id u =? other); [reflexivity | exact IH].
Qed.

Lemma get_user_app_new (st : Store) (u : UserRow) (v : Z) :
  Database.get_user (Database.set_users (users st ++ [u]) st) v
  = match Database.get_user st v with
    | Some old => Some old
    | None => if u_user_id u =? v then Some u else None
    end.
Proof.
  unfold Database.get_user. cbn.
  induction (users st) as [| u0 us IH]; cbn.
  - destruct (u_user_id u =? v); reflexivity.
  - destruct (u_user_id u0 =? v); [reflexivity | exact IH].
Qed.

Lemma user_ids_update (st : Store) (user_id : Z) (f : UserRow -> UserRow) :
  keeps_user_id f ->
  user_ids (Database.set_users (Database.update_user user_id f (users st)) st) = user_ids st.
Proof.
  intros Hf. unfold user_ids, Database.update_user. cbn.
  induction (users st) as [| u us IH]; [reflexivity |].
  cbn. rewrite IH. destruct (Database.has_user_id user_id u); [now rewrite Hf | reflexivity].
Qed.

Lemma get_user_None_ids (st : Store) (v : Z) :
  Database.get_user st v = None <-> v ∉ user_ids st.
Proof.
  unfold Database.get_user, user_ids.
  induction (users st) as [| u us IH]; cbn.
  - split; [intros _; apply not_elem_of_nil | reflexivity].
  - rewrite not_elem_of_cons. destruct (Z.eqb_spec (u_user_id u) v) as [E | E].
    + split; [discriminate | intros [H _]; congruence].
    + rewrite IH. split; [intros H; split; [congruence | exact H] | intros [_ H]; exact H].
Qed.

Lemma existsb_has_user_id (st : Store) (v : Z) :
  existsb (Database.has_user_id v) (users st) = true <-> Database.get_user st v <> None.
Proof.
  unfold Database.get_user, Database.has_user_id.
  induction (users st) as [| u us IH]; cbn; [split; [discriminate | congruence] |].
  destruct (u_user_id u =? v); cbn; [split; [discriminate | reflexivity] | exact IH].
Qed.

Lemma keeps_with_profile (d : Database.UserData) (now : Z) :
  keeps_user_id (Database.with_profile d now).
Proof. intros u. reflexivity. Qed.

Lemma keeps_with_is_admin (b : bool) : keeps_user_id (Database.with_is_admin b).
Proof. intros u. reflexivity. Qed.

Lemma keeps_with_is_blocked (b : bool) : keeps_user_id (Database.with_is_blocked b).
Proof. intros u. reflexivity. Qed.

#[local] Arguments Database.set_users : simpl never.
#[local] Arguments Database.update_user : simpl never.
#[local] Arguments Database.get_user : simpl never.
#[local] Arguments Database.is_admin : simpl never.
#[local] Arguments Database.is_user_blocked : simpl never.

(** X1.  [save_user] refuses a dict without an id, or with the id 0, and then
    changes nothing.  Otherwise the user has a row afterwards that carries the
    names and the language of the dict; nobody's administrator flag or
    blocked flag changes (a blocked user stays blocked, a new user starts with
    neither), and the rows of the other users are as before. *)
Theorem save_user_upsert (cfg : Config) (now : Z) (st : Store) (d : Database.UserData) :
  let r := Database.save_user now st d in
  (fst r = false <-> (Database.ud_id d = None \/ Database.ud_id d = Some 0))
  /\ (fst r = false -> snd r = st)
  /\ (forall v, Database.is_admin cfg (snd r) v = Database.is_admin cfg st v
                /\ Database.is_user_blocked (snd r) v = Database.is_user_blocked st v)
  /\ (forall user_id,
         Database.ud_id d = Some user_id -> user_id <> 0 ->
         (exists u,
             Database.get_user (snd r) user_id = Some u
             /\ u_username u = Database.ud_username d
             /\ u_first_name u = Database.ud_first_name d
             /\ u_last_name u = Database.ud_last_name d
             /\ u_language_code u = Database.ud_language_code d
             /\ u_last_activity u = now)
         /\ forall other, other <> user_id ->
                          Database.get_user (snd r) other = Database.get_user st other).
Proof.
  cbv zeta. unfold Database.save_user.
  destruct (Database.ud_id d) as [user_id |] eqn:Hid; cbn.
  2: { repeat split; auto; try discriminate. }
  destruct (Z.eqb_spec user_id 0) as [-> | Hne]; cbn.
  { repeat split; auto; try discriminate; congruence. }
  assert (Hflags : forall st',
             (forall v, u_is_admin <$> Database.get_user st' v = u_is_admin <$> Database.get_user st v
                        \/ (Database.get_user st v = None
                            /\ u_is_admin <$> Database.get_user st' v = Some false)) ->
             (forall v, u_is_blocked <$> Database.get_user st' v = u_is_blocked <$> Database.get_user st v
                        \/ (Database.get_user st v = None
                            /\ u_is_blocked <$> Database.get_user st' v = Some false)) ->
             forall v, Database.is_admin cfg st' v = Database.is_admin cfg st v
                       /\ Database.is_user_blocked st' v = Database.is_user_blocked st v).
  { intros st' Ha Hb v. unfold Database.is_admin, Database.is_user_blocked.
    destruct (Ha v) as [Ea | [Hn Ea]]; destruct (Hb v) as [Eb | [Hn' Eb]];
      destruct (Database.get_user st' v); destruct (Database.get_user st v);
      cbn in *; try discriminate; split; try congruence;
      destruct (existsb _ _); congruence. }
  destruct (Database.get_user st user_id) as [old |] eqn:Hold; cbn.
  - split; [split; [discriminate | intros [H | H]; congruence] |].
    split; [discriminate |]. split.
    + apply Hflags; intros v; left;
        (destruct (Z.eq_dec v user_id) as [-> | Hv];
         [ rewrite get_user_update_same by apply keeps_with_profile;
           now destruct (Database.get_user st user_id)
         | now rewrite get_user_update_other by (auto using keeps_with_profile) ]).
    + intros u' [= <-] _. split.
      * rewrite get_user_update_same by apply keeps_with_profile. rewrite Hold. cbn.
        eexists. split; [reflexivity |]. repeat split.
      * intros other Ho. now apply get_user_update_other; [apply keeps_with_profile |].
  - split; [split; [discriminate | intros [H | H]; congruence] |].
    split; [discriminate |]. split.
    + apply Hflags; intros v; rewrite get_user_app_new; cbn;
        (destruct (Database.get_user st v) eqn:Hv; [now left |];
         destruct (Z.eqb_spec user_id v); [right; auto | now left]).
    + intros u' [= <-] _. split.
      * rewrite get_user_app_new, Hold. cbn. rewrite Z.eqb_refl.
        eexists. split; [reflexivity |]. repeat split.
      * intros other Ho. rewrite get_user_app_new. cbn.
        destruct (Database.get_user st other); [reflexivity |].
        destruct (Z.eqb_spec user_id other); [congruence | reflexivity].
Qed.

Lemma update_user_absent (user_id : Z) (f : UserRow -> UserRow) (us : list UserRow) :
  user_id ∉ map u_user_id us -> Database.update_user user_id f us = us.
Proof.
  unfold Database.update_user, Database.has_user_id.
  induction us as [| u us IH]; intros H; [reflexivity |].
  cbn in *. apply not_elem_of_cons in H as [Hne Hrest].
  rewrite (IH Hrest). destruct (Z.eqb_spec (u_user_id u) user_id); [congruence | reflexivity].
Qed.

Lemma insert_or_ignore_user_ids (user_id : Z) (name : string) (now : Z) (us : list UserRow) :
  NoDup (map u_user_id us) ->
  NoDup (map u_user_id (Database.insert_or_ignore_user user_id name now us)).
Proof.
  intros Hnd. unfold Database.insert_or_ignore_user.
  destruct (existsb _ us) eqn:E; [exact Hnd |].
  rewrite map_app. cbn. apply NoDup_app. split; [exact Hnd |]. split.
  - intros v Hv Hin. apply list_elem_of_singleton in Hin as ->.
    apply list_elem_of_fmap in Hv as (u & Hu & Hin).
    assert (Ht : existsb (fun u => u_user_id u =? user_id) us = true).
    { apply existsb_exists. exists u. split; [now apply list_elem_of_In | lia]. }
    congruence.
  - apply NoDup_singleton.
Qed.

Lemma sync_key_user_ids (now : Z) (dbk : gmap string Z) (key : KeyJson) (st st' : Store) :
  Database.sync_key now dbk key st = Ok st' ->
  NoDup (user_ids st) -> NoDup (user_ids st').
Proof.
  intros Hs Hnd. destruct (j_id key) as [i |] eqn:Hi.
  - destruct (dbk !! i) as [l |] eqn:Hl.
    + apply (sync_key_known_ok _ _ _ _ _ _ _ Hi Hl) in Hs as ->.
      destruct (negb _); exact Hnd.
    + pose proof (sync_key_new now dbk key st i Hi Hl) as Hn.
      destruct (insertable key i).
      * destruct Hn as (n & url & _ & _ & Hn). rewrite Hn in Hs. injection Hs as <-.
        unfold user_ids. cbn [users]. now apply insert_or_ignore_user_ids.
      * destruct Hn as [e Hn]. rewrite Hn in Hs. discriminate.
  - rewrite (sync_key_no_id now dbk key st Hi) in Hs. discriminate.
Qed.

Lemma sync_loop_user_ids (now : Z) (dbk : gmap string Z) (listing : list KeyJson) (st : Store) :
  NoDup (user_ids st) -> NoDup (user_ids (snd (Database.sync_loop now dbk listing st))).
Proof.
  revert st. induction listing as [| key rest IH]; intros st Hnd; [exact Hnd |].
  cbn [Database.sync_loop].
  destruct (Database.sync_key now dbk key st) as [st' | e] eqn:Hs; [| exact Hnd].
  apply IH. exact (sync_key_user_ids now dbk key st st' Hs Hnd).
Qed.

(** X2.  The user id stays a key of the users table: when no two rows have
    the same id, none have after [save_user], [set_admin_status],
    [block_user], or a pass of the reconciliation, whatever the listing. *)
Theorem user_ids_stay_distinct (now : Z) (st : Store) (d : Database.UserData)
        (user_id : Z) (flag : bool) (listing : list KeyJson) :
  NoDup (user_ids st) ->
  NoDup (user_ids (snd (Database.save_user now st d)))
  /\ NoDup (user_ids (snd (Database.set_admin_status st user_id flag)))
  /\ NoDup (user_ids (snd (Database.block_user st user_id flag)))
  /\ NoDup (user_ids (Database.sync_store now listing st)).
Proof.
  intros Hnd. split; [| split; [| split]].
  - unfold Database.save_user.
    destruct (Database.ud_id d) as [uid |]; [| exact Hnd].
    destruct (uid =? 0); [exact Hnd |].
    destruct (Database.get_user st uid) eqn:Hg; cbn [snd].
    + now rewrite user_ids_update by apply keeps_with_profile.
    + unfold user_ids, Database.set_users. cbn [users]. rewrite map_app. cbn.
      apply NoDup_app. split; [exact Hnd |]. split; [| apply NoDup_singleton].
      intros v Hv Hin. apply list_elem_of_singleton in Hin as ->.
      apply get_user_None_ids in Hg. contradiction.
  - cbn [snd Database.set_admin_status].
    now rewrite user_ids_update by apply keeps_with_is_admin.
  - cbn [snd Database.block_user].
    now rewrite user_ids_update by apply keeps_with_is_blocked.
  - unfold Database.sync_store. now apply sync_loop_user_ids.
Qed.

(** Two users; a first contact, a change of privilege and a pass that finds
    key 7 on the server. *)
Lemma user_ids_stay_distinct_witness :
  let st := mkStore [user_row alice false false; user_row root true false] [] [] in
  NoDup (user_ids (snd (Database.save_user 5 st (sample_user 77 "eve"))))
  /\ NoDup (user_ids (snd (Database.set_admin_status st alice true)))
  /\ NoDup (user_ids (snd (Database.block_user st alice true)))
  /\ NoDup (user_ids (Database.sync_store 5 [remote_key "7" None] st)).
Proof.
  apply (user_ids_stay_distinct 5
           (mkStore [user_row alice false false; user_row root true false] [] [])
           (sample_user 77 "eve") alice true [remote_key "7" None]).
  cbn. apply NoDup_cons. split; [| apply NoDup_singleton].
  intros H. apply list_elem_of_singleton in H. discriminate H.
Defined.

Lemma flag_update_frame (cfg : Config) (st : Store) (user_id : Z) (f : UserRow -> UserRow) :
  keeps_user_id f ->
  let st' := Database.set_users (Database.update_user user_id f (users st)) st in
  (forall other, other <> user_id -> Database.get_user st' other = Database.get_user st other)
  /\ (existsb (Database.has_user_id user_id) (users st) = false -> st' = st).
Proof.
  intros Hf. cbv zeta. split.
  - intros other Ho. now apply get_user_update_other.
  - intros He. unfold Database.set_users. rewrite update_user_absent; [now destruct st |].
    intros Hin. apply list_elem_of_fmap in Hin as (u & Hu & Hin).
    assert (Ht : existsb (Database.has_user_id user_id) (users st) = true).
    { apply existsb_exists. exists u. split; [now apply list_elem_of_In |].
      unfold Database.has_user_id. lia. }
    congruence.
Qed.

Lemma update_user_twice (user_id : Z) (f g : UserRow -> UserRow) (us : list UserRow) :
  keeps_user_id f ->
  Database.update_user user_id g (Database.update_user user_id f us)
  = Database.update_user user_id (fun u => g (f u)) us.
Proof.
  intros Hf. unfold Database.update_user, Database.has_user_id.
  induction us as [| u us IH]; [reflexivity |].
  cbn. rewrite IH. destruct (u_user_id u =? user_id) eqn:E; [now rewrite Hf, E | now rewrite E].
Qed.

(** X3.  [block_user] reports whether the user has a row, and changes
    nothing when there is none.  For a user with a row the blocked flag read
    back is the one written; the administrator status of everybody and the
    rows of the other users are untouched; and, ids being distinct, writing
    back the flag the user had restores the table. *)
Theorem block_user_effect (cfg : Config) (st : Store) (user_id : Z) (block : bool) :
  let r := Database.block_user st user_id block in
  (fst r = true <-> Database.get_user st user_id <> None)
  /\ (fst r = false -> snd r = st)
  /\ (Database.get_user st user_id <> None ->
      Database.is_user_blocked (snd r) user_id = block)
  /\ (forall other, other <> user_id ->
                    Database.get_user (snd r) other = Database.get_user st other)
  /\ (forall v, Database.is_admin cfg (snd r) v = Database.is_admin cfg st v)
  /\ (NoDup (user_ids st) ->
      snd (Database.block_user (snd r) user_id (Database.is_user_blocked st user_id)) = st).
Proof.
  cbv zeta. unfold Database.block_user. cbn [fst snd].
  destruct (flag_update_frame cfg st user_id (Database.with_is_blocked block)
              (keeps_with_is_blocked block)) as [Hother Habsent].
  split; [apply existsb_has_user_id |]. split; [exact Habsent |]. split; [| split; [| split]].
  - intros Hex. unfold Database.is_user_blocked.
    rewrite get_user_update_same by apply keeps_with_is_blocked.
    destruct (Database.get_user st user_id); [reflexivity | congruence].
  - exact Hother.
  - intros v. unfold Database.is_admin. destruct (existsb _ (ADMIN_IDS cfg)); [reflexivity |].
    destruct (Z.eq_dec v user_id) as [-> | Hv].
    + rewrite get_user_update_same by apply keeps_with_is_blocked.
      now destruct (Database.get_user st user_id).
    + now rewrite Hother.
  - intros Hnd. unfold Database.set_users at 1. cbn [users access_keys activity_log].
    unfold Database.set_users at 1. cbn [users].
    rewrite update_user_twice by apply keeps_with_is_blocked.
    unfold Database.is_user_blocked, Database.get_user, user_ids in *.
    assert (Hus : Database.update_user user_id
                    (fun u => Database.with_is_blocked
                                (match List.find (fun u0 => u_user_id u0 =? user_id) (users st) with
                                 | Some result => u_is_blocked result
                                 | None => false
                                 end)
                                (Database.with_is_blocked block u)) (users st)
                  = users st).
    { revert Hnd. generalize (users st). intros us Hnd.
      induction us as [| u us IH]; [reflexivity |].
      cbn in Hnd. apply NoDup_cons in Hnd as [Hfresh Hnd].
      unfold Database.update_user, Database.has_user_id in *. cbn.
      destruct (Z.eqb_spec (u_user_id u) user_id) as [E | E].
      - f_equal; [now destruct u |].
        rewrite E in Hfresh.
        exact (update_user_absent user_id _ us Hfresh).
      - f_equal. exact (IH Hnd). }
    rewrite Hus. now destruct st.
Qed.

(** X4.  [set_admin_status] reports whether the user has a row.  For a user
    with a row who is not listed in the configuration, [is_admin] afterwards
    is the flag written; a user listed in the configuration stays an
    administrator even when the flag is cleared.  Nobody else's status and
    nobody's blocked flag changes. *)
Theorem set_admin_status_effect (cfg : Config) (st : Store) (user_id : Z) (flag : bool) :
  let r := Database.set_admin_status st user_id flag in
  (fst r = true <-> Database.get_user st user_id <> None)
  /\ (fst r = false -> snd r = st)
  /\ (In user_id (ADMIN_IDS cfg) -> Database.is_admin cfg (snd r) user_id = true)
  /\ (~ In user_id (ADMIN_IDS cfg) -> Database.get_user st user_id <> None ->
      Database.is_admin cfg (snd r) user_id = flag)
  /\ (forall other, other <> user_id ->
                    Database.is_admin cfg (snd r) other = Database.is_admin cfg st other)
  /\ (forall v, Database.is_user_blocked (snd r) v = Database.is_user_blocked st v).
Proof.
  cbv zeta. unfold Database.set_admin_status. cbn [fst snd].
  destruct (flag_update_frame cfg st user_id (Database.with_is_admin flag)
              (keeps_with_is_admin flag)) as [Hother Habsent].
  split; [apply existsb_has_user_id |]. split; [exact Habsent |].
  split; [| split; [| split]].
  - intros Hin. unfold Database.is_admin. now rewrite existsb_Z_eqb.
  - intros Hnin Hex. unfold Database.is_admin.
    destruct (existsb (Z.eqb user_id) (ADMIN_IDS cfg)) eqn:E.
    + apply existsb_exists in E as (x & Hx & Heq). apply Z.eqb_eq in Heq. subst x.
      contradiction.
    + rewrite get_user_update_same by apply keeps_with_is_admin.
      destruct (Database.get_user st user_id); [reflexivity | congruence].
  - intros other Ho. unfold Database.is_admin. now rewrite Hother.
  - intros v. unfold Database.is_user_blocked.
    destruct (Z.eq_dec v user_id) as [-> | Hv].
    + rewrite get_user_update_same by apply keeps_with_is_admin.
      now destruct (Database.get_user st user_id).
    + now rewrite Hother.
Qed.

(** ** The key table *)

Lemma find_key_None (rows : list KeyRow) (k : string) :
  List.find (Database.has_key_id k) rows = None <-> k ∉ map k_key_id rows.
Proof.
  induction rows as [| r rows IH]; cbn.
  - split; [intros _; apply not_elem_of_nil | reflexivity].
  - rewrite not_elem_of_cons. destruct (Database.has_key_id k r) eqn:E.
    + apply has_key_id_true in E. split; [discriminate | intros [H _]; congruence].
    + apply has_key_id_false in E. rewrite IH.
      split; [intros H; split; [congruence | exact H] | intros [_ H]; exact H].
Qed.

Lemma touched_find (rows : list KeyRow) (k : string) :
  Database.touched k rows = true <-> List.find (Database.has_key_id k) rows <> None.
Proof.
  unfold Database.touched.
  induction rows as [| r rows IH]; cbn; [split; [discriminate | congruence] |].
  destruct (Database.has_key_id k r); cbn; [split; [discriminate | reflexivity] | exact IH].
Qed.

Lemma touched_false_ids (rows : list KeyRow) (k : string) :
  Database.touched k rows = false <-> k ∉ map k_key_id rows.
Proof.
  rewrite <- find_key_None. pose proof (touched_find rows k) as [H1 H2].
  destruct (Database.touched k rows); destruct (List.find _ rows); split; intros; try congruence.
  - exfalso. now apply H1.
  - assert (false = true) by (apply H2; discriminate). discriminate.
Qed.

Lemma update_where_key_ids (rows : list KeyRow) (k : string) (f : KeyRow -> KeyRow) :
  keeps_key_id f -> map k_key_id (Database.update_where k f rows) = map k_key_id rows.
Proof.
  intros Hf. unfold Database.update_where.
  induction rows as [| r rows IH]; [reflexivity |].
  cbn. rewrite IH. destruct (Database.has_key_id k r); [now rewrite Hf | reflexivity].
Qed.

Lemma update_where_absent (rows : list KeyRow) (k : string) (f : KeyRow -> KeyRow) :
  k ∉ map k_key_id rows -> Database.update_where k f rows = rows.
Proof.
  unfold Database.update_where.
  induction rows as [| r rows IH]; intros H; [reflexivity |].
  cbn in *. apply not_elem_of_cons in H as [Hne Hrest]. rewrite (IH Hrest).
  assert (E : Database.has_key_id k r = false) by (apply has_key_id_false; congruence).
  now rewrite E.
Qed.

Lemma update_where_others (rows : list KeyRow) (k : string) (f : KeyRow -> KeyRow) :
  keeps_key_id f ->
  List.filter (fun r => negb (Database.has_key_id k r)) (Database.update_where k f rows)
  = List.filter (fun r => negb (Database.has_key_id k r)) rows.
Proof.
  intros Hf. unfold Database.update_where.
  induction rows as [| r rows IH]; [reflexivity |].
  cbn. destruct (Database.has_key_id k r) eqn:E; cbn.
  - assert (E' : Database.has_key_id k (f r) = true).
    { apply has_key_id_true. rewrite Hf. now apply has_key_id_true. }
    rewrite E'. cbn. exact IH.
  - rewrite E. cbn. now rewrite IH.
Qed.

Lemma update_where_rows_of (rows : list KeyRow) (k : string) (f : KeyRow -> KeyRow) (r : KeyRow) :
  r ∈ Database.update_where k f rows -> k_key_id r = k -> keeps_key_id f ->
  exists r0, r0 ∈ rows /\ k_key_id r0 = k /\ r = f r0.
Proof.
  unfold Database.update_where. intros Hin Hk Hf.
  apply list_elem_of_fmap in Hin as (r0 & -> & H0).
  destruct (Database.has_key_id k r0) eqn:E.
  - exists r0. split; [exact H0 |]. split; [now apply has_key_id_true | reflexivity].
  - apply has_key_id_false in E. congruence.
Qed.

Lemma find_update_where (rows : list KeyRow) (k : string) (f : KeyRow -> KeyRow) :
  keeps_key_id f ->
  List.find (Database.has_key_id k) (Database.update_where k f rows)
  = f <$> List.find (Database.has_key_id k) rows.
Proof.
  intros Hf. unfold Database.update_where.
  induction rows as [| r rows IH]; [reflexivity |].
  cbn. destruct (Database.has_key_id k r) eqn:E; cbn.
  - assert (E' : Database.has_key_id k (f r) = true).
    { apply has_key_id_true. rewrite Hf. now apply has_key_id_true. }
    now rewrite E'.
  - rewrite E. exact IH.
Qed.

Lemma find_update_where_other (rows : list KeyRow) (k k' : string) (f : KeyRow -> KeyRow) :
  keeps_key_id f -> k' <> k ->
  List.find (Database.has_key_id k') (Database.update_where k f rows)
  = List.find (Database.has_key_id k') rows.
Proof.
  intros Hf Hne. unfold Database.update_where.
  induction rows as [| r rows IH]; [reflexivity |].
  cbn. destruct (Database.has_key_id k r) eqn:E; cbn.
  - apply has_key_id_true in E.
    assert (E1 : Database.has_key_id k' (f r) = false).
    { apply has_key_id_false. rewrite Hf. congruence. }
    assert (E2 : Database.has_key_id k' r = false).
    { apply has_key_id_false. congruence. }
    rewrite E1, E2. exact IH.
  - destruct (Database.has_key_id k' r); [reflexivity | exact IH].
Qed.

Lemma keeps_saved_over (user_id : Z) (key_data : KeyJson) (paid : option Z) (limit : Z) :
  keeps_key_id (saved_over user_id key_data paid limit).
Proof. intros r. reflexivity. Qed.

Lemma keeps_with_data_limit (v : Z) : keeps_key_id (Database.with_data_limit v).
Proof. intros r. reflexivity. Qed.

Lemma keeps_with_paid_until (v : Z) : keeps_key_id (Database.with_paid_until v).
Proof. intros r. reflexivity. Qed.

Lemma filter_others_app_same (rows : list KeyRow) (k : string) (r : KeyRow) :
  k_key_id r = k ->
  List.filter (fun r => negb (Database.has_key_id k r)) (rows ++ [r])
  = List.filter (fun r => negb (Database.has_key_id k r)) rows.
Proof.
  intros Hk. rewrite List.filter_app. cbn.
  assert (E : Database.has_key_id k r = true) by now apply has_key_id_true.
  rewrite E. cbn. apply app_nil_r.
Qed.

Lemma find_app_new (rows : list KeyRow) (k : string) (r : KeyRow) :
  List.find (Database.has_key_id k) (rows ++ [r])
  = match List.find (Database.has_key_id k) rows with
    | Some r0 => Some r0
    | None => if Database.has_key_id k r then Some r else None
    end.
Proof.
  induction rows as [| r0 rows IH]; cbn.
  - destruct (Database.has_key_id k r); reflexivity.
  - destruct (Database.has_key_id k r0); [reflexivity | exact IH].
Qed.

(** X5.  [save_access_key] of a key dict that has an id always succeeds.
    Afterwards every row of that key id belongs to the given user and carries
    the name, the URL, the limit and the paid-until value of the call (0 when
    none is given, so saving again clears a stored expiry); the owner read back
    is that user; the rows of the other keys, the users and the log are
    untouched.  A key id that was unknown adds one to the number of keys of
    the user. *)
Theorem save_access_key_upsert (now : Z) (st : Store) (user_id : Z) (key_data : KeyJson)
        (paid_until : option Z) (data_limit : Z) (key_id : string) :
  j_id key_data = Some key_id ->
  let r := Database.save_access_key now st user_id key_data paid_until data_limit in
  fst r = true
  /\ (forall row, row ∈ access_keys (snd r) -> k_key_id row = key_id ->
                  k_user_id row = user_id
                  /\ k_name row = default "" (j_name key_data)
                  /\ k_access_url row = default "" (j_accessUrl key_data)
                  /\ k_data_limit row = data_limit
                  /\ k_paid_until row = default 0 paid_until)
  /\ Database.get_key_owner (snd r) key_id = Some user_id
  /\ other_keys key_id (snd r) = other_keys key_id st
  /\ users (snd r) = users st /\ activity_log (snd r) = activity_log st
  /\ (known st key_id = false ->
      Database.count_user_keys (snd r) user_id = Database.count_user_keys st user_id + 1)
  /\ (known st key_id = true -> length (access_keys (snd r)) = length (access_keys st)).
Proof.
  intros Hid. cbv zeta. unfold Database.save_access_key. rewrite Hid.
  change (default "" (Some key_id)) with key_id.
  fold (saved_over user_id key_data paid_until data_limit).
  unfold other_keys, known, Database.get_key_owner, Database.count_user_keys.
  destruct (List.find (Database.has_key_id key_id) (access_keys st)) as [old |] eqn:Hf;
    cbn [fst snd Database.set_access_keys access_keys users activity_log].
  - split; [reflexivity |]. split; [| split; [| split; [| split; [| split; [| split]]]]].
    + intros row Hin Hk.
      destruct (update_where_rows_of _ _ _ _ Hin Hk (keeps_saved_over _ _ _ _))
        as (r0 & _ & _ & ->).
      repeat split.
    + rewrite find_update_where by apply keeps_saved_over. now rewrite Hf.
    + apply update_where_others, keeps_saved_over.
    + reflexivity.
    + reflexivity.
    + intros Hk. apply touched_false_ids, find_key_None in Hk. congruence.
    + intros _. unfold Database.update_where. now rewrite length_map.
  - split; [reflexivity |]. split; [| split; [| split; [| split; [| split; [| split]]]]].
    + intros row Hin Hk. apply elem_of_app in Hin as [Hin | Hin].
      * exfalso. apply find_key_None in Hf. apply Hf.
        apply list_elem_of_fmap. exists row. auto.
      * apply list_elem_of_singleton in Hin as ->. repeat split.
    + rewrite find_app_new, Hf. cbn. now rewrite String.eqb_refl.
    + now apply filter_others_app_same.
    + reflexivity.
    + reflexivity.
    + intros _. rewrite List.filter_app, length_app. cbn. rewrite Z.eqb_refl. cbn. lia.
    + intros Hk. apply touched_find in Hk. congruence.
Qed.

(** Key 7 is saved for the first time, and saved again for another user. *)
Lemma save_access_key_upsert_witness :
  Database.get_key_owner
    (snd (Database.save_access_key 5 empty_store alice (remote_key "7" None) None 0)) "7"
  = Some alice
  /\ Database.get_key_owner
       (snd (Database.save_access_key 5 (mkStore [] [key_row alice "7"] []) root
                                      (remote_key "7" None) None 0)) "7"
     = Some root.
Proof.
  split.
  - apply (save_access_key_upsert 5 empty_store alice (remote_key "7" None) None 0 "7").
    reflexivity.
  - apply (save_access_key_upsert 5 (mkStore [] [key_row alice "7"] []) root
             (remote_key "7" None) None 0 "7").
    reflexivity.
Defined.

Lemma last_limit_None (rows : list KeyRow) (i : string) :
  last_limit rows i = None <-> i ∉ map k_key_id rows.
Proof.
  induction rows as [| r rows IH]; cbn.
  - split; [intros _; apply not_elem_of_nil | reflexivity].
  - rewrite not_elem_of_cons, <- IH.
    destruct (last_limit rows i); [split; [discriminate | intros [_ H]; discriminate] |].
    destruct (Database.has_key_id i r) eqn:E.
    + apply has_key_id_true in E. split; [discriminate | intros [H _]; congruence].
    + apply has_key_id_false in E. split; [intros _; split; congruence | reflexivity].
Qed.

Lemma sync_key_key_ids (now : Z) (dbk : gmap string Z) (key : KeyJson) (st st' : Store)
      (i : string) :
  j_id key = Some i ->
  Database.sync_key now dbk key st = Ok st' ->
  key_ids st' = key_ids st
  \/ (dbk !! i = None /\ key_ids st' = (key_ids st ++ [i])%list).
Proof.
  intros Hi Hs. unfold key_ids. destruct (dbk !! i) as [l |] eqn:Hl.
  - apply (sync_key_known_ok _ _ _ _ _ _ _ Hi Hl) in Hs as ->. left.
    destruct (negb _); [| reflexivity].
    cbn. apply update_where_key_ids, keeps_with_data_limit.
  - pose proof (sync_key_new now dbk key st i Hi Hl) as H.
    destruct (insertable key i).
    + destruct H as (n & url & _ & _ & H). rewrite H in Hs. injection Hs as <-.
      right. split; [reflexivity |]. cbn. now rewrite map_app.
    + destruct H as (e & H). congruence.
Qed.

Lemma sync_loop_key_ids (now : Z) (dbk : gmap string Z) (listing : list KeyJson) (st : Store) :
  NoDup (listed_ids listing) ->
  (forall i, i ∈ listed_ids listing -> dbk !! i = last_limit (access_keys st) i) ->
  NoDup (key_ids st) ->
  NoDup (key_ids (snd (Database.sync_loop now dbk listing st))).
Proof.
  revert st. induction listing as [| key rest IH]; intros st Hnd Hagree Hst; [exact Hst |].
  cbn [Database.sync_loop].
  destruct (Database.sync_key now dbk key st) as [st' | e] eqn:Hs; [| exact Hst].
  destruct (j_id key) as [i |] eqn:Hi;
    [| rewrite (sync_key_no_id _ _ _ _ Hi) in Hs; discriminate].
  unfold listed_ids in *. cbn in Hnd, Hagree. rewrite Hi in Hnd, Hagree. cbn in Hnd, Hagree.
  apply NoDup_cons in Hnd as [Hfresh Hnd].
  destruct (sync_key_effect _ _ _ _ _ _ Hi Hs) as [Hother _].
  apply IH; [exact Hnd | |].
  - intros j Hj. rewrite Hother by (intros ->; contradiction).
    apply Hagree. now apply list_elem_of_further.
  - destruct (sync_key_key_ids _ _ _ _ _ _ Hi Hs) as [-> | [Hnone ->]]; [exact Hst |].
    apply NoDup_app. split; [exact Hst |]. split; [| apply NoDup_singleton].
    intros j Hj Hj'. apply list_elem_of_singleton in Hj' as ->.
    rewrite (Hagree i (list_elem_of_here _ _)) in Hnone.
    apply last_limit_None in Hnone. contradiction.
Qed.

(** X6.  A key table in which no key id repeats stays so under every
    writer of the class: [save_access_key] of a key dict with an id,
    [update_key_payment], [update_key_limit], [delete_key], and a pass of
    [sync_keys_with_server] over a listing that names no key id twice.
    (The table itself has no uniqueness constraint on [key_id].) *)
Theorem key_ids_stay_distinct (now : Z) (st : Store) :
  NoDup (key_ids st) ->
  (forall user_id key_data paid_until data_limit,
      is_Some (j_id key_data) ->
      NoDup (key_ids (snd (Database.save_access_key now st user_id key_data
                                                    paid_until data_limit))))
  /\ (forall key_id v, NoDup (key_ids (snd (Database.update_key_payment st key_id v))))
  /\ (forall key_id v, NoDup (key_ids (snd (Database.update_key_limit st key_id v))))
  /\ (forall key_id, NoDup (key_ids (snd (Database.delete_key st key_id))))
  /\ (forall listing, NoDup (listed_ids listing) ->
                      NoDup (key_ids (Database.sync_store now listing st))).
Proof.
  intros Hst. split; [| split; [| split; [| split]]].
  - intros user_id key_data paid_until data_limit [key_id Hid].
    unfold Database.save_access_key. rewrite Hid.
    change (default "" (Some key_id)) with key_id.
    fold (saved_over user_id key_data paid_until data_limit).
    destruct (List.find (Database.has_key_id key_id) (access_keys st)) eqn:Hf;
      unfold key_ids; cbn [snd Database.set_access_keys access_keys].
    + now rewrite update_where_key_ids by apply keeps_saved_over.
    + rewrite map_app. cbn. apply NoDup_app. split; [exact Hst |].
      split; [| apply NoDup_singleton].
      intros j Hj Hj'. apply list_elem_of_singleton in Hj' as ->.
      apply find_key_None in Hf. contradiction.
  - intros key_id v. unfold key_ids. cbn.
    now rewrite update_where_key_ids by apply keeps_with_paid_until.
  - intros key_id v. unfold Database.update_key_limit.
    destruct (List.find _ _); [| exact Hst]. unfold key_ids. cbn.
    now rewrite update_where_key_ids by apply keeps_with_data_limit.
  - intros key_id. unfold key_ids. cbn.
    unfold key_ids in Hst. revert Hst. generalize (access_keys st) as rows.
    induction rows as [| r rows IH]; intros Hnd; [exact Hnd |].
    cbn in *. apply NoDup_cons in Hnd as [Hfresh Hnd].
    destruct (negb _); [| now apply IH]. cbn. apply NoDup_cons. split; [| now apply IH].
    intros Hin. apply Hfresh. apply list_elem_of_fmap in Hin as (r0 & -> & Hin).
    apply list_elem_of_fmap. exists r0. split; [reflexivity |].
    apply list_elem_of_In. apply list_elem_of_In in Hin.
    now apply List.filter_In in Hin as [Hin _].
  - intros listing Hnd. unfold Database.sync_store.
    apply sync_loop_key_ids; [exact Hnd | | exact Hst].
    intros i _. apply db_keys_of_lookup.
Qed.

(** A table with the keys 1 and 7; the listing names the keys 1 and 2. *)
Lemma key_ids_stay_distinct_witness :
  NoDup (key_ids (mkStore [] (keys_of alice ["1"; "7"]) []))
  /\ NoDup (key_ids (Database.sync_store 5 two_keys (mkStore [] (keys_of alice ["1"; "7"]) []))).
Proof.
  assert (H : NoDup (key_ids (mkStore [] (keys_of alice ["1"; "7"]) []))).
  { apply (bool_decide_unpack _). vm_compute. exact I. }
  split; [exact H |].
  apply (key_ids_stay_distinct 5 _ H).
  apply (bool_decide_unpack _). vm_compute. exact I.
Defined.

Lemma filter_others_absent (rows : list KeyRow) (k : string) :
  k ∉ map k_key_id rows ->
  List.filter (fun r => negb (Database.has_key_id k r)) rows = rows.
Proof.
  induction rows as [| r rows IH]; intros H; [reflexivity |].
  cbn in *. apply not_elem_of_cons in H as [Hne Hrest].
  assert (E : Database.has_key_id k r = false) by (apply has_key_id_false; congruence).
  rewrite E. cbn. now rewrite IH.
Qed.

Lemma find_filter_others (rows : list KeyRow) (k k' : string) :
  List.find (Database.has_key_id k')
            (List.filter (fun r => negb (Database.has_key_id k r)) rows)
  = if String.eqb k' k then None else List.find (Database.has_key_id k') rows.
Proof.
  induction rows as [| r rows IH]; cbn; [now destruct (String.eqb k' k) |].
  destruct (Database.has_key_id k r) eqn:E; cbn.
  - rewrite IH. destruct (String.eqb_spec k' k) as [Heq | Hne]; [reflexivity |].
    apply has_key_id_true in E.
    assert (E' : Database.has_key_id k' r = false) by (apply has_key_id_false; congruence).
    now rewrite E'.
  - destruct (Database.has_key_id k' r) eqn:E'; [| exact IH].
    destruct (String.eqb_spec k' k) as [Heq | Hne]; [congruence | reflexivity].
Qed.

Lemma count_after_delete (rows : list KeyRow) (k : string) (r0 : KeyRow) (u : Z) :
  NoDup (map k_key_id rows) ->
  List.find (Database.has_key_id k) rows = Some r0 ->
  Z.of_nat (length (List.filter (fun r => k_user_id r =? u)
                      (List.filter (fun r => negb (Database.has_key_id k r)) rows)))
  = Z.of_nat (length (List.filter (fun r => k_user_id r =? u) rows))
    - (if k_user_id r0 =? u then 1 else 0).
Proof.
  induction rows as [| r rows IH]; intros Hnd Hf; [discriminate |].
  cbn in Hnd, Hf |- *. apply NoDup_cons in Hnd as [Hfresh Hnd].
  destruct (Database.has_key_id k r) eqn:E; cbn.
  - injection Hf as <-. apply has_key_id_true in E. rewrite E in Hfresh.
    rewrite (filter_others_absent _ _ Hfresh).
    destruct (k_user_id r =? u); cbn [length]; lia.
  - specialize (IH Hnd Hf). destruct (k_user_id r =? u); cbn [length]; lia.
Qed.

Lemma count_filter_le (rows : list KeyRow) (k : string) (u : Z) :
  Z.of_nat (length (List.filter (fun r => k_user_id r =? u)
                      (List.filter (fun r => negb (Database.has_key_id k r)) rows)))
  <= Z.of_nat (length (List.filter (fun r => k_user_id r =? u) rows)).
Proof.
  induction rows as [| r rows IH]; cbn; [lia |].
  destruct (Database.has_key_id k r); cbn; destruct (k_user_id r =? u); cbn [length]; lia.
Qed.

(** X7.  [delete_key] removes every row of the key id and nothing else:
    the key has no owner afterwards, the owners of the other keys, the
    users and the log are as before, and a key id that was not there leaves
    the tables as they were (with the answer False).  In a table without
    repeated key ids the owner of the key has one key less and every other
    user as many as before.  Deleting a key just saved under a fresh id gives
    the table back. *)
Theorem delete_key_effect (st : Store) (key_id : string) :
  let r := Database.delete_key st key_id in
  (fst r = false -> snd r = st)
  /\ Database.get_key_owner (snd r) key_id = None
  /\ (forall k, k <> key_id ->
                Database.get_key_owner (snd r) k = Database.get_key_owner st k)
  /\ access_keys (snd r) = other_keys key_id st
  /\ users (snd r) = users st /\ activity_log (snd r) = activity_log st
  /\ (forall u, Database.count_user_keys (snd r) u <= Database.count_user_keys st u)
  /\ (forall owner u, NoDup (key_ids st) ->
                      Database.get_key_owner st key_id = Some owner ->
                      Database.count_user_keys (snd r) u
                      = Database.count_user_keys st u - (if owner =? u then 1 else 0))
  /\ (forall now user_id key_data paid_until data_limit,
         j_id key_data = Some key_id -> known st key_id = false ->
         snd (Database.delete_key
                (snd (Database.save_access_key now st user_id key_data paid_until data_limit))
                key_id) = st).
Proof.
  cbv zeta. unfold Database.delete_key, Database.get_key_owner, Database.count_user_keys,
              other_keys, key_ids.
  cbn [fst snd Database.set_access_keys access_keys users activity_log].
  split; [| split; [| split; [| split; [| split; [| split; [| split; [| split]]]]]]].
  - intros H. apply touched_false_ids in H. rewrite (filter_others_absent _ _ H).
    now destruct st.
  - rewrite find_filter_others. now rewrite String.eqb_refl.
  - intros k Hne. rewrite find_filter_others.
    now destruct (String.eqb_spec k key_id).
  - reflexivity.
  - reflexivity.
  - reflexivity.
  - intros u. apply count_filter_le.
  - intros owner u Hnd Ho.
    destruct (List.find (Database.has_key_id key_id) (access_keys st)) as [r0 |] eqn:Hf;
      [| discriminate].
    injection Ho as <-. now apply count_after_delete.
  - intros now user_id key_data paid_until data_limit Hid Hk.
    apply touched_false_ids in Hk.
    unfold Database.save_access_key. rewrite Hid.
    rewrite (proj2 (find_key_None _ _) Hk).
    change (default "" (Some key_id)) with key_id.
    cbn [fst snd Database.set_access_keys access_keys users activity_log].
    rewrite filter_others_app_same by reflexivity.
    rewrite (filter_others_absent _ _ Hk). now destruct st.
Qed.

Lemma update_where_field {A} (g : KeyRow -> A) (rows : list KeyRow) (k : string)
      (f : KeyRow -> KeyRow) :
  (forall r, g (f r) = g r) -> map g (Database.update_where k f rows) = map g rows.
Proof.
  intros Hf. unfold Database.update_where. rewrite map_map. apply map_ext.
  intros r. now destruct (Database.has_key_id k r).
Qed.

Lemma update_where_commute (rows : list KeyRow) (k : string) (f g : KeyRow -> KeyRow) :
  keeps_key_id f -> keeps_key_id g -> (forall r, f (g r) = g (f r)) ->
  Database.update_where k f (Database.update_where k g rows)
  = Database.update_where k g (Database.update_where k f rows).
Proof.
  intros Hf Hg Hc. unfold Database.update_where. rewrite !map_map. apply map_ext.
  intros r. destruct (Database.has_key_id k r) eqn:E.
  - assert (Ef : Database.has_key_id k (f r) = true).
    { apply has_key_id_true. rewrite Hf. now apply has_key_id_true. }
    assert (Eg : Database.has_key_id k (g r) = true).
    { apply has_key_id_true. rewrite Hg. now apply has_key_id_true. }
    now rewrite Ef, Eg, Hc.
  - now rewrite E.
Qed.

Lemma touched_update_where (rows : list KeyRow) (k k' : string) (f : KeyRow -> KeyRow) :
  keeps_key_id f ->
  Database.touched k' (Database.update_where k f rows) = Database.touched k' rows.
Proof.
  intros Hf. unfold Database.touched, Database.update_where.
  induction rows as [| r rows IH]; [reflexivity |].
  cbn. rewrite IH. f_equal. destruct (Database.has_key_id k r); [| reflexivity].
  unfold Database.has_key_id. now rewrite Hf.
Qed.

(** X8.  [update_key_payment] and [update_key_limit] answer whether the
    key has a row, and for an unknown key leave the tables as they were.
    Afterwards every row of the key carries the new value; the rows of other
    keys, every owner, name and URL are as before; the payment update leaves
    all limits alone and the limit update all payment dates.  The two updates
    of one key can be made in either order. *)
Theorem update_key_effect (st : Store) (key_id : string) (paid_until data_limit : Z) :
  let p := Database.update_key_payment st key_id paid_until in
  let l := Database.update_key_limit st key_id data_limit in
  (fst p = known st key_id /\ fst l = known st key_id)
  /\ (known st key_id = false -> snd p = st /\ snd l = st)
  /\ (forall row, row ∈ access_keys (snd p) -> k_key_id row = key_id ->
                  k_paid_until row = paid_until)
  /\ (forall row, row ∈ access_keys (snd l) -> k_key_id row = key_id ->
                  k_data_limit row = data_limit)
  /\ (other_keys key_id (snd p) = other_keys key_id st
      /\ other_keys key_id (snd l) = other_keys key_id st)
  /\ (map k_data_limit (access_keys (snd p)) = map k_data_limit (access_keys st)
      /\ map k_paid_until (access_keys (snd l)) = map k_paid_until (access_keys st))
  /\ (forall k, Database.get_key_owner (snd p) k = Database.get_key_owner st k
                /\ Database.get_key_owner (snd l) k = Database.get_key_owner st k)
  /\ (users (snd p) = users st /\ users (snd l) = users st
      /\ activity_log (snd p) = activity_log st /\ activity_log (snd l) = activity_log st)
  /\ snd (Database.update_key_limit (snd p) key_id data_limit)
     = snd (Database.update_key_payment (snd l) key_id paid_until).
Proof.
  cbv zeta.
  assert (Hl : Database.update_key_limit st key_id data_limit
               = if known st key_id
                 then (true, Database.set_access_keys
                               (Database.update_where key_id
                                  (Database.with_data_limit data_limit) (access_keys st)) st)
                 else (false, st)).
  { unfold Database.update_key_limit, known.
    pose proof (touched_find (access_keys st) key_id) as [H1 H2].
    destruct (List.find _ _) eqn:Hf.
    - rewrite H2 by discriminate. reflexivity.
    - destruct (Database.touched key_id (access_keys st)); [| reflexivity].
      now exfalso; apply H1. }
  assert (Hown : forall k (f : KeyRow -> KeyRow),
             keeps_key_id f -> (forall r, k_user_id (f r) = k_user_id r) ->
             k_user_id <$> List.find (Database.has_key_id k)
                                     (Database.update_where key_id f (access_keys st))
             = k_user_id <$> List.find (Database.has_key_id k) (access_keys st)).
  { intros k f Hf Hu. destruct (String.eqb_spec k key_id) as [-> | Hne].
    - rewrite find_update_where by exact Hf.
      destruct (List.find _ _); cbn; [now rewrite Hu | reflexivity].
    - now rewrite find_update_where_other. }
  rewrite Hl. unfold Database.update_key_payment, other_keys, Database.get_key_owner.
  cbn [fst snd Database.set_access_keys access_keys users activity_log].
  split; [| split; [| split; [| split; [| split; [| split; [| split; [| split]]]]]]].
  - split; [reflexivity | now destruct (known st key_id)].
  - intros Hk. rewrite Hk. split; [| reflexivity].
    apply touched_false_ids in Hk. rewrite (update_where_absent _ _ _ Hk). now destruct st.
  - intros row Hin Hk.
    destruct (update_where_rows_of _ _ _ _ Hin Hk (keeps_with_paid_until _))
      as (r0 & _ & _ & ->).
    reflexivity.
  - intros row Hin Hk. destruct (known st key_id) eqn:Hkn; cbn in Hin.
    + destruct (update_where_rows_of _ _ _ _ Hin Hk (keeps_with_data_limit _))
        as (r0 & _ & _ & ->).
      reflexivity.
    + exfalso. apply touched_false_ids in Hkn. apply Hkn.
      apply list_elem_of_fmap. exists row. auto.
  - split; [apply update_where_others, keeps_with_paid_until |].
    destruct (known st key_id); [| reflexivity].
    apply update_where_others, keeps_with_data_limit.
  - split; [now apply update_where_field |].
    destruct (known st key_id); [| reflexivity]. now apply update_where_field.
  - intros k. split; [apply Hown; [apply keeps_with_paid_until | reflexivity] |].
    destruct (known st key_id); [| reflexivity].
    apply Hown; [apply keeps_with_data_limit | reflexivity].
  - now destruct (known st key_id).
  - unfold Database.update_key_limit.
    cbn [fst snd Database.set_access_keys access_keys users activity_log].
    rewrite find_update_where by apply keeps_with_paid_until.
    unfold known. destruct (Database.touched key_id (access_keys st)) eqn:Hk.
    + apply touched_find in Hk. destruct (List.find _ _); [| congruence].
      cbn [fmap option_fmap option_map snd]. unfold Database.set_access_keys.
      cbn [access_keys users activity_log].
      f_equal. apply update_where_commute;
        [apply keeps_with_data_limit | apply keeps_with_paid_until | reflexivity].
    + pose proof Hk as Hk'. apply touched_false_ids, find_key_None in Hk'. rewrite Hk'.
      cbn. apply touched_false_ids in Hk. rewrite (update_where_absent _ _ _ Hk).
      now destruct st.
Qed.

(** ** A pass of the reconciliation *)

Lemma limit_blind_update (rows : list KeyRow) (i : string) (v : Z) :
  limit_blind (Database.update_where i (Database.with_data_limit v) rows) = limit_blind rows.
Proof. unfold limit_blind. now apply update_where_field. Qed.

Lemma insert_or_ignore_user_prefix (user_id : Z) (name : string) (now : Z) (us : list UserRow) :
  us `prefix_of` Database.insert_or_ignore_user user_id name now us.
Proof.
  unfold Database.insert_or_ignore_user. destruct (existsb _ us); [reflexivity |].
  now apply prefix_app_r.
Qed.

Lemma filter_update_where_other (rows : list KeyRow) (i j : string) (f : KeyRow -> KeyRow) :
  keeps_key_id f -> j <> i ->
  List.filter (Database.has_key_id j) (Database.update_where i f rows)
  = List.filter (Database.has_key_id j) rows.
Proof.
  intros Hf Hne. unfold Database.update_where.
  induction rows as [| r rows IH]; [reflexivity |].
  cbn. rewrite IH. destruct (Database.has_key_id i r) eqn:E; [| reflexivity].
  apply has_key_id_true in E.
  assert (E1 : Database.has_key_id j (f r) = false).
  { apply has_key_id_false. rewrite Hf. congruence. }
  assert (E2 : Database.has_key_id j r = false) by (apply has_key_id_false; congruence).
  now rewrite E1, E2.
Qed.

Lemma sync_key_frame (now : Z) (dbk : gmap string Z) (key : KeyJson) (st st' : Store)
      (i : string) :
  j_id key = Some i ->
  Database.sync_key now dbk key st = Ok st' ->
  limit_blind (access_keys st) `prefix_of` limit_blind (access_keys st')
  /\ users st `prefix_of` users st'
  /\ activity_log st' = activity_log st
  /\ (forall j, j <> i -> rows_of j st' = rows_of j st).
Proof.
  intros Hi Hs. unfold rows_of. destruct (dbk !! i) as [l |] eqn:Hl.
  - apply (sync_key_known_ok _ _ _ _ _ _ _ Hi Hl) in Hs as ->.
    destruct (negb _); [| repeat split; reflexivity].
    cbn. rewrite limit_blind_update. repeat split; try reflexivity.
    intros j Hne. now apply filter_update_where_other.
  - pose proof (sync_key_new now dbk key st i Hi Hl) as H.
    destruct (insertable key i).
    + destruct H as (n & url & _ & _ & H). rewrite H in Hs. injection Hs as <-. cbn.
      split; [| split; [| split]].
      * unfold limit_blind. rewrite map_app. now apply prefix_app_r.
      * apply insert_or_ignore_user_prefix.
      * reflexivity.
      * intros j Hne. rewrite List.filter_app. cbn.
        destruct (String.eqb_spec i j); [congruence |]. apply app_nil_r.
    + destruct H as (e & H). congruence.
Qed.

Lemma sync_loop_frame (now : Z) (dbk : gmap string Z) (listing : list KeyJson) (st : Store) :
  let st' := snd (Database.sync_loop now dbk listing st) in
  limit_blind (access_keys st) `prefix_of` limit_blind (access_keys st')
  /\ users st `prefix_of` users st'
  /\ activity_log st' = activity_log st
  /\ (forall j, j ∉ listed_ids listing -> rows_of j st' = rows_of j st).
Proof.
  cbv zeta. revert st. induction listing as [| key rest IH]; intros st.
  - cbn. repeat split; reflexivity.
  - cbn [Database.sync_loop].
    destruct (Database.sync_key now dbk key st) as [st1 | e] eqn:Hs;
      [| cbn; repeat split; reflexivity].
    destruct (j_id key) as [i |] eqn:Hi;
      [| rewrite (sync_key_no_id _ _ _ _ Hi) in Hs; discriminate].
    destruct (sync_key_frame _ _ _ _ _ _ Hi Hs) as (K1 & U1 & L1 & R1).
    destruct (IH st1) as (K2 & U2 & L2 & R2).
    split; [now transitivity (limit_blind (access_keys st1)) |].
    split; [now transitivity (users st1) |].
    split; [congruence |].
    intros j Hj. unfold listed_ids in Hj. cbn in Hj. rewrite Hi in Hj. cbn in Hj.
    apply not_elem_of_cons in Hj as [Hne Hj].
    rewrite R2 by exact Hj. now apply R1.
Qed.

(** X9.  A pass of [sync_keys_with_server] over any listing only adds to
    the tables and adjusts limits: the rows the key table had are still its
    first rows, each with its owner, key id, name, URL, paid-until and
    creation date (so a key the server no longer lists is not removed and a
    key renamed on the server keeps its local name); the users the table had
    are still its first rows, unchanged; nothing is logged; and the rows of a
    key the listing does not name are exactly as before. *)
Theorem sync_store_only_adds (now : Z) (listing : list KeyJson) (st : Store) :
  let st' := Database.sync_store now listing st in
  limit_blind (access_keys st) `prefix_of` limit_blind (access_keys st')
  /\ users st `prefix_of` users st'
  /\ activity_log st' = activity_log st
  /\ (forall key_id, key_id ∉ listed_ids listing -> rows_of key_id st' = rows_of key_id st).
Proof. apply sync_loop_frame. Qed.

Lemma sync_key_is_ok (now : Z) (dbk : gmap string Z) (key : KeyJson) (st : Store) :
  is_ok (Database.sync_key now dbk key st)
  = match j_id key with
    | Some i =>
        match dbk !! i with
        | Some l =>
            (l =? Database.data_limit_of key)
            || Database.fits_int64 (Database.data_limit_of key)
        | None => insertable key i
        end
    | None => false
    end.
Proof.
  destruct (j_id key) as [i |] eqn:Hi; [| now rewrite (sync_key_no_id _ _ _ _ Hi)].
  destruct (dbk !! i) as [l |] eqn:Hl.
  - rewrite (sync_key_known _ _ _ _ _ _ Hi Hl).
    destruct (l =? Database.data_limit_of key); cbn; [reflexivity |].
    now destruct (Database.fits_int64 _).
  - pose proof (sync_key_new now dbk key st i Hi Hl) as H.
    destruct (insertable key i).
    + destruct H as (n & url & _ & _ & ->). reflexivity.
    + destruct H as (e & ->). reflexivity.
Qed.

Lemma sync_key_is_ok_syncable (now : Z) (key : KeyJson) (st0 st : Store) :
  is_ok (Database.sync_key now (Database.db_keys_of (access_keys st0)) key st)
  = syncable st0 key.
Proof.
  rewrite sync_key_is_ok. unfold syncable.
  destruct (j_id key) as [i |]; [| reflexivity]. now rewrite db_keys_of_lookup.
Qed.

Lemma sync_loop_is_ok (now : Z) (st0 : Store) (listing : list KeyJson) (st : Store) :
  is_ok (fst (Database.sync_loop now (Database.db_keys_of (access_keys st0)) listing st))
  = forallb (syncable st0) listing.
Proof.
  revert st. induction listing as [| key rest IH]; intros st; [reflexivity |].
  cbn [Database.sync_loop forallb]. rewrite <- (sync_key_is_ok_syncable now key st0 st).
  destruct (Database.sync_key now _ key st) as [st1 | e]; [apply IH | reflexivity].
Qed.

(** The loop stops at the first key whose step raises. *)
Lemma sync_loop_stops (now : Z) (st0 : Store) (pre : list KeyJson) (bad : KeyJson)
      (post : list KeyJson) (st : Store) :
  forallb (syncable st0) pre = true -> syncable st0 bad = false ->
  exists e,
    Database.sync_loop now (Database.db_keys_of (access_keys st0)) (pre ++ bad :: post) st
    = (Raise e, snd (Database.sync_loop now (Database.db_keys_of (access_keys st0)) pre st)).
Proof.
  revert st. induction pre as [| key pre IH]; intros st Hpre Hbad.
  - cbn [app Database.sync_loop snd].
    pose proof (sync_key_is_ok_syncable now bad st0 st) as H. rewrite Hbad in H.
    destruct (Database.sync_key now _ bad st) as [st1 | e]; [discriminate | now exists e].
  - cbn [forallb] in Hpre. apply andb_true_iff in Hpre as [Hkey Hpre].
    cbn [app Database.sync_loop].
    pose proof (sync_key_is_ok_syncable now key st0 st) as H. rewrite Hkey in H.
    destruct (Database.sync_key now _ key st) as [st1 | e]; [| discriminate].
    now apply IH.
Qed.

(** X10.  The loop of a pass runs to its end exactly when every listed
    key can be handled: it has an id and either rows in the table as it was
    before the pass (and then a limit that is the stored one or fits an
    SQLite integer), or an id that reads as an integer whose negation fits,
    together with an access URL and a limit that fits.  Otherwise the loop
    ends in an exception at the first key that cannot be handled, and the
    keys after it are not looked at: the tables are as after a pass over the
    keys before it.  The key ids are texts of ASCII characters. *)
Theorem sync_result_ok_iff (now : Z) (listing : list KeyJson) (st : Store) :
  ascii_ids listing = true ->
  (sync_result now listing st = Ok tt <-> forallb (syncable st) listing = true)
  /\ (forall pre bad post,
         listing = (pre ++ bad :: post)%list ->
         forallb (syncable st) pre = true -> syncable st bad = false ->
         (exists e, sync_result now listing st = Raise e)
         /\ Database.sync_store now listing st = Database.sync_store now pre st).
Proof.
  intros _. unfold sync_result, Database.sync_store. split.
  - rewrite <- (sync_loop_is_ok now st listing st).
    destruct (fst (Database.sync_loop _ _ _ _)) as [[] | e]; cbn; split; congruence.
  - intros pre bad post -> Hpre Hbad.
    destruct (sync_loop_stops now st pre bad post st Hpre Hbad) as (e & ->).
    split; [now exists e | reflexivity].
Qed.

(** Key 1 is in the table.  A listing of the keys 1 and 2 is passed over
    to its end; in a listing of key 1, a key whose id is no number, and key 2,
    the pass stops at the second key and key 2 gets no row. *)
Lemma sync_result_ok_iff_witness :
  sync_result 5 two_keys (mkStore [] (keys_of alice ["1"]) []) = Ok tt
  /\ Database.sync_store 5 [remote_key "1" (Some 5); remote_key "x" None; remote_key "2" None]
                         (mkStore [] (keys_of alice ["1"]) [])
     = Database.sync_store 5 [remote_key "1" (Some 5)] (mkStore [] (keys_of alice ["1"]) []).
Proof.
  split.
  - apply (sync_result_ok_iff 5 two_keys (mkStore [] (keys_of alice ["1"]) []) eq_refl).
    reflexivity.
  - apply (proj2 (sync_result_ok_iff 5 [remote_key "1" (Some 5); remote_key "x" None;
                                        remote_key "2" None]
                                     (mkStore [] (keys_of alice ["1"]) []) eq_refl)
                 [remote_key "1" (Some 5)] (remote_key "x" None) [remote_key "2" None]);
      reflexivity.
Defined.

Lemma last_limit_NoDup (rows : list KeyRow) (i : string) (v : Z) (r : KeyRow) :
  NoDup (map k_key_id rows) -> last_limit rows i = Some v ->
  r ∈ rows -> k_key_id r = i -> k_data_limit r = v.
Proof.
  induction rows as [| r0 rows IH]; intros Hnd Hl Hin Hk; [now apply elem_of_nil in Hin |].
  cbn in Hnd, Hl. apply NoDup_cons in Hnd as [Hfresh Hnd].
  apply elem_of_cons in Hin as [-> | Hin].
  - assert (Hnone : last_limit rows i = None).
    { apply last_limit_None. now rewrite <- Hk. }
    rewrite Hnone in Hl.
    assert (E : Database.has_key_id i r0 = true) by now apply has_key_id_true.
    rewrite E in Hl. congruence.
  - destruct (last_limit rows i) eqn:Hr; [injection Hl as ->; now apply IH |].
    exfalso. apply last_limit_None in Hr. apply Hr.
    apply list_elem_of_fmap. exists r. auto.
Qed.

Lemma sync_loop_limits (now : Z) (dbk : gmap string Z) (listing : list KeyJson) (st : Store) :
  NoDup (listed_ids listing) ->
  (forall i, i ∈ listed_ids listing -> dbk !! i = last_limit (access_keys st) i) ->
  fst (Database.sync_loop now dbk listing st) = Ok tt ->
  forall key, key ∈ listing ->
    exists i, j_id key = Some i
              /\ last_limit (access_keys (snd (Database.sync_loop now dbk listing st))) i
                 = Some (Database.data_limit_of key).
Proof.
  revert st. induction listing as [| key0 rest IH]; intros st Hnd Hagree Hok key Hin;
    [now apply elem_of_nil in Hin |].
  cbn [Database.sync_loop] in Hok |- *.
  destruct (Database.sync_key now dbk key0 st) as [st1 | e] eqn:Hs; [| discriminate].
  destruct (j_id key0) as [i0 |] eqn:Hi;
    [| rewrite (sync_key_no_id _ _ _ _ Hi) in Hs; discriminate].
  unfold listed_ids in *. cbn in Hnd, Hagree. rewrite Hi in Hnd, Hagree. cbn in Hnd, Hagree.
  apply NoDup_cons in Hnd as [Hfresh Hnd].
  destruct (sync_key_effect _ _ _ _ _ _ Hi Hs) as [Hother Hsame].
  apply elem_of_cons in Hin as [-> | Hin].
  - exists i0. split; [exact Hi |].
    rewrite sync_loop_other by exact Hfresh.
    apply Hsame, Hagree, list_elem_of_here.
  - apply IH; [exact Hnd | | exact Hok | exact Hin].
    intros j Hj. rewrite Hother by (intros ->; contradiction).
    apply Hagree. now apply list_elem_of_further.
Qed.

(** X11.  After a pass whose loop ran to its end over a listing without
    repeated key ids, the limit the next pass reads from the table for a
    listed key (the dict [db_keys]) is the limit of the listing, 0 for a key
    listed without one; and in a table without repeated key ids every row of
    a listed key has that limit. *)
Theorem sync_store_limits_agree (now : Z) (listing : list KeyJson) (st : Store) :
  NoDup (listed_ids listing) ->
  sync_result now listing st = Ok tt ->
  forall key, key ∈ listing ->
    exists key_id,
      j_id key = Some key_id
      /\ Database.db_keys_of (access_keys (Database.sync_store now listing st)) !! key_id
         = Some (Database.data_limit_of key)
      /\ (NoDup (key_ids st) ->
          forall row, row ∈ access_keys (Database.sync_store now listing st) ->
                      k_key_id row = key_id ->
                      k_data_limit row = Database.data_limit_of key).
Proof.
  intros Hnd Hok key Hin. unfold sync_result in Hok. unfold Database.sync_store.
  assert (Hagree : forall i, i ∈ listed_ids listing ->
                             Database.db_keys_of (access_keys st) !! i
                             = last_limit (access_keys st) i)
    by (intros i _; apply db_keys_of_lookup).
  destruct (sync_loop_limits _ _ _ _ Hnd Hagree Hok key Hin) as (i & Hi & Hl).
  exists i. split; [exact Hi |]. split; [now rewrite db_keys_of_lookup |].
  intros Hst row Hrow Hk.
  apply (last_limit_NoDup _ i _ row) in Hl; [exact Hl | | exact Hrow | exact Hk].
  now apply sync_loop_key_ids.
Qed.

(** The table has key 1 without a limit; the server lists it with 5 bytes
    and lists a key 2 the table does not have. *)
Lemma sync_store_limits_agree_witness :
  Database.db_keys_of
    (access_keys (Database.sync_store 5 two_keys (mkStore [] (keys_of alice ["1"; "7"]) [])))
    !! "1" = Some 5.
Proof.
  assert (Hnd : NoDup (listed_ids two_keys)).
  { apply (bool_decide_unpack _). vm_compute. exact I. }
  assert (Hok : sync_result 5 two_keys (mkStore [] (keys_of alice ["1"; "7"]) []) = Ok tt)
    by (vm_compute; reflexivity).
  assert (Hin : remote_key "1" (Some 5) ∈ two_keys) by apply list_elem_of_here.
  destruct (sync_store_limits_agree 5 two_keys _ Hnd Hok _ Hin) as (i & Hi & Hl & _).
  injection Hi as <-. exact Hl.
Defined.

(** ** Listing the keys of the server *)

Lemma get_access_keys_detail (key : KeyJson) (w : World) :
  exists key',
    match j_id key with
    | Some id =>
        try_except
          (key_info ← OutlineAPI.get_access_key id;
           match j_dataLimit key_info with
           | Some limit => ret (OutlineAPI.set_dataLimit limit key)
           | None => ret key
           end)
          (fun _ => ret key)
    | None => ret key
    end w
    = (Ok key', set_requests (fun h => (h ++ map GET_access_key (listed_ids [key]))%list) w)
    /\ same_but_dataLimit key key'.
Proof.
  unfold listed_ids. cbn [omap list_omap].
  destruct (j_id key) as [id |]; cbn [map].
  - unfold OutlineAPI.get_access_key. unfold_M.
    destruct (oracle w (requests w) (GET_access_key id)) as [resp |] eqn:E.
    + rewrite (_request_ok _ _ _ E).
      destruct (j_dataLimit (r_key resp)) as [limit |]; eexists; split; try reflexivity;
        repeat split.
    + rewrite (_request_fail _ _ E). eexists; split; try reflexivity; repeat split.
  - exists key. split; [| repeat split]. unfold ret. f_equal. apply set_requests_nil.
Qed.

Lemma get_access_keys_details (keys : list KeyJson) (w : World) :
  exists keys',
    map_M (fun key =>
             match j_id key with
             | Some id =>
                 try_except
                   (key_info ← OutlineAPI.get_access_key id;
                    match j_dataLimit key_info with
                    | Some limit => ret (OutlineAPI.set_dataLimit limit key)
                    | None => ret key
                    end)
                   (fun _ => ret key)
             | None => ret key
             end) keys w
    = (Ok keys', set_requests (fun h => (h ++ map GET_access_key (listed_ids keys))%list) w)
    /\ Forall2 same_but_dataLimit keys keys'.
Proof.
  revert w. induction keys as [| key rest IH]; intros w.
  - exists []. split; [| constructor]. cbn. unfold ret. f_equal. apply set_requests_nil.
  - destruct (get_access_keys_detail key w) as (key' & Hkey & Hrel1).
    destruct (IH (set_requests
                    (fun h => (h ++ map GET_access_key (listed_ids [key]))%list) w))
      as (keys' & Hrun & Hrel).
    exists (key' :: keys'). split; [| now constructor].
    cbn [map_M]. unfold mbind at 1. unfold M_bind at 1. unfold bind at 1.
    rewrite Hkey. unfold mbind at 1. unfold M_bind at 1. unfold bind at 1.
    rewrite Hrun. unfold mret, M_ret, ret. f_equal. rewrite set_requests_app.
    f_equal. unfold listed_ids. cbn [omap list_omap].
    destruct (j_id key); cbn; reflexivity.
Qed.

Lemma get_access_keys_run (w : World) :
  match oracle w (requests w) GET_access_keys with
  | None =>
      OutlineAPI.get_access_keys w
      = (Raise RequestError, set_requests (fun h => (h ++ [GET_access_keys])%list) w)
  | Some response =>
      let keys := default [] (r_accessKeys response) in
      exists keys',
        OutlineAPI.get_access_keys w
        = (Ok keys',
           set_requests
             (fun h => (h ++ GET_access_keys :: map GET_access_key (listed_ids keys))%list) w)
        /\ Forall2 same_but_dataLimit keys keys'
  end.
Proof.
  destruct (oracle w (requests w) GET_access_keys) as [response |] eqn:E;
    unfold OutlineAPI.get_access_keys; unfold mbind at 1; unfold M_bind at 1;
    unfold bind at 1.
  - rewrite (_request_ok _ _ _ E). cbv zeta.
    destruct (get_access_keys_details (default [] (r_accessKeys response))
                (set_requests (fun h => (h ++ [GET_access_keys])%list) w))
      as (keys' & Hrun & Hrel).
    exists keys'. split; [| exact Hrel].
    rewrite Hrun. f_equal. apply set_requests_app.
  - now rewrite (_request_fail _ _ E).
Qed.

(** X12.  [get_access_keys] raises exactly when the listing request
    fails.  Otherwise it returns as many key dicts as the server listed, in
    the same order, each with the id, name, URL and usage fields of the
    listing (only ['dataLimit'] can differ), after one request for the
    listing and one detail request for every listed key that has an id, in
    the order of the listing; a detail request that fails is passed over.
    Nothing but the request history changes. *)
Theorem get_access_keys_shape (w : World) :
  let r := OutlineAPI.get_access_keys w in
  match oracle w (requests w) GET_access_keys with
  | None => fst r = Raise RequestError
            /\ requests (snd r) = (requests w ++ [GET_access_keys])%list
  | Some response =>
      let keys := default [] (r_accessKeys response) in
      exists keys',
        fst r = Ok keys'
        /\ Forall2 same_but_dataLimit keys keys'
        /\ requests (snd r)
           = (requests w ++ GET_access_keys :: map GET_access_key (listed_ids keys))%list
  end
  /\ snd r = set_requests (fun _ => requests (snd r)) w.
Proof.
  cbv zeta. pose proof (get_access_keys_run w) as H.
  destruct (oracle w (requests w) GET_access_keys) as [response |].
  - destruct H as (keys' & -> & Hrel). split; [| reflexivity].
    exists keys'. auto.
  - rewrite H. auto.
Qed.

(** The server lists two keys and answers no detail request. *)
Example get_access_keys_passes_over_failures :
  let r := OutlineAPI.get_access_keys (world_of (server_lists two_keys) empty_store ∅) in
  fst r = Ok two_keys
  /\ requests (snd r) = [GET_access_keys; GET_access_key "1"; GET_access_key "2"].
Proof. split; reflexivity. Qed.

Lemma Forall_is_read_details (ids : list string) :
  Forall (fun req => is_read req = true) (map GET_access_key ids).
Proof. induction ids; constructor; auto. Qed.

(** X13.  [sync_keys_with_server] never raises.  It only reads from the
    server: its first request is the listing and all its requests are GETs.
    It leaves the pending flows, the sent messages and the activity log
    alone, and of the two other tables it keeps every row in place (up to the
    limit of a key row).  When the listing request fails, the tables are
    exactly as before. *)
Theorem sync_keys_with_server_safe (w : World) :
  let r := Database.sync_keys_with_server w in
  fst r = Ok tt
  /\ (exists sent, requests (snd r) = (requests w ++ GET_access_keys :: sent)%list
                   /\ Forall (fun req => is_read req = true) sent)
  /\ user_states (snd r) = user_states w /\ outbox (snd r) = outbox w
  /\ activity_log (db (snd r)) = activity_log (db w)
  /\ limit_blind (access_keys (db w)) `prefix_of` limit_blind (access_keys (db (snd r)))
  /\ users (db w) `prefix_of` users (db (snd r))
  /\ (oracle w (requests w) GET_access_keys = None -> db (snd r) = db w).
Proof.
  cbv zeta. unfold Database.sync_keys_with_server, Database.sync_listing.
  unfold_M. pose proof (get_access_keys_run w) as H.
  destruct (oracle w (requests w) GET_access_keys) as [response |].
  - destruct H as (keys' & -> & _). cbn.
    pose proof (sync_loop_frame (time_now w) (Database.db_keys_of (access_keys (db w)))
                                keys' (db w)) as (K & U & L & _).
    destruct (Database.sync_loop _ _ keys' (db w)) as [[[] | e] st']; cbn in *.
    + split; [reflexivity |]. split; [eexists; split; [reflexivity |] |].
      * apply Forall_is_read_details.
      * repeat split; auto. discriminate.
    + split; [reflexivity |]. split; [eexists; split; [reflexivity |] |].
      * apply Forall_is_read_details.
      * repeat split; auto. discriminate.
  - rewrite H. cbn. split; [reflexivity |]. split; [exists []; split; [reflexivity | constructor] |].
    repeat split; reflexivity.
Qed.

(** ** What the handlers leave as it is *)

Section Frame.

Context (R : relation World) {HR : PreOrder R}.

Lemma keeps_ret {A} (a : A) : keeps R (ret a).
Proof. intros w. reflexivity. Qed.

Lemma keeps_raise {A} (e : exn) : keeps R (raise (A := A) e).
Proof. intros w. reflexivity. Qed.

Lemma keeps_lift {A} (r : py A) : keeps R (lift r).
Proof. intros w. reflexivity. Qed.

Lemma keeps_gets {A} (f : World -> A) : keeps R (gets f).
Proof. intros w. reflexivity. Qed.

Lemma keeps_bind {A B} (m : M A) (k : A -> M B) :
  keeps R m -> (forall a, keeps R (k a)) -> keeps R (bind m k).
Proof.
  intros Hm Hk w. unfold bind. specialize (Hm w).
  destruct (m w) as [[a | e] w1]; cbn in *; [| exact Hm].
  transitivity w1; [exact Hm | apply Hk].
Qed.

Lemma keeps_try {A} (m : M A) (h : exn -> M A) :
  keeps R m -> (forall e, keeps R (h e)) -> keeps R (try_except m h).
Proof.
  intros Hm Hh w. unfold try_except. specialize (Hm w).
  destruct (m w) as [[a | e] w1]; cbn in *; [exact Hm |].
  transitivity w1; [exact Hm | apply Hh].
Qed.

Lemma keeps_try_ValueError {A} (m : M A) (h : M A) :
  keeps R m -> keeps R h -> keeps R (try_except_ValueError m h).
Proof.
  intros Hm Hh w. unfold try_except_ValueError. specialize (Hm w).
  destruct (m w) as [[a | e] w1]; cbn in *; [exact Hm |].
  destruct e; try exact Hm. transitivity w1; [exact Hm | apply Hh].
Qed.

Lemma keeps_modify (f : World -> World) : (forall w, R w (f w)) -> keeps R (modify f).
Proof. intros Hf w. apply Hf. Qed.

End Frame.

Lemma other_state_preorder (other : Z) : PreOrder (other_state other).
Proof.
  split; [intros w; reflexivity |].
  intros w1 w2 w3 H1 H2. unfold other_state in *. congruence.
Qed.

Lemma same_tables_preorder : PreOrder same_tables.
Proof.
  split; [intros w; repeat split; reflexivity |].
  intros w1 w2 w3 (U1 & K1 & L1) (U2 & K2 & L2). unfold same_tables.
  split; [congruence |]. split; [congruence |]. now transitivity (activity_log (db w2)).
Qed.

Lemma no_request_preorder : PreOrder no_request.
Proof.
  split; [intros w; reflexivity |].
  intros w1 w2 w3 H1 H2. unfold no_request in *. congruence.
Qed.

Lemma reads_only_preorder : PreOrder reads_only.
Proof.
  split.
  - intros w. exists []. split; [now rewrite app_nil_r | constructor].
  - intros w1 w2 w3 (s1 & E1 & F1) (s2 & E2 & F2). exists (s1 ++ s2)%list.
    split; [rewrite E2, E1; now rewrite app_assoc | now apply Forall_app].
Qed.

#[local] Existing Instances other_state_preorder same_tables_preorder
  no_request_preorder reads_only_preorder.

Create HintDb frame.

(** Splits a computation into its primitive steps. *)
Ltac frame_step :=
  first
    [ solve [auto with frame]
    | apply keeps_ret; typeclasses eauto
    | apply keeps_raise; typeclasses eauto
    | apply keeps_lift; typeclasses eauto
    | apply keeps_gets; typeclasses eauto
    | apply keeps_try_ValueError; [typeclasses eauto | |]
    | apply keeps_try; [typeclasses eauto | | intros ?]
    | apply keeps_bind; [typeclasses eauto | | intros ?]
    | match goal with
      | |- keeps _ (if ?b then _ else _) => destruct b
      | |- keeps _ (match ?x with _ => _ end) => destruct x
      | |- keeps _ (let '(_, _) := ?x in _) => destruct x
      end ].

Ltac frame := unfold mbind, M_bind, mret, M_ret; cbv zeta; repeat frame_step.

(** *** The primitive steps *)

Lemma bot_other_state (other : Z) (a : BotAction) : keeps (other_state other) (bot a).
Proof. intros w. unfold other_state. reflexivity. Qed.

Lemma bot_same_tables (a : BotAction) : keeps same_tables (bot a).
Proof. intros w. unfold same_tables. cbn. repeat split; reflexivity. Qed.

Lemma bot_no_request (a : BotAction) : keeps no_request (bot a).
Proof. intros w. unfold no_request. reflexivity. Qed.

Lemma bot_reads_only (a : BotAction) : keeps reads_only (bot a).
Proof. intros w. exists []. cbn. split; [now rewrite app_nil_r | constructor]. Qed.

Lemma log_other_state (other user_id : Z) (action details : string) :
  keeps (other_state other) (db_log_activity user_id action details).
Proof. intros w. unfold other_state. reflexivity. Qed.

Lemma log_no_request (user_id : Z) (action details : string) :
  keeps no_request (db_log_activity user_id action details).
Proof. intros w. unfold no_request. reflexivity. Qed.

Lemma log_reads_only (user_id : Z) (action details : string) :
  keeps reads_only (db_log_activity user_id action details).
Proof. intros w. exists []. cbn. split; [now rewrite app_nil_r | constructor]. Qed.

Lemma log_same_tables (user_id : Z) (action details : string) :
  keeps same_tables (db_log_activity user_id action details).
Proof.
  intros w. unfold db_log_activity, modify, Database.log_activity. cbn.
  unfold same_tables.
  destruct (negb (ENABLE_ACCESS_LOG (config w))); cbn; [repeat split; reflexivity |].
  repeat split. now apply prefix_app_r.
Qed.

Lemma db_call_missing (R : relation World) {HR : PreOrder R} (name : string)
      (args : list Database.value) :
  Database.has_attribute name = false -> keeps R (db_call name args).
Proof.
  intros H w. unfold db_call, Database.call. rewrite H. cbn. reflexivity.
Qed.

Lemma states_other_state (other user_id : Z) (f : gmap Z UserState -> gmap Z UserState) :
  user_id <> other ->
  (forall m, f m = delete user_id m \/ exists us, f m = <[user_id := us]> m) ->
  keeps (other_state other) (modify (set_user_states f)).
Proof.
  intros Hne Hf w. unfold other_state, modify, set_user_states. cbn.
  destruct (Hf (user_states w)) as [-> | [us ->]].
  - now apply lookup_delete_ne.
  - now apply lookup_insert_ne.
Qed.

Lemma states_same_tables (f : gmap Z UserState -> gmap Z UserState) :
  keeps same_tables (modify (set_user_states f)).
Proof. intros w. unfold same_tables. cbn. repeat split; reflexivity. Qed.

Lemma states_no_request (f : gmap Z UserState -> gmap Z UserState) :
  keeps no_request (modify (set_user_states f)).
Proof. intros w. unfold no_request. reflexivity. Qed.

Lemma states_reads_only (f : gmap Z UserState -> gmap Z UserState) :
  keeps reads_only (modify (set_user_states f)).
Proof. intros w. exists []. cbn. split; [now rewrite app_nil_r | constructor]. Qed.

Lemma remote_only_keeps (R : relation World) {A} (m : M A) :
  (forall w sent, R w (set_requests (fun h => (h ++ sent)%list) w)) ->
  remote_only m -> keeps R m.
Proof. intros HR Hm w. destruct (Hm w) as [sent ->]. apply HR. Qed.

Lemma remote_only_other_state (other : Z) {A} (m : M A) :
  remote_only m -> keeps (other_state other) m.
Proof. apply remote_only_keeps. intros w sent. unfold other_state. reflexivity. Qed.

Lemma remote_only_same_tables {A} (m : M A) : remote_only m -> keeps same_tables m.
Proof.
  apply remote_only_keeps. intros w sent. unfold same_tables. cbn. repeat split; reflexivity.
Qed.

Lemma request_reads_only (req : Request) :
  is_read req = true -> keeps reads_only (OutlineAPI._request req).
Proof.
  intros H w. exists [req]. unfold OutlineAPI._request.
  destruct (oracle w (requests w) req); cbn; (split; [reflexivity | now constructor]).
Qed.

Lemma format_key_info_reads_only (key : KeyRow) : keeps reads_only (format_key_info key).
Proof.
  unfold format_key_info, OutlineAPI.get_key_data_usage, OutlineAPI.get_server_transfer_stats,
    OutlineAPI.get_metrics, OutlineAPI.get_access_key.
  frame; now apply request_reads_only.
Qed.

#[local] Hint Resolve bot_other_state bot_same_tables bot_no_request bot_reads_only
  log_other_state log_no_request log_reads_only log_same_tables
  states_same_tables states_no_request states_reads_only
  format_key_info_reads_only remote_only_format_key_info remote_only_set_data_limit
  remote_only_other_state remote_only_same_tables : frame.

Lemma sync_keys_with_server_run (w : World) :
  exists sent listing,
    Forall (fun req => is_read req = true) sent
    /\ snd (Database.sync_keys_with_server w)
       = set_db (fun _ => snd (Database.sync_loop (time_now w)
                                 (Database.db_keys_of (access_keys (db w))) listing (db w)))
                (set_requests (fun h => (h ++ sent)%list) w).
Proof.
  unfold Database.sync_keys_with_server, Database.sync_listing.
  unfold_M. pose proof (get_access_keys_run w) as H.
  destruct (oracle w (requests w) GET_access_keys) as [response |].
  - destruct H as (keys' & -> & _). cbn.
    exists (GET_access_keys
              :: map GET_access_key (listed_ids (default [] (r_accessKeys response)))), keys'.
    split.
    + apply List.Forall_cons; [reflexivity | apply Forall_is_read_details].
    + destruct (Database.sync_loop _ _ keys' (db w)) as [[[] | e] st']; reflexivity.
  - rewrite H. cbn. exists [GET_access_keys], []. split; [now constructor |].
    cbn. now destruct w.
Qed.

Lemma sync_other_state (other : Z) : keeps (other_state other) Database.sync_keys_with_server.
Proof.
  intros w. destruct (sync_keys_with_server_run w) as (sent & listing & _ & ->).
  unfold other_state. reflexivity.
Qed.

Lemma sync_reads_only : keeps reads_only Database.sync_keys_with_server.
Proof.
  intros w. destruct (sync_keys_with_server_run w) as (sent & listing & Hr & ->).
  exists sent. split; [reflexivity | exact Hr].
Qed.

#[local] Hint Resolve sync_other_state sync_reads_only : frame.

Lemma set_db_other_state (other : Z) (f : World -> Store -> Store) :
  keeps (other_state other) (modify (fun w => set_db (f w) w)).
Proof. intros w. unfold other_state. reflexivity. Qed.

Lemma set_db_no_request (f : World -> Store -> Store) :
  keeps no_request (modify (fun w => set_db (f w) w)).
Proof. intros w. unfold no_request. reflexivity. Qed.

Lemma request_other_state (other : Z) (req : Request) :
  keeps (other_state other) (OutlineAPI._request req).
Proof. apply remote_only_other_state, remote_only_request. Qed.

Lemma request_same_tables (req : Request) : keeps same_tables (OutlineAPI._request req).
Proof. apply remote_only_same_tables, remote_only_request. Qed.

#[local] Hint Resolve set_db_other_state set_db_no_request request_other_state
  request_same_tables : frame.

#[local] Hint Extern 1 (keeps _ (db_call _ _)) =>
  apply db_call_missing; [typeclasses eauto | reflexivity] : frame.

#[local] Hint Extern 1 (keeps (other_state _) (modify (set_user_states _))) =>
  eapply states_other_state; [eassumption | intros ?; eauto] : frame.

Ltac unfold_handlers :=
  unfold start_command, help_command, unknown_message, process_limit_input,
    process_date_input, handle_key_name_input, create_key_callback, key_info_callback,
    back_to_main_callback, set_limit_callback, set_paid_callback, start_flow,
    delete_key_callback, my_keys_callback, all_keys_callback, Database.get_all_keys,
    finish_flow, get_key_by_id, db_is_admin, db_save_access_key,
    OutlineAPI.create_access_key, OutlineAPI.delete_access_key.

(** X14.  A handler changes the flow entry of nobody but the sender of the
    message or of the button press: for every handler of the bot and every
    other actor, the entry of that actor in [user_states] is after the
    handler what it was before, whatever the handler did and however it
    ended. *)
Theorem handlers_keep_other_states (profile : Database.UserData) (other : Z) :
  Forall (fun h : Message -> M unit =>
            forall message, from_user message <> other ->
                            forall w, user_states (snd (h message w)) !! other
                                      = user_states w !! other)
         (message_handlers profile)
  /\ Forall (fun h : CallbackQuery -> M unit =>
               forall call, call_from_user call <> other ->
                            forall w, user_states (snd (h call w)) !! other
                                      = user_states w !! other)
            callback_handlers.
Proof.
  split.
  - unfold message_handlers.
    repeat apply List.Forall_cons; try apply List.Forall_nil;
      intros message Hne; refine (_ : keeps (other_state other) _);
      unfold_handlers; frame; eauto with frame.
  - unfold callback_handlers.
    repeat apply List.Forall_cons; try apply List.Forall_nil;
      intros call Hne; refine (_ : keeps (other_state other) _);
      unfold_handlers; frame; eauto with frame.
Qed.

Lemma delete_access_key_same_tables (key_id : string) :
  keeps same_tables (OutlineAPI.delete_access_key key_id).
Proof.
  unfold OutlineAPI.delete_access_key. frame; eauto with frame.
Qed.

#[local] Hint Resolve delete_access_key_same_tables : frame.

(** X15.  Which handler writes which table.  The key table is written by
    [handle_key_name_input] and the users table by [start_command]; the
    reconciliation that [all_keys_callback] runs for an administrator only
    adds rows to the two tables and adjusts limits (for anyone else it leaves
    them as they are).  Every other handler leaves both tables exactly as they
    were and at most appends to the activity log; this includes the handlers
    of the limit, of the paid-until date and of the delete button.
    [start_command] leaves the key table as it was, and
    [handle_key_name_input] the users table. *)
Theorem handlers_keep_tables :
  Forall (fun h : Message -> M unit => forall message w, same_tables w (snd (h message w)))
         [help_command; process_limit_input; process_date_input; unknown_message]
  /\ Forall (fun h : CallbackQuery -> M unit => forall call w, same_tables w (snd (h call w)))
            [create_key_callback; my_keys_callback; key_info_callback;
             back_to_main_callback; set_limit_callback; set_paid_callback;
             delete_key_callback]
  /\ (forall message profile w,
         access_keys (db (snd (start_command message profile w))) = access_keys (db w))
  /\ (forall message w,
         users (db (snd (handle_key_name_input message w))) = users (db w))
  /\ (forall call w,
         let w' := snd (all_keys_callback call w) in
         limit_blind (access_keys (db w)) `prefix_of` limit_blind (access_keys (db w'))
         /\ users (db w) `prefix_of` users (db w')
         /\ activity_log (db w') = activity_log (db w)
         /\ (Database.is_admin (config w) (db w) (call_from_user call) = false ->
             db w' = db w)).
Proof.
  split; [| split; [| split; [| split]]].
  - repeat apply List.Forall_cons; try apply List.Forall_nil;
      intros message; refine (_ : keeps same_tables _);
      unfold_handlers; frame; eauto with frame.
  - repeat apply List.Forall_cons; try apply List.Forall_nil;
      intros call; refine (_ : keeps same_tables _);
      unfold_handlers; frame; eauto with frame.
  - intros message profile w. unfold start_command, db_log_activity, bot. unfold_M. cbn.
    unfold Database.log_activity, Database.save_user. cbn.
    destruct (negb _); destruct (from_user message =? 0); try reflexivity;
      destruct (Database.get_user _ _); reflexivity.
  - intros message w. unfold handle_key_name_input, db_save_access_key, db_log_activity, bot,
      OutlineAPI.create_access_key.
    unfold_M. cbn.
    destruct (user_states w !! from_user message) as [us |]; [| reflexivity].
    destruct (negb _); [reflexivity |].
    match goal with
    | |- context [OutlineAPI._request ?req w] => case_request req w
    end; cbn; [| reflexivity].
    unfold Database.log_activity, Database.save_access_key. cbn.
    destruct (negb _); destruct (j_id (r_key r)); cbn; try reflexivity;
      destruct (List.find _ _); reflexivity.
  - intros call w. cbv zeta. unfold all_keys_callback, Database.get_all_keys, db_is_admin, bot.
    unfold_M. cbn.
    destruct (Database.is_admin (config w) (db w) (call_from_user call)); cbn;
      [| repeat split; reflexivity].
    destruct (sync_keys_with_server_run w) as (sent & listing & _ & Hw).
    pose proof (sync_loop_frame (time_now w) (Database.db_keys_of (access_keys (db w)))
                                listing (db w)) as (K & U & L & _).
    destruct (Database.sync_keys_with_server w) as [[[] | e] w1]; cbn in *; subst w1; cbn.
    + assert (D : forall (f g : M unit) (l : list KeyRow) w0,
                 db (snd (f w0)) = db w0 -> db (snd (g w0)) = db w0 ->
                 db (snd (match l with [] => f | _ :: _ => g end w0)) = db w0)
        by (intros f g [] w0; auto).
      rewrite D by reflexivity. cbn.
      split; [exact K |]. split; [exact U |]. split; [exact L | discriminate].
    + split; [exact K |]. split; [exact U |]. split; [exact L | discriminate].
Qed.

(** X16.  Only three handlers ever write to the server (the name input,
    the limit input and the delete button).  These handlers make no request
    at all: [start_command], [help_command], [process_date_input],
    [unknown_message], [create_key_callback], [my_keys_callback],
    [back_to_main_callback], [set_limit_callback] and [set_paid_callback];
    every request of [key_info_callback] and of [all_keys_callback] is a
    GET, and [all_keys_callback] makes none for an actor who is not an
    administrator. *)
Theorem handlers_requests (profile : Database.UserData) :
  Forall (fun h : Message -> M unit =>
            forall message w, requests (snd (h message w)) = requests w)
         [fun message => start_command message profile; help_command;
          process_date_input; unknown_message]
  /\ Forall (fun h : CallbackQuery -> M unit =>
               forall call w, requests (snd (h call w)) = requests w)
            [create_key_callback; my_keys_callback; back_to_main_callback;
             set_limit_callback; set_paid_callback]
  /\ Forall (fun h : CallbackQuery -> M unit =>
               forall call w,
                 exists sent,
                   requests (snd (h call w)) = (requests w ++ sent)%list
                   /\ Forall (fun req => is_read req = true) sent)
            [key_info_callback; all_keys_callback]
  /\ (forall call w,
         Database.is_admin (config w) (db w) (call_from_user call) = false ->
         requests (snd (all_keys_callback call w)) = requests w).
Proof.
  split; [| split; [| split]].
  - repeat apply List.Forall_cons; try apply List.Forall_nil;
      try (intros message w; apply process_date_input_raises_or_returns);
      intros message; refine (_ : keeps no_request _);
      unfold_handlers; frame; eauto with frame.
  - repeat apply List.Forall_cons; try apply List.Forall_nil;
      intros call; refine (_ : keeps no_request _);
      unfold_handlers; frame; eauto with frame.
  - repeat apply List.Forall_cons; try apply List.Forall_nil;
      intros call; refine (_ : keeps reads_only _);
      unfold_handlers; frame; eauto with frame; now apply request_reads_only.
  - intros call w H. unfold all_keys_callback, db_is_admin, bot. unfold_M. cbn.
    now rewrite H.
Qed.

(** ** The name of a new key *)

Lemma save_access_key_owner (now : Z) (st : Store) (user_id : Z) (key_data : KeyJson)
      (paid_until : option Z) (data_limit : Z) (key_id : string) :
  j_id key_data = Some key_id ->
  let st' := snd (Database.save_access_key now st user_id key_data paid_until data_limit) in
  Database.get_key_owner st' key_id = Some user_id
  /\ (known st key_id = false ->
      Database.count_user_keys st' user_id = Database.count_user_keys st user_id + 1)
  /\ (forall k, k <> key_id -> Database.get_key_owner st' k = Database.get_key_owner st k).
Proof.
  intros Hid. cbv zeta. unfold Database.save_access_key. rewrite Hid.
  change (default "" (Some key_id)) with key_id.
  fold (saved_over user_id key_data paid_until data_limit).
  unfold known, Database.get_key_owner, Database.count_user_keys.
  destruct (List.find (Database.has_key_id key_id) (access_keys st)) as [old |] eqn:Hf;
    cbn [fst snd Database.set_access_keys access_keys users activity_log].
  - split; [| split].
    + rewrite find_update_where by apply keeps_saved_over. now rewrite Hf.
    + intros Hk. apply touched_false_ids, find_key_None in Hk. congruence.
    + intros k Hne. rewrite find_update_where_other; [reflexivity | apply keeps_saved_over |].
      exact Hne.
  - split; [| split].
    + rewrite find_app_new, Hf. cbn. now rewrite String.eqb_refl.
    + intros _. rewrite List.filter_app, length_app. cbn. rewrite Z.eqb_refl. cbn. lia.
    + intros k Hne. rewrite find_app_new.
      destruct (List.find (Database.has_key_id k) _); [reflexivity |].
      cbn. destruct (String.eqb_spec key_id k); [congruence | reflexivity].
Qed.



(** ** Callback data *)

Lemma split_chars_no_sep (sep : ascii) (l cur : list ascii) :
  forallb (fun c => negb (Ascii.eqb c sep)) l = true ->
  split_chars sep cur l = [(rev cur ++ l)%list].
Proof.
  revert cur. induction l as [| c l IH]; intros cur H; cbn in *.
  - now rewrite app_nil_r.
  - apply andb_true_iff in H as [Hc Hl]. apply negb_true_iff in Hc. rewrite Hc.
    rewrite (IH _ Hl). cbn. now rewrite <- app_assoc.
Qed.

Lemma split_prefixed (key_id : string) :
  no_underscore key_id = true ->
  split "_" ("key_" ++ key_id) = ["key"; key_id]
  /\ split "_" ("delete_" ++ key_id) = ["delete"; key_id]
  /\ split "_" ("set_limit_" ++ key_id) = ["set"; "limit"; key_id]
  /\ split "_" ("set_paid_" ++ key_id) = ["set"; "paid"; key_id].
Proof.
  intros H. unfold split. cbv beta iota fix delta [String.append]. cbn.
  rewrite (split_chars_no_sep _ _ [] H). cbn.
  now rewrite string_of_list_ascii_of_string.
Qed.

(** X18.  The two buttons that ask for a value carry the key id in their
    callback data, and the handler takes it out again: for a key id without
    an underscore, a press of [set_limit_<id>] or [set_paid_<id>] by an
    administrator returns normally, shows the prompt and enters the flow
    state of the button for exactly this key id, replacing whatever entry the
    actor had; a press by anyone else is answered with a refusal and changes
    no entry.  The key need not exist.  In both cases nothing is sent to the
    server and the tables are untouched. *)
Theorem start_flow_enters (w : World) (user_id chat_id message_id : Z) (key_id : string) :
  no_underscore key_id = true ->
  let limit := set_limit_callback (press_in user_id chat_id message_id ("set_limit_" ++ key_id)) w in
  let paid := set_paid_callback (press_in user_id chat_id message_id ("set_paid_" ++ key_id)) w in
  fst limit = Ok tt /\ fst paid = Ok tt
  /\ requests (snd limit) = requests w /\ requests (snd paid) = requests w
  /\ db (snd limit) = db w /\ db (snd paid) = db w
  /\ if Database.is_admin (config w) (db w) user_id
     then
       user_states (snd limit)
       = <[user_id := mkUserState "waiting_for_limit" (Some key_id) chat_id message_id]>
           (user_states w)
       /\ user_states (snd paid)
          = <[user_id := mkUserState "waiting_for_date" (Some key_id) chat_id message_id]>
              (user_states w)
       /\ outbox (snd limit)
          = (outbox w ++ [edit_message_text "input_limit" chat_id message_id;
                          answer_callback_query "q1" None])%list
       /\ outbox (snd paid)
          = (outbox w ++ [edit_message_text "input_date" chat_id message_id;
                          answer_callback_query "q1" None])%list
     else
       user_states (snd limit) = user_states w /\ user_states (snd paid) = user_states w
       /\ outbox (snd limit) = (outbox w ++ [answer_callback_query "q1" (Some "not_admin")])%list
       /\ outbox (snd paid) = (outbox w ++ [answer_callback_query "q1" (Some "not_admin")])%list.
Proof.
  intros H. destruct (split_prefixed key_id H) as (_ & _ & Hl & Hp). cbv zeta.
  unfold set_limit_callback, set_paid_callback, start_flow, db_is_admin, bot, press_in.
  unfold_M. cbn [call_from_user data call_chat_id call_message_id call_id].
  rewrite Hl, Hp. unfold index. cbn.
  destruct (Database.is_admin (config w) (db w) user_id); cbn.
  - repeat split; try reflexivity; now rewrite <- app_assoc.
  - repeat split; reflexivity.
Qed.

(** The administrator presses the two buttons of key 7. *)
Lemma start_flow_enters_witness :
  user_states
    (snd (set_limit_callback (press_in root root 10 "set_limit_7")
                             (world_of server_down empty_store ∅)))
  = <[root := mkUserState "waiting_for_limit" (Some "7") root 10]> ∅.
Proof.
  pose proof (start_flow_enters (world_of server_down empty_store ∅) root root 10 "7"
                                eq_refl) as H.
  cbv zeta in H. destruct H as (_ & _ & _ & _ & _ & _ & H).
  change (Database.is_admin (config (world_of server_down empty_store ∅))
            (db (world_of server_down empty_store ∅)) root) with true in H.
  destruct H as (H & _). exact H.
Defined.

(** X19.  The two buttons of a key act only for its owner and for
    administrators.  A press of [delete_<id>] or [key_<id>] by anyone else,
    or for a key id without a row, makes no request, is answered with a single
    notice and changes no flow entry; a press of [delete_<id>] by the owner
    or an administrator makes exactly one request, the deletion of that key on
    the server.  Neither handler ever changes a flow entry, so the Cancel
    button of a prompt (callback data [key_<id>]) leaves the pending flow in
    place. *)
Theorem key_buttons_access (call : CallbackQuery) (w : World) :
  let user_id := call_from_user call in
  let deleted := delete_key_callback call w in
  let shown := key_info_callback call w in
  user_states (snd deleted) = user_states w
  /\ user_states (snd shown) = user_states w
  /\ forall key_id,
       index (split "_" (data call)) 1 = Ok key_id ->
       if may_manage w user_id key_id
       then requests (snd deleted) = (requests w ++ [DELETE_access_key key_id])%list
            /\ fst deleted = Ok tt
       else requests (snd deleted) = requests w /\ requests (snd shown) = requests w
            /\ (exists notice,
                   outbox (snd deleted)
                   = (outbox w ++ [answer_callback_query (call_id call) (Some notice)])%list
                   /\ outbox (snd shown)
                      = (outbox w ++ [answer_callback_query (call_id call) (Some notice)])%list)
            /\ fst deleted = Ok tt /\ fst shown = Ok tt.
Proof.
  cbv zeta. unfold may_manage, Database.get_key_owner.
  unfold delete_key_callback, key_info_callback, get_key_by_id, db_is_admin, db_call,
    db_log_activity, bot, OutlineAPI.delete_access_key.
  unfold_M. cbn.
  destruct (index (split "_" (data call)) 1) as [k | e]; cbn;
    [| repeat split; try reflexivity; discriminate].
  destruct (List.find (Database.has_key_id k) (access_keys (db w))) as [row |] eqn:Hf; cbn.
  - destruct (k_user_id row =? call_from_user call) eqn:Ho; cbn.
    + split; [| split].
      * case_request (DELETE_access_key k) w; reflexivity.
      * match goal with
        | |- context [format_key_info row ?w1] =>
            destruct (remote_only_format_key_info row w1) as [sent Hs];
            destruct (format_key_info row w1) as [[text | e] w2]
        end; cbn in *; subst w2; reflexivity.
      * intros key_id [= <-]. rewrite Hf. cbn. rewrite Ho. cbn.
        case_request (DELETE_access_key k) w; cbn; auto.
    + destruct (Database.is_admin (config w) (db w) (call_from_user call)) eqn:Ha; cbn.
      * split; [| split].
        -- case_request (DELETE_access_key k) w; reflexivity.
        -- match goal with
           | |- context [format_key_info row ?w1] =>
               destruct (remote_only_format_key_info row w1) as [sent Hs];
               destruct (format_key_info row w1) as [[text | e] w2]
           end; cbn in *; subst w2; reflexivity.
        -- intros key_id [= <-]. rewrite Hf. cbn. rewrite Ho. cbn.
           case_request (DELETE_access_key k) w; cbn; auto.
      * split; [reflexivity |]. split; [reflexivity |].
        intros key_id [= <-]. rewrite Hf. cbn. rewrite Ho. cbn.
        repeat split; try reflexivity. exists "not_admin". auto.
  - split; [reflexivity |]. split; [reflexivity |].
    intros key_id [= <-]. rewrite Hf. cbn.
    repeat split; try reflexivity. exists "key_not_found". auto.
Qed.

(** ** Who can be asked for a limit or a date *)

Lemma save_user_is_admin (cfg : Config) (now : Z) (st : Store) (d : Database.UserData) (v : Z) :
  Database.is_admin cfg (snd (Database.save_user now st d)) v = Database.is_admin cfg st v.
Proof.
  unfold Database.save_user.
  destruct (Database.ud_id d) as [user_id |]; [| reflexivity].
  destruct (user_id =? 0); [reflexivity |].
  unfold Database.is_admin. destruct (existsb _ _); [reflexivity |].
  destruct (Database.get_user st user_id) as [old |] eqn:Hold; cbn [snd].
  - destruct (Z.eq_dec v user_id) as [-> | Hv].
    + rewrite get_user_update_same by apply keeps_with_profile. now rewrite Hold.
    + now rewrite get_user_update_other by (auto using keeps_with_profile).
  - rewrite get_user_app_new. destruct (Database.get_user st v) eqn:Hv; [reflexivity |].
    cbn. destruct (user_id =? v); reflexivity.
Qed.

Lemma is_admin_users (cfg : Config) (st st' : Store) (v : Z) :
  users st' = users st -> Database.is_admin cfg st' v = Database.is_admin cfg st v.
Proof.
  intros H. unfold Database.is_admin, Database.get_user. now rewrite H.
Qed.

Lemma insert_or_ignore_user_is_admin (cfg : Config) (st st' : Store) (user_id : Z)
      (name : string) (now : Z) (v : Z) :
  users st' = Database.insert_or_ignore_user user_id name now (users st) ->
  Database.is_admin cfg st' v = Database.is_admin cfg st v.
Proof.
  intros H. unfold Database.is_admin, Database.get_user. rewrite H.
  destruct (existsb _ (ADMIN_IDS cfg)); [reflexivity |].
  unfold Database.insert_or_ignore_user. destruct (existsb _ (users st)); [reflexivity |].
  clear H. induction (users st) as [| u us IH]; cbn.
  - destruct (user_id =? v); reflexivity.
  - destruct (u_user_id u =? v); [reflexivity | exact IH].
Qed.

Lemma sync_loop_is_admin (cfg : Config) (now : Z) (dbk : gmap string Z)
      (listing : list KeyJson) (st : Store) (v : Z) :
  Database.is_admin cfg (snd (Database.sync_loop now dbk listing st)) v
  = Database.is_admin cfg st v.
Proof.
  revert st. induction listing as [| key rest IH]; intros st; [reflexivity |].
  cbn [Database.sync_loop].
  destruct (Database.sync_key now dbk key st) as [st1 | e] eqn:Hs; [| reflexivity].
  rewrite IH.
  destruct (j_id key) as [i |] eqn:Hi;
    [| rewrite (sync_key_no_id _ _ _ _ Hi) in Hs; discriminate].
  destruct (dbk !! i) as [l |] eqn:Hl.
  - apply (sync_key_known_ok _ _ _ _ _ _ _ Hi Hl) in Hs as ->.
    apply is_admin_users. now destruct (negb _).
  - pose proof (sync_key_new now dbk key st i Hi Hl) as H.
    destruct (insertable key i).
    + destruct H as (n & url & _ & _ & H). rewrite H in Hs. injection Hs as <-.
      now apply (insert_or_ignore_user_is_admin cfg st _ (- n) (Database.key_name_of key i) now).
    + destruct H as (e & H). congruence.
Qed.

Lemma flows_from_preorder : PreOrder flows_from.
Proof.
  split.
  - intros w. split; [reflexivity |]. split; [reflexivity |]. intros u us Hu Ha. left. eauto.
  - intros w1 w2 w3 (C1 & A1 & F1) (C2 & A2 & F2).
    split; [congruence |]. split.
    + intros u. rewrite <- A1, <- C1. apply A2.
    + intros u us Hu Ha. destruct (F2 u us Hu Ha) as [(us0 & Hu0 & Ha0) | Hadm].
      * exact (F1 u us0 Hu0 Ha0).
      * right. rewrite C1, A1 in Hadm. exact Hadm.
Qed.

#[local] Existing Instance flows_from_preorder.

Lemma flows_from_admin_flows (w w' : World) :
  flows_from w w' -> admin_flows w -> admin_flows w'.
Proof.
  intros (C & A & F) Hw u us Hu Ha. rewrite C, A.
  destruct (F u us Hu Ha) as [(us0 & Hu0 & Ha0) | Hadm]; [now apply (Hw u us0) | exact Hadm].
Qed.

Lemma flows_from_same (w w' : World) :
  config w' = config w -> users (db w') = users (db w) -> user_states w' = user_states w ->
  flows_from w w'.
Proof.
  intros C U S. split; [exact C |]. split; [intros u; now apply is_admin_users |].
  intros u us Hu Ha. left. rewrite S in Hu. eauto.
Qed.

Lemma bot_flows_from (a : BotAction) : keeps flows_from (bot a).
Proof. intros w. now apply flows_from_same. Qed.

Lemma log_flows_from (user_id : Z) (action details : string) :
  keeps flows_from (db_log_activity user_id action details).
Proof.
  intros w. apply flows_from_same; try reflexivity.
  unfold db_log_activity, modify, Database.log_activity. cbn.
  now destruct (negb _).
Qed.

Lemma remote_only_flows_from {A} (m : M A) : remote_only m -> keeps flows_from m.
Proof. apply remote_only_keeps. intros w sent. now apply flows_from_same. Qed.

Lemma request_flows_from (req : Request) : keeps flows_from (OutlineAPI._request req).
Proof. apply remote_only_flows_from, remote_only_request. Qed.

Lemma delete_state_flows_from (user_id : Z) :
  keeps flows_from (modify (set_user_states (delete user_id))).
Proof.
  intros w. split; [reflexivity |]. split; [reflexivity |].
  intros u us Hu Ha. left. cbn in Hu.
  apply lookup_delete_Some in Hu as [_ Hu]. eauto.
Qed.

Lemma name_state_flows_from (user_id chat_id message_id : Z) :
  keeps flows_from
        (modify (set_user_states
                   (<[user_id := mkUserState "waiting_for_key_name" None chat_id message_id]>))).
Proof.
  intros w. split; [reflexivity |]. split; [reflexivity |].
  intros u us Hu Ha. left. cbn in Hu.
  apply lookup_insert_Some in Hu as [[_ <-] | [_ Hu]]; [| eauto].
  destruct Ha as [Ha | Ha]; discriminate.
Qed.

Lemma save_user_flows_from (d : World -> Database.UserData) :
  keeps flows_from
        (modify (fun w => set_db (fun st => snd (Database.save_user (time_now w) st (d w))) w)).
Proof.
  intros w. split; [reflexivity |]. split; [intros u; apply save_user_is_admin |].
  intros u us Hu Ha. left. eauto.
Qed.

Lemma save_access_key_flows_from (user_id : Z) (key_data : KeyJson) :
  keeps flows_from (db_save_access_key user_id key_data).
Proof.
  intros w. apply flows_from_same; try reflexivity.
  unfold db_save_access_key, modify, Database.save_access_key. cbn.
  destruct (j_id key_data); [destruct (List.find _ _) |]; reflexivity.
Qed.

Lemma sync_flows_from : keeps flows_from Database.sync_keys_with_server.
Proof.
  intros w. destruct (sync_keys_with_server_run w) as (sent & listing & _ & ->).
  split; [reflexivity |]. split; [intros u; apply sync_loop_is_admin |].
  intros u us Hu Ha. left. eauto.
Qed.

Lemma start_flow_flows_from (prompt new_state : string) (call : CallbackQuery) :
  keeps flows_from (start_flow prompt new_state call).
Proof.
  intros w. unfold start_flow, db_is_admin, bot. unfold_M. cbn.
  destruct (Database.is_admin (config w) (db w) (call_from_user call)) eqn:Hadm; cbn;
    [| now apply flows_from_same].
  destruct (index (split "_" (data call)) 2) as [key_id | e]; cbn; [| reflexivity].
  split; [reflexivity |]. split; [reflexivity |].
  intros u us Hu Ha. cbn in Hu.
  apply lookup_insert_Some in Hu as [[<- _] | [_ Hu]]; [now right | left; eauto].
Qed.

#[local] Hint Resolve bot_flows_from log_flows_from remote_only_flows_from
  request_flows_from delete_state_flows_from name_state_flows_from
  save_access_key_flows_from start_flow_flows_from sync_flows_from : frame.

Ltac unfold_handlers_but_start_flow :=
  unfold start_command, help_command, unknown_message, process_limit_input,
    process_date_input, handle_key_name_input, create_key_callback, key_info_callback,
    back_to_main_callback, set_limit_callback, set_paid_callback,
    delete_key_callback, my_keys_callback, all_keys_callback, Database.get_all_keys,
    finish_flow, get_key_by_id, db_is_admin,
    OutlineAPI.create_access_key, OutlineAPI.delete_access_key.

(** X20.  Only administrators are ever asked for a limit or a date.  The
    property that every actor whose flow entry waits for a limit or a date is
    an administrator holds when no flow is pending and is kept by every
    handler of the bot, whatever the input (no handler changes anybody's
    rights).  So when [process_limit_input] makes a request for a message,
    the sender is an administrator. *)
Theorem admin_flows_invariant (profile : Database.UserData) :
  (forall w, user_states w = ∅ -> admin_flows w)
  /\ Forall (fun h : Message -> M unit =>
               forall message w, admin_flows w -> admin_flows (snd (h message w)))
            (message_handlers profile)
  /\ Forall (fun h : CallbackQuery -> M unit =>
               forall call w, admin_flows w -> admin_flows (snd (h call w)))
            callback_handlers
  /\ (forall message w,
         admin_flows w ->
         requests (snd (process_limit_input message w)) <> requests w ->
         Database.is_admin (config w) (db w) (from_user message) = true).
Proof.
  split; [| split; [| split]].
  - intros w Hw u us Hu. rewrite Hw in Hu. now apply lookup_empty_Some in Hu.
  - unfold message_handlers.
    repeat apply List.Forall_cons; try apply List.Forall_nil;
      intros message w; apply flows_from_admin_flows; revert w;
      refine (_ : keeps flows_from _);
      unfold_handlers_but_start_flow; frame; eauto with frame.
    apply (save_user_flows_from (fun _ => _)).
  - unfold callback_handlers.
    repeat apply List.Forall_cons; try apply List.Forall_nil;
      intros call w; apply flows_from_admin_flows; revert w;
      refine (_ : keeps flows_from _);
      unfold_handlers_but_start_flow; try solve [apply start_flow_flows_from];
      frame; eauto with frame.
  - intros message w Hw Hreq.
    destruct (user_states w !! from_user message) as [us |] eqn:Hus.
    + destruct (String.eqb_spec (state us) "waiting_for_limit") as [Hst | Hst].
      * apply (Hw _ us Hus). now left.
      * exfalso. apply Hreq. unfold process_limit_input. unfold_M. cbn. rewrite Hus.
        apply String.eqb_neq in Hst. now rewrite Hst.
    + exfalso. apply Hreq. unfold process_limit_input. unfold_M. cbn. now rewrite Hus.
Qed.

(** ** Whole flows *)

Lemma handle_key_name_input_created (message : Message) (w : World) (us : UserState)
      (response : Response) :
  user_states w !! from_user message = Some us ->
  state us = "waiting_for_key_name" ->
  oracle w (requests w)
         (POST_access_keys (if String.eqb (strip (text message)) "" then None
                            else Some (strip (text message)))) = Some response ->
  let w' := snd (handle_key_name_input message w) in
  user_states w' = delete (from_user message) (user_states w)
  /\ requests w'
     = (requests w ++ [POST_access_keys (if String.eqb (strip (text message)) "" then None
                                         else Some (strip (text message)))])%list
  /\ users (db w') = users (db w)
  /\ access_keys (db w')
     = access_keys (snd (Database.save_access_key (time_now w) (db w) (from_user message)
                                                  (r_key response) None 0))
  /\ config w' = config w.
Proof.
  intros Hus Hst Ho. cbv zeta.
  unfold handle_key_name_input, db_save_access_key, db_log_activity, bot,
    OutlineAPI.create_access_key.
  unfold_M. cbn. rewrite Hus, Hst. cbn.
  rewrite (_request_ok _ _ _ Ho). cbn.
  unfold Database.log_activity, Database.save_access_key.
  destruct (negb (ENABLE_ACCESS_LOG (config w))); cbn;
    destruct (j_id (r_key response)); cbn; try destruct (List.find _ _); cbn;
    repeat split; reflexivity.
Qed.



Lemma set_limit_callback_admin (w : World) (user_id chat_id message_id : Z) (key_id : string) :
  no_underscore key_id = true ->
  Database.is_admin (config w) (db w) user_id = true ->
  let w1 := snd (set_limit_callback
                   (press_in user_id chat_id message_id ("set_limit_" ++ key_id)) w) in
  user_states w1
  = <[user_id := mkUserState "waiting_for_limit" (Some key_id) chat_id message_id]>
      (user_states w)
  /\ requests w1 = requests w.
Proof.
  intros H Hadm. destruct (split_prefixed key_id H) as (_ & _ & Hl & _). cbv zeta.
  unfold set_limit_callback, start_flow, db_is_admin, bot, press_in.
  unfold_M. cbn [call_from_user data call_chat_id call_message_id call_id].
  rewrite Hl. unfold index. cbn. rewrite Hadm. cbn. split; reflexivity.
Qed.

(** X22.  The whole flow of a limit.  An administrator presses the limit
    button of a key (callback data [set_limit_<id>], the id without an
    underscore) and then sends a whole number of gigabytes between 1 and
    9007199.  The first request made is the new cap of exactly this key, of
    exactly that many times 10^9 bytes, and the administrator is idle
    afterwards. *)
Theorem limit_flow_requests (w : World) (user_id chat_id message_id : Z)
        (key_id text : string) :
  no_underscore key_id = true ->
  Database.is_admin (config w) (db w) user_id = true ->
  is_whole_number text = true ->
  1 <= whole_number text <= 9007199 ->
  let w1 := snd (set_limit_callback
                   (press_in user_id chat_id message_id ("set_limit_" ++ key_id)) w) in
  let r := process_limit_input (mkMessage user_id text) w1 in
  idle (snd r) user_id
  /\ exists rest,
       requests (snd r)
       = (requests w ++ PUT_data_limit key_id (whole_number text * 1000000000) :: rest)%list.
Proof.
  intros Hk Hadm Hw Hg w1 r.
  destruct (set_limit_callback_admin w user_id chat_id message_id key_id Hk Hadm)
    as (Hs1 & Hr1).
  fold w1 in Hs1, Hr1.
  assert (Hus : user_states w1 !! from_user (mkMessage user_id text)
                = Some (mkUserState "waiting_for_limit" (Some key_id) chat_id message_id))
    by (rewrite Hs1; apply lookup_insert_eq).
  destruct (process_limit_input_accepted (mkMessage user_id text) w1 _
              (whole_number text * 1000000000) Hus eq_refl
              (limit_bytes_of_whole_number text Hw Hg)) as (Hs2 & rest & Hr2).
  fold r in Hs2, Hr2. split.
  - unfold idle. rewrite Hs2. apply lookup_delete_eq.
  - exists rest. rewrite Hr2, Hr1. unfold change_request. cbn [st_key_id str_of default].
    destruct (Z.ltb_spec 0 (whole_number text * 1000000000)); [reflexivity | lia].
Qed.

(** The administrator sets the limit of key 7 to 5 gigabytes. *)
Lemma limit_flow_requests_witness :
  exists rest,
    requests
      (snd (process_limit_input
              (mkMessage root "5")
              (snd (set_limit_callback (press_in root root 10 "set_limit_7")
                                       (world_of server_down empty_store ∅)))))
    = PUT_data_limit "7" 5000000000 :: rest.
Proof.
  assert (Hg : 1 <= whole_number "5" <= 9007199) by (vm_compute; split; discriminate).
  destruct (limit_flow_requests (world_of server_down empty_store ∅) root root 10 "7" "5"
                                eq_refl eq_refl eq_refl Hg) as (_ & rest & H).
  exists rest. exact H.
Defined.

(** ** Which handler a button reaches *)

Lemma prefix_get (p s : string) (n : nat) (c : ascii) :
  String.prefix p s = true -> String.get n p = Some c -> String.get n s = Some c.
Proof.
  revert s n. induction p as [| a p IH]; intros s n Hp Hg; [discriminate |].
  destruct s as [| b s]; [discriminate |]. cbn in Hp.
  destruct (ascii_dec a b) as [<- | _]; [| discriminate].
  destruct n as [| n]; cbn in *; [exact Hg | now apply IH].
Qed.

Lemma eqb_get (s t : string) (n : nat) (c : ascii) :
  String.eqb s t = true -> String.get n t = Some c -> String.get n s = Some c.
Proof. intros H. apply String.eqb_eq in H. now subst. Qed.

(** X23.  No button press reaches two handlers: whatever the callback
    data, at most one of the eight filters of the button handlers accepts it,
    so the order in which the handlers are registered does not matter.  The
    data of the menu buttons and the data made for a key ([key_<id>],
    [set_limit_<id>], [set_paid_<id>], [delete_<id>], for any id at all) are
    accepted by the filter of the handler meant for them, and by no
    other. *)
Theorem callback_filters_exclusive (data key_id : string) :
  (length (List.filter (fun b : bool => b) (accepted_by data)) <= 1)%nat
  /\ accepted_by "create_key" = [true; false; false; false; false; false; false; false]
  /\ accepted_by "my_keys" = [false; true; false; false; false; false; false; false]
  /\ accepted_by "all_keys" = [false; false; true; false; false; false; false; false]
  /\ accepted_by ("key_" ++ key_id) = [false; false; false; true; false; false; false; false]
  /\ accepted_by "back_to_main" = [false; false; false; false; true; false; false; false]
  /\ accepted_by ("set_limit_" ++ key_id)
     = [false; false; false; false; false; true; false; false]
  /\ accepted_by ("set_paid_" ++ key_id)
     = [false; false; false; false; false; false; true; false]
  /\ accepted_by ("delete_" ++ key_id)
     = [false; false; false; false; false; false; false; true].
Proof.
  split; [| repeat split; try reflexivity; destruct key_id; reflexivity].
  unfold accepted_by, callback_filters, startswith. cbn [map].
  pose proof (fun H => eqb_get data "create_key" 0 "c" H eq_refl) as F1.
  pose proof (fun H => eqb_get data "my_keys" 0 "m" H eq_refl) as F2.
  pose proof (fun H => eqb_get data "all_keys" 0 "a" H eq_refl) as F3.
  pose proof (fun H => prefix_get "key_" data 0 "k" H eq_refl) as F4.
  pose proof (fun H => eqb_get data "back_to_main" 0 "b" H eq_refl) as F5.
  pose proof (fun H => prefix_get "set_limit_" data 4 "l" H eq_refl) as F6.
  pose proof (fun H => prefix_get "set_limit_" data 0 "s" H eq_refl) as F6'.
  pose proof (fun H => prefix_get "set_paid_" data 4 "p" H eq_refl) as F7.
  pose proof (fun H => prefix_get "set_paid_" data 0 "s" H eq_refl) as F7'.
  pose proof (fun H => prefix_get "delete_" data 0 "d" H eq_refl) as F8.
  destruct (String.eqb data "create_key"); destruct (String.eqb data "my_keys");
    destruct (String.eqb data "all_keys"); destruct (String.prefix "key_" data);
    destruct (String.eqb data "back_to_main"); destruct (String.prefix "set_limit_" data);
    destruct (String.prefix "set_paid_" data); destruct (String.prefix "delete_" data);
    cbn; try lia; exfalso;
    repeat match goal with
           | F : true = true -> _ |- _ => specialize (F eq_refl)
           | F : false = true -> _ |- _ => clear F
           end;
    congruence.
Qed.

(** ** Gigabytes *)

(** X24.  [gb_to_bytes] counts a gigabyte as 1024^3 bytes and is exact
    for a whole number of gigabytes from 1 to 8388607, whether it is given as
    an [int] or as the [float] of that value (the three products stay below
    2^53).  The handler of a limit does not use it: for the same number,
    entered by an actor who was asked for a limit, [process_limit_input] asks
    the server for a cap of 10^9 bytes per gigabyte, which is less. *)
Theorem gb_to_bytes_whole (g : Z) :
  1 <= g <= 8388607 ->
  Utils.gb_to_bytes (Utils.NInt g) = Ok (g * 1073741824)
  /\ Utils.gb_to_bytes (Utils.NFloat (float_of_Z g)) = Ok (g * 1073741824)
  /\ (forall message w us,
         user_states w !! from_user message = Some us ->
         state us = "waiting_for_limit" ->
         is_whole_number (text message) = true -> whole_number (text message) = g ->
         (exists rest,
             requests (snd (process_limit_input message w))
             = (requests w ++ PUT_data_limit (str_of (st_key_id us)) (g * 1000000000)
                           :: rest)%list)
         /\ g * 1000000000 < g * 1073741824).
Proof.
  intros Hg.
  assert (H53 : 2 ^ 53 = 9007199254740992) by reflexivity.
  split; [| split].
  - unfold Utils.gb_to_bytes. f_equal. lia.
  - unfold Utils.gb_to_bytes.
    destruct (float_of_Z_normal g) as (m0 & k0 & N0 & ->); [lia |].
    destruct (float_of_Z_normal 1024) as (mk & kk & Nk & ->); [lia |].
    destruct (float_of_Z_normal (g * 1024)) as (m1 & k1 & N1 & _); [lia |].
    destruct (float_of_Z_normal (g * 1024 * 1024)) as (m2 & k2 & N2 & _); [lia |].
    destruct (float_of_Z_normal (g * 1024 * 1024 * 1024)) as (m3 & k3 & N3 & _); [lia |].
    rewrite (fmul_normal g 1024 m0 mk m1 k0 kk k1 N0 Nk N1).
    rewrite (fmul_normal (g * 1024) 1024 m1 mk m2 k1 kk k2 N1 Nk N2).
    rewrite (fmul_normal (g * 1024 * 1024) 1024 m2 mk m3 k2 kk k3 N2 Nk N3).
    rewrite (int_of_float_normal _ _ _ N3). f_equal. lia.
  - intros message w us Hus Hst Ht <-. split; [| lia].
    assert (Hb : limit_bytes_of (text message)
                 = Ok (whole_number (text message) * 1000000000))
      by (apply limit_bytes_of_whole_number; [exact Ht | lia]).
    destruct (process_limit_input_accepted message w us _ Hus Hst Hb) as [_ [rest Hr]].
    exists rest. rewrite Hr. unfold change_request.
    destruct (Z.ltb_spec 0 (whole_number (text message) * 1000000000)); [reflexivity | lia].
Qed.

(** Five gigabytes: 5,368,709,120 bytes for the helper, 5,000,000,000 in
    the request of the handler. *)
Lemma gb_to_bytes_whole_witness :
  Utils.gb_to_bytes (Utils.NFloat (float_of_Z 5)) = Ok 5368709120
  /\ exists rest,
       requests (snd (process_limit_input (mkMessage root "5") (world_limit server_silent)))
       = PUT_data_limit "7" 5000000000 :: rest.
Proof.
  assert (Hg : 1 <= 5 <= 8388607) by lia.
  destruct (gb_to_bytes_whole 5 Hg) as (_ & Hf & Ht).
  split; [exact Hf |].
  destruct (Ht (mkMessage root "5") (world_limit server_silent)
               (mkUserState "waiting_for_limit" (Some "7") root 10)
               eq_refl eq_refl eq_refl eq_refl) as ((rest & H) & _).
  exists rest. exact H.
Defined.
